(** * NuxtShip: the template scripts and the auth-context middleware

    A shallow embedding of the repository's TypeScript sources:

    - [deployment/scripts/setup-env.ts]          (Environment Initializer)
    - [deployment/scripts/cleanup-template.ts]   (Template Cleanup Orchestrator:
      the revision guarded by version control, the one guarded by the
      template name, the one that rewrites the README and deletes
      itself, and the one that is the first without its rename loop)
    - [server/middleware/auth-context.ts]        (Auth-Context Bridge, three
      revisions) and [server/utils/auth.ts]
    - the waiting loop of the one-step setup script ([waitForLogto])

    Text is a [string]: the bytes of a well-formed UTF-8 text, which stand
    for the code points of the JavaScript string.  White space and line
    terminators are the ones of ECMAScript, recognised by their encodings;
    [toLowerCase] is a parameter ([Casing]) of which only the behaviour on
    ASCII text is fixed, the case tables of Unicode being the runtime's. *)

From Stdlib Require Import ZArith Ascii String DecimalString.
From stdpp Require Import base option list gmap sets strings.

Set Warnings "-register-all".
#[local] Arguments String.append !_ _ : simpl nomatch.
Local Open Scope Z_scope.

(** ** JavaScript string built-ins *)

Module JsString.

Definition code (c : ascii) : N := N_of_ascii c.

Definition in_range (lo hi : N) (c : ascii) : bool :=
  ((lo <=? code c) && (code c <=? hi))%N.

(** A class of characters of a UTF-8 text: the number of bytes taken by the
    character of the class that the text begins with, [0] when it does not
    begin with one.  A character outside the ASCII range is recognised by
    the bytes of its encoding, which occur nowhere else in a well-formed
    text. *)
Definition class : Type := string -> nat.

(** The characters of [\s] that take one byte: TAB, LF, VT, FF, CR and
    SPACE. *)
Definition is_space1 (c : ascii) : bool :=
  in_range 9 13 c || (code c =? 32)%N.

(** The characters of [\s] that take three bytes: U+1680 (E1 9A 80), U+2000
    to U+200A (E2 80 80 to E2 80 8A), U+2028 and U+2029 (E2 80 A8, E2 80 A9),
    U+202F (E2 80 AF), U+205F (E2 81 9F), U+3000 (E3 80 80) and U+FEFF
    (EF BB BF). *)
Definition is_space3 (a b c : ascii) : bool :=
  ((code a =? 225) && (code b =? 154) && (code c =? 128))%N
  || ((code a =? 226) && (code b =? 128)
      && (in_range 128 138 c || in_range 168 169 c || (code c =? 175)))%N
  || ((code a =? 226) && (code b =? 129) && (code c =? 159))%N
  || ((code a =? 227) && (code b =? 128) && (code c =? 128))%N
  || ((code a =? 239) && (code b =? 187) && (code c =? 191))%N.

(** The class [\s], also the set removed by [String.prototype.trim]: the
    WhiteSpace and LineTerminator code points of ECMAScript.  The one that
    takes two bytes is U+00A0 (C2 A0). *)
Definition white : class :=
  fun s =>
    match s with
    | String a r =>
        if is_space1 a then 1%nat
        else
          match r with
          | String b r' =>
              if ((code a =? 194) && (code b =? 160))%N then 2%nat
              else
                match r' with
                | String c _ => if is_space3 a b c then 3%nat else 0%nat
                | EmptyString => 0%nat
                end
          | EmptyString => 0%nat
          end
    | EmptyString => 0%nat
    end.

(** The line terminators that take one byte: LF and CR. *)
Definition is_line_terminator1 (c : ascii) : bool :=
  (code c =? 10)%N || (code c =? 13)%N.

(** Line terminators, what [.] refuses and where [^] and [$] anchor under
    the [m] flag: LF, CR, U+2028 (E2 80 A8) and U+2029 (E2 80 A9). *)
Definition line_end : class :=
  fun s =>
    match s with
    | String a r =>
        if is_line_terminator1 a then 1%nat
        else
          match r with
          | String b (String c _) =>
              if ((code a =? 226) && (code b =? 128) && in_range 168 169 c)%N
              then 3%nat else 0%nat
          | _ => 0%nat
          end
    | EmptyString => 0%nat
    end.

Definition is_upper (c : ascii) : bool := in_range 65 90 c.
Definition is_lower (c : ascii) : bool := in_range 97 122 c.
Definition is_digit (c : ascii) : bool := in_range 48 57 c.
Definition is_hyphen (c : ascii) : bool := (code c =? 45)%N.
Definition is_ascii (c : ascii) : bool := (code c <? 128)%N.

Definition lower_ascii_char (c : ascii) : ascii :=
  if is_upper c then ascii_of_N (code c + 32) else c.

(** Lower-casing on the ASCII range: [A] to [Z] become [a] to [z], every
    other byte stays. *)
Fixpoint lower_ascii (s : string) : string :=
  match s with
  | EmptyString => EmptyString
  | String c r => String (lower_ascii_char c) (lower_ascii r)
  end.

Fixpoint Forall_chars (P : ascii -> bool) (s : string) : bool :=
  match s with
  | EmptyString => true
  | String c r => P c && Forall_chars P r
  end.

(** [s.toLowerCase()].  The case tables of Unicode belong to the runtime;
    what holds with every version of them is that a text of ASCII
    characters is lower-cased letter by letter. *)
Class Casing := {
  toLowerCase : string -> string;
  toLowerCase_ascii :
    forall s, Forall_chars is_ascii s = true -> toLowerCase s = lower_ascii s
}.

(** One byte of a scan that takes the characters of a class as units:
    [skip] bytes of a recognised character are still to be passed.  [Some k]
    when the byte at the head belongs to a character of the class, [k] of
    its bytes coming after it; [None] when it does not. *)
Definition step (cls : class) (skip : nat) (s : string) : option nat :=
  match skip with
  | S k => Some k
  | O => match cls s with
         | S k => Some k
         | O => None
         end
  end.

Arguments white : simpl never.
Arguments line_end : simpl never.
Arguments step : simpl never.

(** The text is made of characters of the class only. *)
Fixpoint all_from (cls : class) (skip : nat) (s : string) : bool :=
  match s with
  | EmptyString => true
  | String _ r =>
      match step cls skip s with
      | Some k => all_from cls k r
      | None => false
      end
  end.

Definition all_of (cls : class) (s : string) : bool := all_from cls 0 s.

Fixpoint trimStart_from (skip : nat) (s : string) : string :=
  match s with
  | EmptyString => EmptyString
  | String _ r =>
      match step white skip s with
      | Some k => trimStart_from k r
      | None => s
      end
  end.

Definition trimStart (s : string) : string := trimStart_from 0 s.

(** The text up to where nothing but white space follows. *)
Fixpoint trimEnd (s : string) : string :=
  match s with
  | EmptyString => EmptyString
  | String c r => if all_of white s then EmptyString else String c (trimEnd r)
  end.

(** [s.trim()] *)
Definition trim (s : string) : string := trimEnd (trimStart s).

(** The longest prefix of [s] made of characters of the class [cls], and
    what follows it: a greedy [cls*] at the start of [s], for a class of
    one-byte characters. *)
Fixpoint span (cls : ascii -> bool) (s : string) : string * string :=
  match s with
  | EmptyString => (EmptyString, EmptyString)
  | String c r =>
      if cls c then let '(a, b) := span cls r in (String c a, b)
      else (EmptyString, s)
  end.

(** What follows the longest prefix of [s] made of characters of the class
    [cls]: where a greedy [cls*] ends. *)
Fixpoint after_run (cls : class) (skip : nat) (s : string) : string :=
  match s with
  | EmptyString => EmptyString
  | String _ r =>
      match step cls skip s with
      | Some k => after_run cls k r
      | None => s
      end
  end.

(** [s.replace(/C+/g, rep)] for a character class [C] and a replacement
    with no [$]: the matcher walks the text from the left; where a greedy
    [C+] matches it writes [rep] and resumes after the match, elsewhere it
    copies one byte.  The fuel bounds the number of steps. *)
Fixpoint replace_runs_fuel (fuel : nat) (cls : class) (rep s : string)
  : string :=
  match fuel with
  | O => s
  | S fuel' =>
      match s with
      | EmptyString => EmptyString
      | String c r =>
          match cls s with
          | S k => rep +:+ replace_runs_fuel fuel' cls rep (after_run cls k r)
          | O => String c (replace_runs_fuel fuel' cls rep r)
          end
      end
  end.

Definition replace_runs (cls : class) (rep s : string) : string :=
  replace_runs_fuel (String.length s) cls rep s.

(** The same replacement by structural recursion; [in_run] tells that the
    previous byte belonged to a character of the class.
    [replace_runs_collapse] below shows that the two agree. *)
Fixpoint collapse_runs (cls : class) (rep : string) (skip : nat) (in_run : bool)
  (s : string) : string :=
  match s with
  | EmptyString => EmptyString
  | String c r =>
      match step cls skip s with
      | Some k =>
          if in_run then collapse_runs cls rep k true r
          else rep +:+ collapse_runs cls rep k true r
      | None => String c (collapse_runs cls rep 0 false r)
      end
  end.

(** [s.replace(/C/g, rep)] for a class [C] of one-byte characters and a
    replacement with no [$]: every character of the class becomes [rep].
    With an empty [rep] this is also the removal of every character outside
    a set of ASCII characters, whose bytes are then all in [C]. *)
Fixpoint replace_chars (cls : ascii -> bool) (rep s : string) : string :=
  match s with
  | EmptyString => EmptyString
  | String c r =>
      if cls c then rep +:+ replace_chars cls rep r
      else String c (replace_chars cls rep r)
  end.

Fixpoint startsWith (p s : string) : bool :=
  match p, s with
  | EmptyString, _ => true
  | String a p', String b s' => if Ascii.eqb a b then startsWith p' s' else false
  | String _ _, EmptyString => false
  end.

Fixpoint drop (n : nat) (s : string) : string :=
  match n, s with
  | O, _ => s
  | S n', String _ r => drop n' r
  | S _, EmptyString => EmptyString
  end.

(** The first occurrence of [pat] in [s]: what stands before it and what
    stands after it. *)
Fixpoint find (pat s : string) : option (string * string) :=
  if startsWith pat s then Some (EmptyString, drop (String.length pat) s)
  else
    match s with
    | EmptyString => None
    | String c r =>
        match find pat r with
        | Some (b, a) => Some (String c b, a)
        | None => None
        end
    end.

(** The suffix of [s] that begins at the first position where one of
    [stops] begins; empty when there is none.  This is where a lazy
    [[\s\S]*?] followed by a look-ahead for [stops] or the end of input
    stops. *)
Fixpoint skip_until (stops : list string) (s : string) : string :=
  if existsb (fun p => startsWith p s) stops then s
  else
    match s with
    | EmptyString => EmptyString
    | String _ r => skip_until stops r
    end.

(** [GetSubstitution] for a pattern with no capture group: [$$] is a
    dollar sign, [$&] the match, [$`] the text before it, [$'] the text
    after it; any other [$] stands for itself. *)
Fixpoint expand (matched before after repl : string) : string :=
  match repl with
  | EmptyString => EmptyString
  | String c r =>
      if (code c =? 36)%N then
        match r with
        | String d r' =>
            if (code d =? 36)%N then String d (expand matched before after r')
            else if (code d =? 38)%N then matched +:+ expand matched before after r'
            else if (code d =? 96)%N then before +:+ expand matched before after r'
            else if (code d =? 39)%N then after +:+ expand matched before after r'
            else String c (expand matched before after r)
        | EmptyString => String c EmptyString
        end
      else String c (expand matched before after r)
  end.

(** [s.replace(pat, repl)] for a literal, non-empty [pat] (a string, or a
    regular expression without flags that spells one): the first
    occurrence only. *)
Definition replace_first (pat repl s : string) : string :=
  match find pat s with
  | Some (b, a) => b +:+ expand pat b a repl +:+ a
  | None => s
  end.

(** [s.replace(/pat/g, repl)] for a literal, non-empty [pat]: every
    occurrence, from the left, without overlap. [before] is the part of
    the subject already passed. *)
Fixpoint replace_all_fuel (fuel : nat) (pat repl before s : string) : string :=
  match fuel with
  | O => s
  | S f =>
      if startsWith pat s then
        let after := drop (String.length pat) s in
        expand pat before after repl
          +:+ replace_all_fuel f pat repl (before +:+ pat) after
      else
        match s with
        | EmptyString => EmptyString
        | String c r =>
            String c (replace_all_fuel f pat repl (before +:+ String c EmptyString) r)
        end
  end.

Definition replace_all (pat repl s : string) : string :=
  replace_all_fuel (S (String.length s)) pat repl EmptyString s.

(** [s.replace(/H[\s\S]*?(?=S1|S2|$)/, '')] for a literal header [H] and
    literal stops: from the first [H] up to the next stop, or to the end. *)
Definition remove_section (header : string) (stops : list string) (s : string)
  : string :=
  match find header s with
  | Some (b, a) => b +:+ skip_until stops a
  | None => s
  end.

(** The text before the first character of the class [cls]: what a greedy
    [[^C]*] takes. *)
Fixpoint before (cls : class) (s : string) : string :=
  match s with
  | EmptyString => EmptyString
  | String c r =>
      match cls s with
      | O => String c (before cls r)
      | S _ => EmptyString
      end
  end.

(** The first capture of [s.match(R)], where [R] is the multi-line
    pattern: start of line, a literal [KEY], a group taking the rest of
    the line, end of line.  It is the first line that begins with [KEY],
    less the key; [at_start] tells that the position is the start of the
    input or follows a line terminator, of which [skip] bytes are still to
    be passed. *)
Fixpoint match_line_from (key : string) (at_start : bool) (skip : nat)
  (s : string) : option string :=
  if at_start && startsWith key s then
    Some (before line_end (drop (String.length key) s))
  else
    match s with
    | EmptyString => None
    | String _ r =>
        match step line_end skip s with
        | Some k => match_line_from key (Nat.eqb k 0) k r
        | None => match_line_from key false 0 r
        end
    end.

Definition match_line (key : string) (at_start : bool) (s : string)
  : option string :=
  match_line_from key at_start 0 s.

End JsString.

(** ** Name derivation ([updatePackageInfo], the [npmName] line) *)

Module NameDerivation.
Import JsString.

(** The class [[a-z0-9-]] and its complement [[^a-z0-9-]]. *)
Definition npm_char (c : ascii) : bool := is_lower c || is_digit c || is_hyphen c.
Definition not_npm_char (c : ascii) : bool := negb (npm_char c).

(** [projectName.toLowerCase().replace(/\s+/g, '-').replace(/[^a-z0-9-]/g, '')] *)
Definition npmName `{Casing} (projectName : string) : string :=
  replace_chars not_npm_char EmptyString
    (replace_runs white "-" (toLowerCase projectName)).

(** The derivation as the specification words it, on the lower-cased name,
    in one pass: a run of white space counts once, as a hyphen; any other
    character is kept when it is a lower-case letter, a digit or a hyphen.
    [in_run] tells that the previous byte belonged to white space, [skip]
    counts the bytes of a white-space character still to be passed. *)
Fixpoint derive_from (skip : nat) (in_run : bool) (s : string) : string :=
  match s with
  | EmptyString => EmptyString
  | String c r =>
      match step white skip s with
      | Some k =>
          if in_run then derive_from k true r
          else String "-" (derive_from k true r)
      | None =>
          if npm_char c then String c (derive_from 0 false r)
          else derive_from 0 false r
      end
  end.

Definition derive_name `{Casing} (projectName : string) : string :=
  derive_from 0 false (toLowerCase projectName).

End NameDerivation.

(** The case tables restricted to ASCII.  Every [Casing] agrees with it on
    ASCII text, and the examples lower-case nothing else. *)
Module RefCasing.
Import JsString.

#[local] Instance casing : Casing :=
  {| toLowerCase := lower_ascii; toLowerCase_ascii := fun s _ => eq_refl |}.

End RefCasing.

(** ** The SQL statement of the Logto revision of the middleware *)

Module Sql.
Import JsString.

Definition is_quote (c : ascii) : bool := (code c =? 39)%N.

(** [userId.replace(/'/g, "''")] *)
Definition escape_quotes (userId : string) : string :=
  replace_chars is_quote "''" userId.

Definition set_session_prefix : string := "SET SESSION auth.user_id = ".

(** The template literal handed to [sql.raw]:
    [`SET SESSION auth.user_id = '${userId.replace(/'/g, "''")}'`] *)
Definition set_session_sql (userId : string) : string :=
  set_session_prefix +:+ "'" +:+ escape_quotes userId +:+ "'".

(** How SQL reads the inside of a string constant (standard-conforming
    strings): two quotes in a row stand for one quote character, a quote
    followed by anything else closes the constant.  The result is the
    denoted text and the input left after the closing quote; [None] when
    the constant is never closed. *)
Fixpoint read_literal_body (s : string) : option (string * string) :=
  match s with
  | EmptyString => None
  | String c r =>
      if is_quote c then
        match r with
        | String c' r' =>
            if is_quote c' then
              match read_literal_body r' with
              | Some (v, rest) => Some (String c' v, rest)
              | None => None
              end
            else Some (EmptyString, r)
        | EmptyString => Some (EmptyString, EmptyString)
        end
      else
        match read_literal_body r with
        | Some (v, rest) => Some (String c v, rest)
        | None => None
        end
  end.

(** A string constant: an opening quote, then the body. *)
Definition read_literal (s : string) : option (string * string) :=
  match s with
  | String c r => if is_quote c then read_literal_body r else None
  | EmptyString => None
  end.

End Sql.

(** ** JSON documents and the JavaScript operations the scripts apply to them *)

Module Json.
Import JsString.

(** What [JSON.parse] returns.  An object keeps its members in property
    order; a number is an integer (no manifest of this repository holds
    another kind). *)
Inductive json : Type :=
| JNull
| JBool (b : bool)
| JNum (n : Z)
| JStr (s : string)
| JArr (items : list json)
| JObj (members : list (string * json)).

(** Own properties of an ordinary object.  Assigning to a present key keeps
    its place, assigning to an absent one appends it (every key the scripts
    assign is a name, never an array index); [delete] removes the key. *)
Fixpoint obj_get (k : string) (m : list (string * json)) : option json :=
  match m with
  | [] => None
  | (k', v) :: r => if String.eqb k k' then Some v else obj_get k r
  end.

Fixpoint obj_set (k : string) (v : json) (m : list (string * json))
  : list (string * json) :=
  match m with
  | [] => [(k, v)]
  | (k', v') :: r =>
      if String.eqb k k' then (k', v) :: r else (k', v') :: obj_set k v r
  end.

Fixpoint obj_delete (k : string) (m : list (string * json))
  : list (string * json) :=
  match m with
  | [] => []
  | (k', v') :: r =>
      if String.eqb k k' then obj_delete k r else (k', v') :: obj_delete k r
  end.

(** Truthiness, of a value and of the result of a property read
    ([None] is [undefined]). *)
Definition truthy (v : json) : bool :=
  match v with
  | JNull => false
  | JBool b => b
  | JNum n => negb (n =? 0)
  | JStr s => negb (String.eqb s EmptyString)
  | JArr _ | JObj _ => true
  end.

Definition truthy_opt (o : option json) : bool :=
  match o with Some v => truthy v | None => false end.

(** [v[k]] for the keys the scripts read (names of manifest fields and of
    commands; none is an index or [length]).  [None] at the outer level is
    the [TypeError] of reading a property of [null]. *)
Definition get_prop (v : json) (k : string) : option (option json) :=
  match v with
  | JNull => None
  | JObj m => Some (obj_get k m)
  | _ => Some None
  end.

(** [v[k] = x] in strict mode (the scripts are modules).  Writing to [null]
    or to a primitive throws; an array takes the key as an extra property,
    which [JSON.stringify] does not print and which no script reads back,
    so the array stands as it was. *)
Definition set_prop (v : json) (k : string) (x : json) : option json :=
  match v with
  | JObj m => Some (JObj (obj_set k x m))
  | JArr l => Some (JArr l)
  | _ => None
  end.

(** [delete v[k]], for the same keys. [null] throws, anything but an
    object has no such own property. *)
Definition delete_prop (v : json) (k : string) : option json :=
  match v with
  | JNull => None
  | JObj m => Some (JObj (obj_delete k m))
  | _ => Some v
  end.

(** [v.name === 'nuxtship'] once [v.name] has been read. *)
Definition strict_eq_str (o : option json) (s : string) : bool :=
  match o with
  | Some (JStr t) => String.eqb t s
  | _ => false
  end.

(** A [forEach] whose body may throw: the state after each element, [None]
    as soon as one step throws. *)
Fixpoint fold_opt {A S : Type} (f : S -> A -> option S) (l : list A) (s : S)
  : option S :=
  match l with
  | [] => Some s
  | a :: r =>
      match f s a with
      | Some s' => fold_opt f r s'
      | None => None
      end
  end.

(** The JSON codec of the runtime: [JSON.parse(text)], [None] when it
    throws a [SyntaxError], and [JSON.stringify(value, null, 2)]. *)
Class Codec := {
  JSON_parse : string -> option json;
  JSON_stringify : json -> string
}.

End Json.

(** ** A reference JSON codec

    [JSON.stringify(v, null, 2)] in full for the values of [json], and a
    [JSON.parse] for the documents whose numbers are integer literals and
    whose [\u] escapes stay in the ASCII range.  The scripts are run with it
    on concrete trees; the general theorems hold for every codec. *)

Module RefCodec.
Import JsString Json.

Definition nl : string := String (ascii_of_N 10) EmptyString.
Definition dquote : ascii := ascii_of_N 34.
Definition backslash : ascii := ascii_of_N 92.

Definition hex_digit (n : N) : ascii :=
  if (n <? 10)%N then ascii_of_N (48 + n) else ascii_of_N (87 + n).

(** [QuoteJSONString]: the two-character escapes, [\u00xx] for the other
    control characters, every other byte as it is. *)
Definition quote_char (c : ascii) : string :=
  let n := code c in
  if (n =? 34)%N then String backslash (String dquote EmptyString)
  else if (n =? 92)%N then String backslash (String backslash EmptyString)
  else if (n =? 8)%N then String backslash "b"
  else if (n =? 12)%N then String backslash "f"
  else if (n =? 10)%N then String backslash "n"
  else if (n =? 13)%N then String backslash "r"
  else if (n =? 9)%N then String backslash "t"
  else if (n <? 32)%N then
    String backslash ("u00" +:+ String (hex_digit (n / 16)) (String (hex_digit (n mod 16)) EmptyString))
  else String c EmptyString.

Fixpoint quote_body (s : string) : string :=
  match s with
  | EmptyString => EmptyString
  | String c r => quote_char c +:+ quote_body r
  end.

Definition quote (s : string) : string :=
  String dquote (quote_body s +:+ String dquote EmptyString).

Definition number_to_string (n : Z) : string :=
  NilZero.string_of_int (Z.to_int n).

Fixpoint join_lines (indent : string) (parts : list string) : string :=
  match parts with
  | [] => EmptyString
  | [p] => indent +:+ p
  | p :: r => indent +:+ p +:+ "," +:+ nl +:+ join_lines indent r
  end.

(** [SerializeJSONProperty] with a gap of two spaces; [indent] is the
    indentation of the enclosing line. *)
Fixpoint stringify_at (indent : string) (v : json) : string :=
  let inner := indent +:+ "  " in
  match v with
  | JNull => "null"
  | JBool true => "true"
  | JBool false => "false"
  | JNum n => number_to_string n
  | JStr s => quote s
  | JArr [] => "[]"
  | JArr items =>
      "[" +:+ nl +:+ join_lines inner (map (stringify_at inner) items)
          +:+ nl +:+ indent +:+ "]"
  | JObj [] => "{}"
  | JObj members =>
      "{" +:+ nl
          +:+ join_lines inner
                (map (fun kv => quote (fst kv) +:+ ": " +:+ stringify_at inner (snd kv))
                     members)
          +:+ nl +:+ indent +:+ "}"
  end.

Definition stringify (v : json) : string := stringify_at EmptyString v.

(** *** Parsing *)

(** JSON white space: SPACE, TAB, LF, CR. *)
Definition is_json_ws (c : ascii) : bool :=
  let n := code c in
  (n =? 32)%N || (n =? 9)%N || (n =? 10)%N || (n =? 13)%N.

Fixpoint skip_ws (s : string) : string :=
  match s with
  | String c r => if is_json_ws c then skip_ws r else s
  | EmptyString => EmptyString
  end.

Definition hex_value (c : ascii) : option N :=
  let n := code c in
  if is_digit c then Some (n - 48)%N
  else if in_range 97 102 c then Some (n - 87)%N
  else if in_range 65 70 c then Some (n - 55)%N
  else None.

(** The characters of a string literal after its opening quote, up to and
    including the closing quote. *)
Fixpoint parse_string_body (s : string) : option (string * string) :=
  match s with
  | EmptyString => None
  | String c r =>
      if (code c =? 34)%N then Some (EmptyString, r)
      else if (code c <? 32)%N then None
      else if (code c =? 92)%N then
        match r with
        | String e r' =>
            let simple (x : N) :=
              match parse_string_body r' with
              | Some (v, rest) => Some (String (ascii_of_N x) v, rest)
              | None => None
              end in
            let n := code e in
            if (n =? 34)%N then simple 34%N
            else if (n =? 92)%N then simple 92%N
            else if (n =? 47)%N then simple 47%N
            else if (n =? 98)%N then simple 8%N
            else if (n =? 102)%N then simple 12%N
            else if (n =? 110)%N then simple 10%N
            else if (n =? 114)%N then simple 13%N
            else if (n =? 116)%N then simple 9%N
            else if (n =? 117)%N then
              match r' with
              | String h1 (String h2 (String h3 (String h4 r''))) =>
                  match hex_value h1, hex_value h2, hex_value h3, hex_value h4 with
                  | Some 0%N, Some 0%N, Some a, Some b =>
                      if (a <? 8)%N then
                        match parse_string_body r'' with
                        | Some (v, rest) => Some (String (ascii_of_N (16 * a + b)) v, rest)
                        | None => None
                        end
                      else None
                  | _, _, _, _ => None
                  end
              | _ => None
              end
            else None
        | EmptyString => None
        end
      else
        match parse_string_body r with
        | Some (v, rest) => Some (String c v, rest)
        | None => None
        end
  end.

Fixpoint digits_value (acc : Z) (s : string) : Z :=
  match s with
  | EmptyString => acc
  | String c r => digits_value (10 * acc + Z.of_N (code c - 48)) r
  end.

(** An integer literal (an optional minus sign, then 0 or a digit string
    with no leading zero) of at most fifteen digits, not followed by a
    fraction or an exponent. *)
Definition parse_number (s : string) : option (json * string) :=
  let '(neg, s1) :=
    match s with
    | String c r => if (code c =? 45)%N then (true, r) else (false, s)
    | EmptyString => (false, s)
    end in
  let '(ds, rest) := span is_digit s1 in
  let ok_shape :=
    match ds with
    | EmptyString => false
    | String d EmptyString => true
    | String d _ => negb (code d =? 48)%N
    end in
  let ok_tail :=
    match rest with
    | String c _ => negb ((code c =? 46)%N || (code c =? 101)%N || (code c =? 69)%N)
    | EmptyString => true
    end in
  if ok_shape && ok_tail && (String.length ds <=? 15)%nat then
    let v := digits_value 0 ds in
    Some (JNum (if neg then - v else v), rest)
  else None.

(** Array-index keys ([0] to [2^32 - 2] in canonical decimal form) come
    first in the property order of an object, in increasing order; the
    other keys follow in the order of their creation. *)
Definition array_index (k : string) : option Z :=
  let canonical :=
    match k with
    | EmptyString => false
    | String d EmptyString => is_digit d
    | String d _ => is_digit d && negb (code d =? 48)%N && Forall_chars is_digit k
    end in
  if canonical && (String.length k <=? 10)%nat then
    let v := digits_value 0 k in
    if v <=? 4294967294 then Some v else None
  else None.

Fixpoint obj_define_index (i : Z) (k : string) (v : json) (m : list (string * json))
  : list (string * json) :=
  match m with
  | [] => [(k, v)]
  | (k', v') :: r =>
      match array_index k' with
      | Some j => if i <? j then (k, v) :: m else (k', v') :: obj_define_index i k v r
      | None => (k, v) :: m
      end
  end.

(** [CreateDataProperty] as the parser applies it to each member: a
    repeated key keeps its first place and takes the last value. *)
Definition obj_define (k : string) (v : json) (m : list (string * json))
  : list (string * json) :=
  match obj_get k m, array_index k with
  | None, Some i => obj_define_index i k v m
  | _, _ => obj_set k v m
  end.

Definition is_char (n : N) (c : ascii) : bool := (code c =? n)%N.

Fixpoint parse_value (fuel : nat) (s : string) : option (json * string) :=
  match fuel with
  | O => None
  | S f =>
      match skip_ws s with
      | EmptyString => None
      | String c r as t =>
          if is_char 123 c then parse_members f true [] (skip_ws r)
          else if is_char 91 c then parse_items f true [] (skip_ws r)
          else if is_char 34 c then
            match parse_string_body r with
            | Some (v, rest) => Some (JStr v, rest)
            | None => None
            end
          else if startsWith "true" t then Some (JBool true, drop 4 t)
          else if startsWith "false" t then Some (JBool false, drop 5 t)
          else if startsWith "null" t then Some (JNull, drop 4 t)
          else parse_number t
      end
  end
with parse_members (fuel : nat) (first : bool) (acc : list (string * json))
       (s : string) : option (json * string) :=
  match fuel with
  | O => None
  | S f =>
      match s with
      | EmptyString => None
      | String c r =>
          if is_char 125 c && first then Some (JObj acc, r)
          else if is_char 34 c then
            match parse_string_body r with
            | Some (k, r1) =>
                match skip_ws r1 with
                | String c1 r2 =>
                    if is_char 58 c1 then
                      match parse_value f r2 with
                      | Some (v, r3) =>
                          match skip_ws r3 with
                          | String c2 r4 =>
                              if is_char 44 c2 then
                                parse_members f false (obj_define k v acc) (skip_ws r4)
                              else if is_char 125 c2 then
                                Some (JObj (obj_define k v acc), r4)
                              else None
                          | EmptyString => None
                          end
                      | None => None
                      end
                    else None
                | EmptyString => None
                end
            | None => None
            end
          else None
      end
  end
with parse_items (fuel : nat) (first : bool) (acc : list json) (s : string)
       : option (json * string) :=
  match fuel with
  | O => None
  | S f =>
      match s with
      | EmptyString => None
      | String c r =>
          if is_char 93 c && first then Some (JArr acc, r)
          else
            match parse_value f s with
            | Some (v, r1) =>
                match skip_ws r1 with
                | String c1 r2 =>
                    if is_char 44 c1 then parse_items f false (acc ++ [v]) (skip_ws r2)
                    else if is_char 93 c1 then Some (JArr (acc ++ [v]), r2)
                    else None
                | EmptyString => None
                end
            | None => None
            end
      end
  end.

(** [JSON.parse(text)]: one value, white space around it, nothing else. *)
Definition parse (text : string) : option json :=
  match parse_value (S (String.length text)) text with
  | Some (v, rest) =>
      match skip_ws rest with
      | EmptyString => Some v
      | String _ _ => None
      end
  | None => None
  end.

Definition codec : Codec :=
  {| JSON_parse := parse; JSON_stringify := stringify |}.

(** Test documents are written with [`] where JSON has a double quote. *)
Definition dq (s : string) : string :=
  replace_chars (is_char 96) (String dquote EmptyString) s.

End RefCodec.


(** ** The monad of the scripts and of the middleware *)

Module Eff.

Record error := Error { message : string }.

(** How a computation ends: with a value, with a thrown error, or with
    [process.exit(status)], which no [catch] intercepts. *)
Inductive outcome (A : Type) : Type :=
| Ret (a : A)
| Throw (e : error)
| Exit (status : Z).
Arguments Ret {A} a.
Arguments Throw {A} e.
Arguments Exit {A} status.

(** A computation over a state [W]; an [await] is a [bind]. *)
Definition M (W A : Type) : Type := W -> outcome A * W.

Definition ret {W A} (a : A) : M W A := fun w => (Ret a, w).

Definition bind {W A B} (m : M W A) (k : A -> M W B) : M W B :=
  fun w =>
    match m w with
    | (Ret a, w') => k a w'
    | (Throw e, w') => (Throw e, w')
    | (Exit n, w') => (Exit n, w')
    end.

Definition throw {W A} (e : error) : M W A := fun w => (Throw e, w).

(** [try { m } catch (error) { h error }] *)
Definition try_catch {W A} (m : M W A) (h : error -> M W A) : M W A :=
  fun w =>
    match m w with
    | (Throw e, w') => h e w'
    | r => r
    end.

Definition process_exit {W A} (status : Z) : M W A := fun w => (Exit status, w).

(** Lifting a partial operation on values: [None] is a [TypeError]. *)
Definition type_error {W A} (o : option A) : M W A :=
  match o with
  | Some a => ret a
  | None => throw (Error "TypeError")
  end.

Definition when {W} (b : bool) (m : M W unit) : M W unit :=
  if b then m else ret tt.

End Eff.

Declare Scope js_scope.
Delimit Scope js_scope with js.
Notation "x <- m ;; k" := (Eff.bind m (fun x => k))
  (at level 100, m at next level, right associativity) : js_scope.
Notation "m ;;; k" := (Eff.bind m (fun _ => k))
  (at level 100, right associativity) : js_scope.

(** ** The process: files, console, timers *)

Module Runtime.
Import Json.
Export Eff.

(** The callback [selfDelete] hands to [setTimeout]. *)
Inductive task := UnlinkLater (path : string).

Inductive event :=
| Log (line : string)
| LogError (line : string)
| Wrote (path content : string)
| Copied (src dst : string)
| Removed (path : string)
| Scheduled (t : task) (delay : Z).

(** The working directory and what surrounds the process.  [files] maps a
    path relative to [process.cwd()] to the text of the file; a path in
    [locked] cannot be created, written or removed (the call fails with
    [EACCES]); [git_status] is what the [git status --porcelain] command
    of the scripts prints, [None] when the command fails; [trace] lists
    the effects performed, oldest first; [timers] holds the callbacks
    waiting for the event loop. *)
Record world := World {
  files : gmap string string;
  locked : gset string;
  git_status : option string;
  trace : list event;
  timers : list task
}.

Abbreviation M := (Eff.M world).

Definition emit (e : event) (w : world) : world :=
  {| files := files w; locked := locked w; git_status := git_status w;
     trace := trace w ++ [e]; timers := timers w |}.

Definition with_files (f : gmap string string) (w : world) : world :=
  {| files := f; locked := locked w; git_status := git_status w;
     trace := trace w; timers := timers w |}.

Definition with_timers (t : list task) (w : world) : world :=
  {| files := files w; locked := locked w; git_status := git_status w;
     trace := trace w; timers := t |}.

Definition console_log (line : string) : M unit :=
  fun w => (Ret tt, emit (Log line) w).

Definition console_error (line : string) : M unit :=
  fun w => (Ret tt, emit (LogError line) w).

Definition ENOENT (path : string) : error :=
  Error ("ENOENT: no such file or directory, open '" +:+ path +:+ "'").
Definition EACCES (path : string) : error :=
  Error ("EACCES: permission denied, open '" +:+ path +:+ "'").

Definition existsSync (path : string) : M bool :=
  fun w => (Ret (bool_decide (is_Some (files w !! path))), w).

Definition readFile (path : string) : M string :=
  fun w =>
    match files w !! path with
    | Some text => (Ret text, w)
    | None => (Throw (ENOENT path), w)
    end.

Definition writeFile (path text : string) : M unit :=
  fun w =>
    if bool_decide (path ∈ locked w) then (Throw (EACCES path), w)
    else (Ret tt, emit (Wrote path text) (with_files (<[path := text]> (files w)) w)).

Definition unlink (path : string) : M unit :=
  fun w =>
    match files w !! path with
    | None => (Throw (ENOENT path), w)
    | Some _ =>
        if bool_decide (path ∈ locked w) then (Throw (EACCES path), w)
        else (Ret tt, emit (Removed path) (with_files (delete path (files w)) w))
    end.

Definition copyFileSync (src dst : string) : M unit :=
  fun w =>
    match files w !! src with
    | None => (Throw (ENOENT src), w)
    | Some text =>
        if bool_decide (dst ∈ locked w) then (Throw (EACCES dst), w)
        else (Ret tt, emit (Copied src dst) (with_files (<[dst := text]> (files w)) w))
    end.

(** [execSync('git status --porcelain package.json
    deployment/scripts/cleanup-template.ts', ...)] *)
Definition execSync_git_status : M string :=
  fun w =>
    match git_status w with
    | Some out => (Ret out, w)
    | None => (Throw (Error "Command failed: git status"), w)
    end.

Definition setTimeout (t : task) (delay : Z) : M unit :=
  fun w => (Ret tt, emit (Scheduled t delay) (with_timers (timers w ++ [t]) w)).

Definition parse_json `{Codec} (text : string) : M json :=
  match JSON_parse text with
  | Some v => ret v
  | None => throw (Error "SyntaxError: JSON Parse error")
  end.

(** The arrow function of [selfDelete], run by the event loop when its
    timer fires. *)
Definition run_task (t : task) : M unit :=
  match t with
  | UnlinkLater scriptPath =>
      try_catch
        (bind (unlink scriptPath)
           (fun _ => console_log "🗑️  Cleanup script removed itself"))
        (fun error =>
           console_log ("⚠️  Could not remove cleanup script: " +:+ message error))
  end.

Fixpoint run_tasks (ts : list task) : M unit :=
  match ts with
  | [] => ret tt
  | t :: r => bind (run_task t) (fun _ => run_tasks r)
  end.

(** Once the script has returned, the event loop fires the pending
    timers. *)
Definition event_loop : M unit :=
  fun w => run_tasks (timers w) (with_timers [] w).

(** A whole run of a script: exit status and the world it leaves.  The
    process starts with no timer pending.  A script that returns ends with
    status 0 after the timers have fired; [process.exit] ends it at once; an
    error nobody caught ends it with status 1. *)
Definition run_process (script : M unit) (w : world) : Z * world :=
  match bind script (fun _ => event_loop) (with_timers [] w) with
  | (Ret _, w') => (0, w')
  | (Throw _, w') => (1, w')
  | (Exit n, w') => (n, w')
  end.

End Runtime.

Local Open Scope js_scope.

(** ** [deployment/scripts/setup-env.ts] *)

Module SetupEnv.
Import Runtime.

Definition envPath : string := ".env".
Definition envExamplePath : string := ".env.example".
Definition nl : string := RefCodec.nl.

Definition guidance : M unit :=
  console_log (nl +:+ "⚠️  Please configure your .env file before continuing:" +:+ nl) ;;;
  console_log "📋 Required settings:" ;;;
  console_log "   • PROJECT_NAME - Your project identifier" ;;;
  console_log "   • Database passwords (APP_DB_PASSWORD, LOGTO_DB_PASSWORD)" ;;;
  console_log "   • SMTP configuration (optional for email notifications)" ;;;
  console_log "   • Logto secrets (will be set after provisioning):" ;;;
  console_log "     - NUXT_LOGTO_APP_ID: From Logto Admin Console" ;;;
  console_log "     - NUXT_LOGTO_APP_SECRET: From Logto Admin Console" ;;;
  console_log "     - NUXT_LOGTO_COOKIE_ENCRYPTION_KEY: openssl rand -hex 32" ;;;
  console_log (nl +:+ "💡 Optional settings:") ;;;
  console_log "   • Domain configuration (defaults to *.localhost)" ;;;
  console_log "   • Branding colors" ;;;
  console_log "   • Nuxt UI Pro license" ;;;
  console_log (nl +:+ "🚀 After configuring .env, run:") ;;;
  console_log "   bun run init".

Definition main : M unit :=
  envThere <- existsSync envPath ;;
  if envThere then
    console_log "✅ .env file found, continuing with setup..."
  else
    exampleThere <- existsSync envExamplePath ;;
    when (negb exampleThere)
      (console_error "❌ .env.example file not found!" ;;;
       console_error "   This template may be corrupted." ;;;
       process_exit 1) ;;;
    try_catch
      (copyFileSync envExamplePath envPath ;;;
       console_log "✅ Copied .env.example to .env")
      (fun error =>
         console_error ("❌ Failed to copy .env.example to .env: " +:+ message error) ;;;
         process_exit 1) ;;;
    guidance ;;;
    process_exit 1.

(** [main().catch(...)], the last statement of the file. *)
Definition script : M unit :=
  try_catch main
    (fun error =>
       console_error ("❌ Setup failed: " +:+ message error) ;;;
       process_exit 1).

Definition run (w : world) : Z * world := run_process script w.

End SetupEnv.

(** ** [deployment/scripts/cleanup-template.ts], the revision with the
    version-control guard *)

Module CleanupTemplate.
Import JsString Json Runtime NameDerivation.

Definition packageJsonPath : string := "package.json".
Definition envPath : string := ".env".
Definition nl : string := RefCodec.nl.

Definition nat_to_string (n : nat) : string :=
  NilZero.string_of_uint (Nat.to_uint n).

(** [a || {}] *)
Definition or_empty_object (a : option json) : json :=
  match a with
  | Some v => if truthy v then v else JObj []
  | None => JObj []
  end.

Definition hasUncommittedChanges : M bool :=
  try_catch
    (result <- execSync_git_status ;;
     if negb (String.eqb (trim result) EmptyString) then
       console_log "⚠️  Uncommitted changes detected - skipping cleanup to protect your work" ;;;
       console_log "   Commit or stash your changes first if you want to run cleanup" ;;;
       ret true
     else ret false)
    (fun _ => ret false).

Definition commandsToRemove : list string :=
  [ "init"; "setup:env"; "setup:full"; "setup:certs"; "setup:init-steps";
    "setup:containers"; "setup:database"; "setup:auth"; "setup:auth:provision" ].

(** The body of [commandsToRemove.forEach]; the state is [scripts] and
    [removedCount], [None] a [TypeError]. *)
Definition remove_command (st : json * nat) (cmd : string) : option (json * nat) :=
  match get_prop (fst st) cmd with
  | Some v =>
      if truthy_opt v then
        match delete_prop (fst st) cmd with
        | Some scripts => Some (scripts, S (snd st))
        | None => None
        end
      else Some st
  | None => None
  end.

Definition renames : list (string * string) :=
  [ ("containers:start", "infra:start");
    ("containers:stop", "infra:stop");
    ("containers:restart", "infra:restart");
    ("containers:logs", "infra:logs");
    ("containers:status", "infra:status") ].

(** The body of [Object.entries(renames).forEach]. *)
Definition rename_command (scripts : json) (entry : string * string) : option json :=
  match get_prop scripts (fst entry) with
  | Some (Some x) =>
      if truthy x then
        match set_prop scripts (snd entry) x with
        | Some scripts1 => delete_prop scripts1 (fst entry)
        | None => None
        end
      else Some scripts
  | Some None => Some scripts
  | None => None
  end.

(** [scripts] is the object held by [packageJson.scripts] (or a fresh one):
    the loops change it in place and the assignment stores it back under
    the same key. *)
Definition cleanupTemplateCommands `{Codec} : M unit :=
  try_catch
    (console_log "🧹 Cleaning up template commands..." ;;;
     packageContent <- readFile packageJsonPath ;;
     packageJson <- parse_json packageContent ;;
     held <- type_error (get_prop packageJson "scripts") ;;
     st <- type_error (fold_opt remove_command commandsToRemove
                         (or_empty_object held, O)) ;;
     scripts <- type_error (fold_opt rename_command renames (fst st)) ;;
     packageJson1 <- type_error (set_prop packageJson "scripts" scripts) ;;
     writeFile packageJsonPath (JSON_stringify packageJson1 +:+ nl) ;;;
     console_log ("✅ Cleaned up " +:+ nat_to_string (snd st) +:+ " template commands") ;;;
     console_log "📝 Renamed container commands to infra:* pattern")
    (fun error =>
       console_error ("❌ Failed to cleanup template commands: " +:+ message error)).

Definition project_name_key : string := "PROJECT_NAME=".

(** The three assignments of [updatePackageInfo] to the parsed manifest:
    [name], [delete description], [version]. *)
Definition rebrand (packageJson : json) (name : string) : option json :=
  match set_prop packageJson "name" (JStr name) with
  | Some p1 =>
      match delete_prop p1 "description" with
      | Some p2 => set_prop p2 "version" (JStr "0.1.0")
      | None => None
      end
  | None => None
  end.

Definition updatePackageInfo `{Codec} {casing : Casing} : M unit :=
  try_catch
    (envContent <- readFile envPath ;;
     match match_line project_name_key true envContent with
     | None =>
         console_log "⚠️  No PROJECT_NAME found in .env - skipping package.json update"
     | Some capture =>
         let projectName := trim capture in
         packageContent <- readFile packageJsonPath ;;
         packageJson <- parse_json packageContent ;;
         packageJson1 <- type_error (rebrand packageJson (npmName projectName)) ;;
         writeFile packageJsonPath (JSON_stringify packageJson1 +:+ nl) ;;;
         console_log ("📦 Updated package.json with project name: " +:+ npmName projectName)
     end)
    (fun error =>
       console_error ("❌ Failed to update package info: " +:+ message error)).

Definition main `{Codec} {casing : Casing} : M unit :=
  hasChanges <- hasUncommittedChanges ;;
  when (negb hasChanges) cleanupTemplateCommands ;;;
  updatePackageInfo ;;;
  when (negb hasChanges) (console_log "🚀 Your project is ready for development!").

Definition run `{Codec} {casing : Casing} (w : world) : Z * world :=
  run_process main w.

End CleanupTemplate.

(** ** The revision with the template-name guard (one function,
    [cleanupTemplate]) *)

Module CleanupTemplateMarker.
Import Json Runtime.

Definition packageJsonPath : string := "package.json".
Definition nl : string := RefCodec.nl.

Definition commandsToRemove : list string :=
  [ "init"; "setup:env"; "setup:full"; "setup:certs"; "setup:init-steps";
    "setup:containers"; "setup:database"; "setup:auth" ].

(** One of the five [if (scripts[old]) { ... }] blocks. *)
Definition rename (old new : string) (scripts : json) : option json :=
  CleanupTemplate.rename_command scripts (old, new).

Definition cleanupTemplate `{Codec} : M unit :=
  try_catch
    (packageContent <- readFile packageJsonPath ;;
     packageJson <- parse_json packageContent ;;
     name <- type_error (get_prop packageJson "name") ;;
     if strict_eq_str name "nuxtship" then
       console_log "📦 Template repository detected - keeping all commands"
     else
       console_log "🧹 User project detected - cleaning up template commands..." ;;;
       held <- type_error (get_prop packageJson "scripts") ;;
       st <- type_error (fold_opt CleanupTemplate.remove_command commandsToRemove
                           (CleanupTemplate.or_empty_object held, O)) ;;
       s1 <- type_error (rename "containers:start" "infra:start" (fst st)) ;;
       s2 <- type_error (rename "containers:stop" "infra:stop" s1) ;;
       s3 <- type_error (rename "containers:restart" "infra:restart" s2) ;;
       s4 <- type_error (rename "containers:logs" "infra:logs" s3) ;;
       s5 <- type_error (rename "containers:status" "infra:status" s4) ;;
       packageJson1 <- type_error (set_prop packageJson "scripts" s5) ;;
       writeFile packageJsonPath (JSON_stringify packageJson1 +:+ nl) ;;;
       console_log ("✅ Cleaned up " +:+ CleanupTemplate.nat_to_string (snd st)
                      +:+ " template commands") ;;;
       console_log "📝 Renamed container commands to infra:* pattern" ;;;
       console_log "🚀 Your project is ready for development!")
    (fun error =>
       console_error ("❌ Failed to cleanup template: " +:+ message error)).

Definition run `{Codec} (w : world) : Z * world := run_process cleanupTemplate w.

End CleanupTemplateMarker.

(** ** The revision that rewrites the README and deletes itself *)

Module CleanupTemplateSelfDelete.
Import JsString Json Runtime NameDerivation.

Definition packageJsonPath : string := "package.json".
Definition envPath : string := ".env".
Definition readmePath : string := "README.md".
Definition licensePath : string := "LICENSE".
Definition scriptPath : string := "deployment/scripts/cleanup-template.ts".
Definition nl : string := RefCodec.nl.

Definition isTemplateRepo `{Codec} : M bool :=
  try_catch
    (packageContent <- readFile packageJsonPath ;;
     packageJson <- parse_json packageContent ;;
     name <- type_error (get_prop packageJson "name") ;;
     if strict_eq_str name "nuxtship" then
       console_log "⚠️  Template repository detected - skipping cleanup to preserve template" ;;;
       ret true
     else ret false)
    (fun error =>
       console_error ("Failed to check if template repo: " +:+ message error) ;;;
       ret false).

Definition cleanupTemplateCommands `{Codec} : M unit :=
  try_catch
    (packageContent <- readFile packageJsonPath ;;
     packageJson <- parse_json packageContent ;;
     held <- type_error (get_prop packageJson "scripts") ;;
     let scripts := CleanupTemplate.or_empty_object held in
     init <- type_error (get_prop scripts "init") ;;
     scripts1 <-
       (if truthy_opt init then
          type_error (set_prop scripts "init" (JStr "bun run setup:env && bun run setup:full"))
        else ret scripts) ;;
     packageJson1 <- type_error (set_prop packageJson "scripts" scripts1) ;;
     writeFile packageJsonPath (JSON_stringify packageJson1 +:+ nl) ;;;
     console_log "✅ Updated init command to remove cleanup step")
    (fun error =>
       console_error ("❌ Failed to cleanup template commands: " +:+ message error)).

Definition is_any_quote (c : ascii) : bool :=
  (code c =? 39)%N || (code c =? 34)%N.

(** The first capture of the match, trimmed, with every single and double
    quote removed; [fallback] when there is no match or nothing is left. *)
Definition env_value (key envContent fallback : string) : string :=
  match match_line key true envContent with
  | Some capture =>
      let v := replace_chars is_any_quote EmptyString (trim capture) in
      if String.eqb v EmptyString then fallback else v
  | None => fallback
  end.

Definition title_pattern : string :=
  "# 🚀 NuxtShip" +:+ nl +:+ nl
    +:+ "**Skip the auth boilerplate. Ship your idea faster.**".

(** The six substitutions of [cleanupReadme], in order. *)
Definition rewrite_readme {casing : Casing} (appName projectName readme : string)
  : string :=
  let r1 :=
    replace_first title_pattern
      ("# " +:+ appName +:+ nl +:+ nl
         +:+ "Built with NuxtShip - Authentication and infrastructure included.")
      readme in
  let r2 := remove_section "## 🚀 Quick Start" ["## "] r1 in
  let r3 := remove_section "## 🤝 Contributing" ["## "; "---" +:+ nl] r2 in
  let r4 := remove_section "## 📝 License" ["## "; "---" +:+ nl] r3 in
  let r5 :=
    replace_all "my-awesome-app/"
      (replace_runs white "-" (toLowerCase projectName) +:+ "/") r4 in
  replace_first "Made with ❤️ and" "Built with NuxtShip and powered by" r5.

Definition cleanupReadme {casing : Casing} : M unit :=
  try_catch
    (envContent <- readFile envPath ;;
     let projectName := env_value "PROJECT_NAME=" envContent "My App" in
     let appName := env_value "APPLICATION_NAME=" envContent projectName in
     readme <- readFile readmePath ;;
     writeFile readmePath (rewrite_readme appName projectName readme) ;;;
     console_log ("📝 Updated README.md for " +:+ appName))
    (fun error =>
       console_error ("❌ Failed to cleanup README: " +:+ message error)).

(** Same text as in the guarded revision. *)
Definition updatePackageInfo `{Codec} {casing : Casing} : M unit :=
  CleanupTemplate.updatePackageInfo.

Definition cleanupLicense : M unit :=
  try_catch
    (unlink licensePath ;;;
     console_log "🗑️  Removed template LICENSE - choose your own license")
    (fun _ => ret tt).

Definition selfDelete : M unit :=
  try_catch
    (setTimeout (UnlinkLater scriptPath) 100)
    (fun error =>
       console_error ("❌ Failed to schedule self-deletion: " +:+ message error)).

Definition main `{Codec} {casing : Casing} : M unit :=
  updatePackageInfo ;;;
  isTemplate <- isTemplateRepo ;;
  when (negb isTemplate)
    (cleanupTemplateCommands ;;;
     cleanupReadme ;;;
     cleanupLicense ;;;
     selfDelete ;;;
     console_log "🚀 Your project is ready for development!").

Definition run `{Codec} {casing : Casing} (w : world) : Z * world :=
  run_process main w.

End CleanupTemplateSelfDelete.

(** ** [server/middleware/auth-context.ts] and [server/utils/auth.ts] *)

Module AuthContext.
Import JsString Eff.

(** The claim set of a user; only [sub] is read. *)
Record claims := Claims { sub : option string; others : list (string * string) }.

(** The session object of the OIDC module, as far as the handlers look
    into it: [session.userInfo] and [session.user]. *)
Record session := Session { userInfo : option claims; user : option claims }.

(** What the authentication subsystem answers for one request.  A failure
    is the error object it throws, of which the handlers read [message] at
    most.  A promise rejected with [null] or [undefined] is not among these
    answers: the [catch] blocks that only log would log it, the one of the
    Logto revision would fail on [error.message]. *)
Inductive lookup (A : Type) : Type :=
| Found (a : A)
| Nothing
| Fails (e : error).
Arguments Found {A} a.
Arguments Nothing {A}.
Arguments Fails {A} e.

(** A request and what lies outside the handler: the URL, the answer of
    the session module ([getAuthSession], [getOidcUserSession]), the
    outcome of [logtoEventHandler] (an error when it throws), the Logto
    client it may have put on the context with the answer of its
    [getIdTokenClaims], and whether the database accepts statements. *)
Record request := Request {
  url : option string;
  oidc : lookup session;
  logto_init : option error;
  logto_client : option (lookup claims);
  db_up : bool
}.

(** A statement given to [db.execute]: a [sql] template with its
    parameters kept apart, or [sql.raw] text. *)
Inductive statement :=
| Template (chunks : list string) (params : list string)
| Raw (text : string).

(** The per-request context, the statements executed on [db], and the
    console: the calls of [console.error], each with its label and the error
    object passed after it. *)
Record state := State {
  context_userId : option string;
  context_user : option claims;
  executed : list statement;
  console : list (string * error)
}.

Abbreviation M := (Eff.M state).

Definition db_execute (up : bool) (q : statement) : M unit :=
  fun st =>
    if up then
      (Ret tt, {| context_userId := context_userId st; context_user := context_user st;
                  executed := executed st ++ [q]; console := console st |})
    else (Throw (Error "connect ECONNREFUSED"), st).

Definition set_context_userId (v : string) : M unit :=
  fun st =>
    (Ret tt, {| context_userId := Some v; context_user := context_user st;
                executed := executed st; console := console st |}).

Definition set_context_user (v : option claims) : M unit :=
  fun st =>
    (Ret tt, {| context_userId := context_userId st; context_user := v;
                executed := executed st; console := console st |}).

(** [console.error(label, error)] *)
Definition console_error (label : string) (e : error) : M unit :=
  fun st =>
    (Ret tt, {| context_userId := context_userId st; context_user := context_user st;
                executed := executed st; console := console st ++ [(label, e)] |}).

Definition answer {A} (l : lookup A) : M (option A) :=
  match l with
  | Found a => ret (Some a)
  | Nothing => ret None
  | Fails e => throw e
  end.

(** [!event.node.req.url?.startsWith('/api/')] *)
Definition not_api (u : option string) : bool :=
  match u with
  | Some s => negb (startsWith "/api/" s)
  | None => true
  end.

(** Optional chaining: [o?.f]. *)
Definition chain {A B} (o : option A) (f : A -> option B) : option B :=
  match o with
  | Some a => f a
  | None => None
  end.

(** A subject identifier that passes [if (userId)]. *)
Definition truthy_id (o : option string) : option string :=
  match o with
  | Some s => if String.eqb s EmptyString then None else Some s
  | None => None
  end.

(** [getUserSession] of [server/utils/auth.ts]. *)
Definition getUserSession (r : request) : M (option session) :=
  try_catch (answer (oidc r)) (fun _ => ret None).

(** [requireAuth] and [getUser] of [server/utils/auth.ts]. *)
Definition requireAuth : M string :=
  fun st =>
    match truthy_id (context_userId st) with
    | Some userId => (Ret userId, st)
    | None => (Throw (Error "Authentication required"), st)
    end.

Definition getUser : M (option claims) :=
  fun st => (Ret (context_user st), st).

(** The handler of [server/middleware/auth-context.ts]; [getAuthSession]
    is the session module's answer. *)
Definition handler (r : request) : M unit :=
  if not_api (url r) then ret tt
  else
    try_catch
      (s <- answer (oidc r) ;;
       let info := chain s userInfo in
       match truthy_id (chain info sub) with
       | Some userId =>
           db_execute (db_up r)
             (Template ["SET LOCAL auth.user_id = "; EmptyString] [userId]) ;;;
           set_context_userId userId ;;;
           set_context_user info
       | None => ret tt
       end)
      (fun error => console_error "Failed to set auth context:" error).

(** The example revision: [getUserSession], [session?.user?.sub],
    [app.user_id]. *)
Definition handler_example (r : request) : M unit :=
  if not_api (url r) then ret tt
  else
    try_catch
      (s <- getUserSession r ;;
       match truthy_id (chain (chain s user) sub) with
       | Some userId =>
           db_execute (db_up r)
             (Template ["SET LOCAL app.user_id = "; EmptyString] [userId]) ;;;
           set_context_userId userId
       | None => ret tt
       end)
      (fun error => console_error "Failed to set auth context:" error).

(** The Logto revision: [logtoEventHandler], then
    [event.context.logtoClient?.getIdTokenClaims()], then [SET SESSION]
    through [sql.raw]. *)
Definition handler_logto (r : request) : M unit :=
  if not_api (url r) then ret tt
  else
    try_catch
      (match logto_init r with Some e => throw e | None => ret tt end ;;;
       u <- match logto_client r with
            | Some l => answer l
            | None => ret None
            end ;;
       match truthy_id (chain u sub) with
       | Some userId =>
           db_execute (db_up r) (Raw (Sql.set_session_sql userId)) ;;;
           set_context_userId userId ;;;
           set_context_user u
       | None => ret tt
       end)
      (fun error =>
         when (negb (String.eqb (message error) "Not authenticated."))
           (console_error "Failed to set auth context:" error)).

End AuthContext.

(** ** The revision guarded by version control that renames nothing *)

Module CleanupTemplatePlain.
Import JsString Json Runtime.

Definition packageJsonPath : string := "package.json".
Definition nl : string := RefCodec.nl.

Definition hasUncommittedChanges : M bool :=
  try_catch
    (result <- execSync_git_status ;;
     if negb (String.eqb (trim result) EmptyString) then
       console_log "⚠️  Uncommitted changes detected - skipping cleanup to protect your work" ;;;
       ret true
     else ret false)
    (fun _ => ret false).

Definition commandsToRemove : list string :=
  [ "init"; "setup:env"; "setup:full"; "setup:certs"; "setup:init-steps";
    "setup:containers"; "setup:database"; "setup:auth"; "setup:auth:provision" ].

(** [removedCount] is counted and never read. *)
Definition cleanupTemplateCommands `{Codec} : M unit :=
  try_catch
    (packageContent <- readFile packageJsonPath ;;
     packageJson <- parse_json packageContent ;;
     held <- type_error (get_prop packageJson "scripts") ;;
     st <- type_error (fold_opt CleanupTemplate.remove_command commandsToRemove
                         (CleanupTemplate.or_empty_object held, O)) ;;
     packageJson1 <- type_error (set_prop packageJson "scripts" (fst st)) ;;
     writeFile packageJsonPath (JSON_stringify packageJson1 +:+ nl))
    (fun error =>
       console_error ("❌ Failed to cleanup template commands: " +:+ message error)).

(** Same text as in the revision that renames. *)
Definition updatePackageInfo `{Codec} {casing : Casing} : M unit :=
  CleanupTemplate.updatePackageInfo.

Definition main `{Codec} {casing : Casing} : M unit :=
  hasChanges <- hasUncommittedChanges ;;
  when (negb hasChanges) cleanupTemplateCommands ;;;
  updatePackageInfo ;;;
  when (negb hasChanges) (console_log "🚀 Your project is ready for development!").

Definition run `{Codec} {casing : Casing} (w : world) : Z * world :=
  run_process main w.

End CleanupTemplatePlain.

(** ** The one-step setup script: waiting for the identity provider *)

Module LogtoSetup.
Import Eff.

(** What surrounds the script: the environment variable it reads, what each
    coming request will meet (the status of the response, [None] when
    [fetch] rejects), the requests made so far, newest last, and the
    one-second pauses taken. *)
Record net := Net {
  AUTH_DOMAIN : option string;
  answers : nat -> option Z;
  requests : list string;
  pauses : nat
}.

Abbreviation M := (Eff.M net).

(** [await fetch(url, { method: 'HEAD', ... })], giving the status. *)
Definition fetch_head (url : string) : M Z :=
  fun w =>
    let w' := {| AUTH_DOMAIN := AUTH_DOMAIN w; answers := answers w;
                 requests := requests w ++ [url]; pauses := pauses w |} in
    match answers w (length (requests w)) with
    | Some status => (Ret status, w')
    | None => (Throw (Error "fetch failed"), w')
    end.

(** [await new Promise(resolve => setTimeout(resolve, 1000))] *)
Definition pause : M unit :=
  fun w =>
    (Ret tt, {| AUTH_DOMAIN := AUTH_DOMAIN w; answers := answers w;
                requests := requests w; pauses := S (pauses w) |}).

Definition maxAttempts : Z := 30.

(** The [try] block of the loop: [true] when it returns from the
    function. *)
Definition probe (authDomain : string) : M bool :=
  try_catch
    (status <- fetch_head ("https://" +:+ authDomain +:+ "/console") ;;
     ret (status <? 500))
    (fun _ => ret false).

(** The [while] loop, with [attempts] as the loop carries it; [fuel] bounds
    the iterations. *)
Fixpoint wait_loop (fuel : nat) (authDomain : string) (attempts : Z) : M unit :=
  match fuel with
  | O => ret tt
  | S fuel' =>
      if attempts <? maxAttempts then
        ready <- probe authDomain ;;
        if ready then ret tt
        else
          let attempts1 := attempts + 1 in
          if attempts1 >=? maxAttempts then
            throw (Error "Logto took too long to start up")
          else pause ;;; wait_loop fuel' authDomain attempts1
      else ret tt
  end.

Definition waitForLogto : M unit :=
  fun w =>
    match AUTH_DOMAIN w with
    | Some authDomain =>
        if String.eqb authDomain EmptyString then
          (Throw (Error "AUTH_DOMAIN not found in environment"), w)
        else wait_loop (Z.to_nat maxAttempts) authDomain 0 w
    | None => (Throw (Error "AUTH_DOMAIN not found in environment"), w)
    end.

End LogtoSetup.

(** * Statements *)

(** ** Judgements on computations *)

Section Judgements.
Import Eff.
Context {W : Type}.

(** [m] always returns a value. *)
Definition total {A} (m : M W A) : Prop := forall w, exists a, fst (m w) = Ret a.

(** [m] never ends the process. *)
Definition noexit {A} (m : M W A) : Prop := forall w n, fst (m w) <> Exit n.

(** Every run of [m] takes a state to one related to it by [R]. *)
Definition keeps (R : W -> W -> Prop) {A} (m : M W A) : Prop :=
  forall w, R w (snd (m w)).

End Judgements.

(** ** Working trees for the examples *)

Section Trees.
Import Json RefCodec Runtime.

(** A working directory for the examples: the files, the locked paths and
    the answer of the version-control query. *)
Definition tree (fs : list (string * string)) (lk : list string)
  (git : option string) : world :=
  {| files := list_to_map fs; locked := list_to_set lk; git_status := git;
     trace := []; timers := [] |}.

Definition configured_tree : world :=
  tree [(".env", "PROJECT_NAME=My Cool App!"); (".env.example", "PROJECT_NAME=")]
    [] None.

(** The directory holds the template, the environment file is absent and
    cannot be created. *)
Definition read_only_tree : world :=
  tree [(".env.example", "PROJECT_NAME=")] [".env"] None.

(** The manifest of the template, with every setup and container command. *)
Definition template_manifest_text : string :=
  dq ("{`name`: `nuxtship`, `version`: `1.4.0`, `description`: `Nuxt starter`, "
      +:+ "`scripts`: {`dev`: `nuxt dev`, "
      +:+ "`init`: `bun run setup:env && bun run setup:full`, "
      +:+ "`setup:env`: `bun run deployment/scripts/setup-env.ts`, "
      +:+ "`setup:full`: `bun run setup:certs && bun run setup:init-steps`, "
      +:+ "`setup:certs`: `bun run deployment/scripts/setup-certs.ts`, "
      +:+ "`setup:init-steps`: `bun run setup:containers`, "
      +:+ "`setup:containers`: `docker compose up -d`, "
      +:+ "`setup:database`: `bun run db:migrate`, "
      +:+ "`setup:auth`: `bun run setup:auth:provision`, "
      +:+ "`setup:auth:provision`: `bun run deployment/scripts/provision.ts`, "
      +:+ "`containers:start`: `docker compose up -d`, "
      +:+ "`containers:stop`: `docker compose down`, "
      +:+ "`containers:restart`: `docker compose restart`, "
      +:+ "`containers:logs`: `docker compose logs -f`, "
      +:+ "`containers:status`: `docker compose ps`}}").

Definition template_manifest : list (string * json) :=
  Eval vm_compute in
    match parse template_manifest_text with
    | Some (JObj m) => m
    | _ => []
    end.

Definition template_scripts : list (string * json) :=
  Eval vm_compute in
    match obj_get "scripts" template_manifest with
    | Some (JObj m) => m
    | _ => []
    end.

(** The same manifest after the operator has emptied two commands. *)
Definition emptied_manifest_text : string :=
  dq ("{`name`: `shop`, `version`: `1.4.0`, "
      +:+ "`scripts`: {`dev`: `nuxt dev`, "
      +:+ "`init`: `bun run setup:env && bun run setup:full`, "
      +:+ "`setup:env`: ``, "
      +:+ "`setup:full`: `bun run setup:certs && bun run setup:init-steps`, "
      +:+ "`setup:certs`: `bun run deployment/scripts/setup-certs.ts`, "
      +:+ "`setup:init-steps`: `bun run setup:containers`, "
      +:+ "`setup:containers`: `docker compose up -d`, "
      +:+ "`setup:database`: `bun run db:migrate`, "
      +:+ "`setup:auth`: `bun run setup:auth:provision`, "
      +:+ "`setup:auth:provision`: `bun run deployment/scripts/provision.ts`, "
      +:+ "`containers:start`: `docker compose up -d`, "
      +:+ "`containers:stop`: `docker compose down`, "
      +:+ "`containers:restart`: `docker compose restart`, "
      +:+ "`containers:logs`: ``, "
      +:+ "`containers:status`: `docker compose ps`}}").

Definition readme_text : string :=
  "# 🚀 NuxtShip" +:+ nl +:+ nl
    +:+ "**Skip the auth boilerplate. Ship your idea faster.**" +:+ nl +:+ nl
    +:+ "## 🚀 Quick Start" +:+ nl +:+ "cd my-awesome-app/" +:+ nl
    +:+ "## Features" +:+ nl +:+ "Made with ❤️ and Nuxt" +:+ nl.

Definition env_text : string :=
  "APP_DOMAIN=app.localhost" +:+ nl +:+ "PROJECT_NAME=My Cool App!" +:+ nl.

Definition script_text : string := "#!/usr/bin/env bun".

(** The template checked out, configured, nothing pending. *)
Definition template_tree : world :=
  tree [ ("package.json", template_manifest_text); (".env", env_text);
         ("README.md", readme_text); ("LICENSE", "MIT");
         ("deployment/scripts/cleanup-template.ts", script_text) ]
    [] (Some EmptyString).

(** The same tree with an environment file that names no project. *)
Definition unnamed_template_tree : world :=
  tree [ ("package.json", template_manifest_text);
         (".env", "APP_DOMAIN=app.localhost");
         ("README.md", readme_text); ("LICENSE", "MIT");
         ("deployment/scripts/cleanup-template.ts", script_text) ]
    [] (Some EmptyString).


(** A derived project whose manifest has two empty commands. *)
Definition emptied_tree : world :=
  tree [ ("package.json", emptied_manifest_text); (".env", env_text) ]
    [] (Some EmptyString).

(** A derived project that lost its README. *)
Definition no_readme_tree : world :=
  tree [ ("package.json", emptied_manifest_text); (".env", env_text);
         ("deployment/scripts/cleanup-template.ts", script_text) ]
    [] None.

End Trees.

(** ** What the Environment Initializer is asked *)

Section InitializerStatements.
Import Runtime SetupEnv.

(** What a world looks like to the initializer. *)
Definition env_exists (w : world) : Prop := is_Some (files w !! envPath).
Definition template_missing (w : world) : Prop := files w !! envExamplePath = None.
Definition env_locked (w : world) : Prop := envPath ∈ locked w.

(** The run created the environment file: it was absent, and it now holds
    the text of the template. *)
Definition just_created (w w' : world) : Prop :=
  files w !! envPath = None
  /\ is_Some (files w' !! envPath)
  /\ files w' !! envPath = files w !! envExamplePath.

(** The exit status as the specification states it: 0 exactly when the file
    existed, and otherwise non-zero in two cases, the file was just created
    or the template is missing. *)
Definition exit_status_claim (w : world) : Prop :=
  (fst (run w) = 0 <-> env_exists w)
  /\ (fst (run w) <> 0 <->
       (just_created w (snd (run w)) \/ (~ env_exists w /\ template_missing w))).

End InitializerStatements.

(** ** What the orchestrators are asked *)

Section OrchestratorStatements.
Import JsString Json Runtime.
Context `{Codec}.
Context {casing : JsString.Casing}.

(** Only the manifest may differ, and no timer was set. *)
Definition only_manifest (w w' : world) : Prop :=
  timers w' = timers w
  /\ forall p, p <> "package.json" -> files w' !! p = files w !! p.

(** New events were appended, none of them a [setTimeout], and no timer was
    set. *)
Definition not_scheduled (e : event) : Prop :=
  match e with
  | Scheduled _ _ => False
  | _ => True
  end.

Definition quiet (w w' : world) : Prop :=
  timers w' = timers w
  /\ exists evs, trace w' = trace w ++ evs /\ Forall not_scheduled evs.

(** One renaming, on the members of a [scripts] object. *)
Definition rename_members (old new : string) (m : list (string * json))
  : list (string * json) :=
  match obj_get old m with
  | Some x => if truthy x then obj_delete old (obj_set new x m) else m
  | None => m
  end.

(** The keys a list of renamings touches. *)
Definition rename_keys (rs : list (string * string)) : list string :=
  flat_map (fun e => [fst e; snd e]) rs.

(** The project name [updatePackageInfo] reads from the environment file. *)
Definition project_name (w : world) : option string :=
  match files w !! CleanupTemplate.envPath with
  | Some envContent =>
      match match_line CleanupTemplate.project_name_key true envContent with
      | Some capture => Some (trim capture)
      | None => None
      end
  | None => None
  end.


(** The manifest on disk parses and its [name] is the reserved identifier:
    what [packageJson.name === 'nuxtship'] tests. *)
Definition manifest_is_template (w : world) : bool :=
  match files w !! "package.json" with
  | Some text =>
      match JSON_parse text with
      | Some pj =>
          match get_prop pj "name" with
          | Some name => strict_eq_str name "nuxtship"
          | None => false
          end
      | None => false
      end
  | None => false
  end.

(** The marker test as [main] makes it: on the manifest that
    [updatePackageInfo] has left. *)
Definition template_seen (w : world) : bool :=
  manifest_is_template (snd (CleanupTemplateSelfDelete.updatePackageInfo w)).

Definition ready_line : string := "🚀 Your project is ready for development!".

(** The commands of the manifest on disk. *)
Definition manifest_command (w : world) (cmd : string) : option json :=
  match files w !! "package.json" with
  | Some text =>
      match JSON_parse text with
      | Some pj =>
          match get_prop pj "scripts" with
          | Some (Some scripts) =>
              match get_prop scripts cmd with
              | Some v => v
              | None => None
              end
          | _ => None
          end
      | None => None
      end
  | None => None
  end.


(** The specification's guard on the template marker, for a run function:
    manifest and README are as they were. *)
Definition template_guard_claim (run : world -> Z * world) (w : world) : Prop :=
  manifest_is_template w = true ->
  files (snd (run w)) !! "package.json" = files w !! "package.json"
  /\ files (snd (run w)) !! "README.md" = files w !! "README.md".

(** The specification's order of events for the self-deletion: once it is
    scheduled, the manifest and the README have been written, and the
    manifest of the run was not the template's. *)
Definition self_delete_claim (w : world) : Prop :=
  (exists t d, In (Scheduled t d) (trace (snd (CleanupTemplateSelfDelete.main w)))) ->
  ((exists text,
      In (Wrote "package.json" text) (trace (snd (CleanupTemplateSelfDelete.main w))))
   /\ (exists text,
         In (Wrote "README.md" text) (trace (snd (CleanupTemplateSelfDelete.main w)))))
  /\ manifest_is_template w = false.

(** The specification's command transformation: in a manifest that holds
    every command of the removal list, none is left after the cleanup, and
    each command of the rename map is found under its new name only. *)
Definition command_cleanup_claim (w : world) : Prop :=
  (forall cmd, In cmd CleanupTemplate.commandsToRemove ->
     is_Some (manifest_command w cmd)) ->
  (forall cmd, In cmd CleanupTemplate.commandsToRemove ->
     manifest_command (snd (CleanupTemplate.cleanupTemplateCommands w)) cmd = None)
  /\ (forall old new x,
        In (old, new) CleanupTemplate.renames ->
        manifest_command w old = Some x ->
        manifest_command (snd (CleanupTemplate.cleanupTemplateCommands w)) old = None
        /\ manifest_command (snd (CleanupTemplate.cleanupTemplateCommands w)) new
           = Some x).

End OrchestratorStatements.

(** ** What the Auth-Context Bridge is asked *)

Section BridgeStatements.
Import JsString Eff AuthContext.

(** The authentication subsystem gives no answer: it fails, or has nothing. *)
Definition no_answer {A} (l : lookup A) : Prop :=
  match l with
  | Found _ => False
  | _ => True
  end.

(** A request without a valid session, for each of the three ways the
    revisions ask: the session module has no session, and Logto's handler
    throws, or leaves no client, or its client has no claims. *)
Definition no_valid_session (r : request) : Prop :=
  no_answer (oidc r)
  /\ match logto_init r, logto_client r with
     | Some _, _ => True
     | None, None => True
     | None, Some l => no_answer l
     end.

(** What a handler must leave alone for such a request. *)
Definition untouched (st st' : state) : Prop :=
  context_userId st' = context_userId st
  /\ context_user st' = context_user st
  /\ executed st' = executed st.

(** A public API request: no cookie, Logto answers that nobody is signed
    in. *)
Definition anonymous_request : request :=
  {| url := Some "/api/health";
     oidc := Nothing;
     logto_init := None;
     logto_client := Some (Fails (Error "Not authenticated."));
     db_up := true |}.

Definition fresh_state : state :=
  {| context_userId := None; context_user := None; executed := []; console := [] |}.

End BridgeStatements.

(** ** Lines of a text *)

Section TextStatements.
Import JsString.

(** No character of the class begins inside [v], when [post] follows it. *)
Fixpoint none_before (cls : class) (v post : string) : bool :=
  match v with
  | EmptyString => true
  | String _ r => Nat.eqb (cls (v +:+ post)) 0 && none_before cls r post
  end.

(** No character of the class begins anywhere in [s]. *)
Fixpoint never (cls : class) (s : string) : bool :=
  match s with
  | EmptyString => true
  | String _ r => Nat.eqb (cls s) 0 && never cls r
  end.

(** The position before [s] is an end of line: [s] is empty, or it begins
    with a line terminator. *)
Definition at_line_end (s : string) : Prop :=
  s = EmptyString \/ line_end s <> 0%nat.

(** The position after [pre] is a start of line: [pre] is empty, or it ends
    with a line terminator. *)
Definition at_line_start (pre : string) : Prop :=
  pre = EmptyString
  \/ exists p t, pre = p +:+ t /\ t <> EmptyString /\ line_end t = String.length t.

End TextStatements.

(** ** The README step and the status query *)

Section ReadmeStatements.
Import JsString Runtime CleanupTemplateSelfDelete.

(** A character that is neither quote. *)
Definition not_quote (c : ascii) : bool := negb (is_any_quote c).

(** The texts [cleanupReadme] looks for. *)
Definition readme_patterns : list string :=
  [ title_pattern; "## 🚀 Quick Start"; "## 🤝 Contributing"; "## 📝 License";
    "my-awesome-app/"; "Made with ❤️ and" ].

(** What [hasUncommittedChanges] answers. *)
Definition pending (w : world) : bool :=
  match git_status w with
  | Some out => negb (all_of white out)
  | None => false
  end.

(** A README the operator has rewritten already. *)
Definition own_readme_text : string :=
  "# Shop" +:+ nl +:+ nl +:+ "Sells things." +:+ nl.

End ReadmeStatements.

(** ** The disk *)

Section DiskStatements.
Import JsString Json Runtime.
Context `{Codec}.
Context {casing : JsString.Casing}.

(** Nothing outside [paths] changed on disk, and the permissions are the
    same. *)
Definition outside (paths : list string) (w w' : world) : Prop :=
  locked w' = locked w
  /\ forall p, ~ In p paths -> files w' !! p = files w !! p.

(** Files and permissions are what they were. *)
Definition same_disk (w w' : world) : Prop :=
  files w' = files w /\ locked w' = locked w.

(** The manifest can be read, parses, and can be written. *)
Definition manifest_usable (w : world) : Prop :=
  exists text pj,
    files w !! "package.json" = Some text
    /\ JSON_parse text = Some pj
    /\ "package.json" ∉ locked w.

(** A step that changes the disk only when the manifest is usable. *)
Definition needs_manifest (w w' : world) : Prop :=
  ~ manifest_usable w -> same_disk w w'.

End DiskStatements.

(** ** The manifest in hand *)

Section ManifestStatements.
Import JsString Json Runtime.
Context `{Codec}.
Context {casing : JsString.Casing}.

(** The manifest [updatePackageInfo] has in hand when it writes: the parsed
    file with the three assignments made. *)
Definition renamed_manifest (w : world) : option json :=
  match project_name w, files w !! CleanupTemplate.packageJsonPath with
  | Some name, Some text =>
      match JSON_parse text with
      | Some pj => CleanupTemplate.rebrand pj (NameDerivation.npmName name)
      | None => None
      end
  | _, _ => None
  end.

(** The codec reads back what it printed for [v], with the final line
    break the scripts add. *)
Definition reads_back (v : json) : Prop :=
  JSON_parse (JSON_stringify v +:+ CleanupTemplate.nl) = Some v.

(** The two loops of [cleanupTemplateCommands] on a [scripts] value:
    the value left and the number of commands removed. *)
Definition clean_scripts (scripts : json) : option (json * nat) :=
  match fold_opt CleanupTemplate.remove_command CleanupTemplate.commandsToRemove
          (scripts, O) with
  | Some st =>
      match fold_opt CleanupTemplate.rename_command CleanupTemplate.renames (fst st) with
      | Some scripts' => Some (scripts', snd st)
      | None => None
      end
  | None => None
  end.

(** How many commands of [cmds] have a truthy value in [m]. *)
Definition truthy_commands (cmds : list string) (m : list (string * json)) : nat :=
  length (List.filter (fun k => truthy_opt (obj_get k m)) cmds).

(** The renamings of the rename map, one after the other. *)
Definition rename_all (rs : list (string * string)) (m : list (string * json))
  : list (string * json) :=
  fold_left (fun m e => rename_members (fst e) (snd e) m) rs m.

(** The command the self-deleting revision stores under [init]. *)
Definition init_command : json := JStr "bun run setup:env && bun run setup:full".

End ManifestStatements.

(** ** More working trees *)

Section MoreTrees.
Import Json RefCodec Runtime.

Definition emptied_manifest : list (string * json) :=
  Eval vm_compute in
    match parse emptied_manifest_text with
    | Some (JObj m) => m
    | _ => []
    end.

Definition emptied_scripts : list (string * json) :=
  Eval vm_compute in
    match obj_get "scripts" emptied_manifest with
    | Some (JObj m) => m
    | _ => []
    end.

(** A project whose manifest has no [scripts] member. *)
Definition bare_manifest_text : string :=
  dq "{`name`: `shop`, `version`: `2.0.0`}".

Definition bare_manifest : list (string * json) :=
  [("name", JStr "shop"); ("version", JStr "2.0.0")].

Definition bare_tree : world :=
  tree [("package.json", bare_manifest_text)] [] None.

End MoreTrees.

(** ** Requests that are bridged *)

Section BridgeMoreStatements.
Import JsString Eff AuthContext.

(** The [sql] template of the handler of [auth-context.ts] and of the
    example revision, and the raw text of the Logto revision. *)
Definition set_local_auth (userId : string) : statement :=
  Template ["SET LOCAL auth.user_id = "; EmptyString] [userId].
Definition set_local_app (userId : string) : statement :=
  Template ["SET LOCAL app.user_id = "; EmptyString] [userId].
Definition set_session_raw (userId : string) : statement :=
  Raw (Sql.set_session_sql userId).

(** The handler bridged a subject: one statement more on [db], built from a
    non-empty identifier that is now the context's [userId]. *)
Definition bridged (q : string -> statement) (st st' : state) : Prop :=
  exists userId,
    userId <> EmptyString
    /\ context_userId st' = Some userId
    /\ executed st' = executed st ++ [q userId].

(** The three revisions of the handler. *)
Definition handlers : list (request -> AuthContext.M unit) :=
  [handler; handler_example; handler_logto].

(** A signed-in request as each revision sees it: the session module
    answers with a session whose [userInfo] and [user] carry the subject,
    and Logto's client answers with the same claims. *)
Definition signed_in (r : request) (c : claims) (userId : string) : Prop :=
  not_api (url r) = false
  /\ sub c = Some userId
  /\ userId <> EmptyString
  /\ oidc r = Found {| userInfo := Some c; user := Some c |}
  /\ logto_init r = None
  /\ logto_client r = Some (Found c)
  /\ db_up r = true.

Definition signed_in_claims : claims :=
  {| sub := Some "user-42"; others := [("email", "a@example.org")] |}.

Definition signed_in_request : request :=
  {| url := Some "/api/todos";
     oidc := Found {| userInfo := Some signed_in_claims; user := Some signed_in_claims |};
     logto_init := None;
     logto_client := Some (Found signed_in_claims);
     db_up := true |}.

(** The same session asking for a page. *)
Definition page_request : request :=
  {| url := Some "/dashboard";
     oidc := Found {| userInfo := Some signed_in_claims; user := Some signed_in_claims |};
     logto_init := None;
     logto_client := Some (Found signed_in_claims);
     db_up := true |}.

(** A signed-in request that finds the database down. *)
Definition unreachable_db_request : request :=
  {| url := Some "/api/todos";
     oidc := Found {| userInfo := Some signed_in_claims; user := Some signed_in_claims |};
     logto_init := None;
     logto_client := Some (Found signed_in_claims);
     db_up := false |}.

(** A request whose token Logto refuses. *)
Definition expired_request : request :=
  {| url := Some "/api/todos";
     oidc := Nothing;
     logto_init := None;
     logto_client := Some (Fails (Error "jwt expired"));
     db_up := true |}.

End BridgeMoreStatements.

(** ** Answers of the identity provider *)

Section WaitStatements.
Import Eff LogtoSetup.

(** The answer that ends the wait: a response with a status below 500. *)
Definition ready (a : option Z) : bool :=
  match a with
  | Some status => status <? 500
  | None => false
  end.

Definition console_url (authDomain : string) : string :=
  "https://" +:+ authDomain +:+ "/console".

(** The [i]-th coming answer is the first one that is ready. *)
Definition first_ready_at (w : net) (i : nat) : Prop :=
  ready (answers w (length (requests w) + i)%nat) = true
  /\ forall j, (j < i)%nat -> ready (answers w (length (requests w) + j)%nat) = false.

(** None of the [n] coming answers is ready. *)
Definition none_ready (w : net) (n : nat) : Prop :=
  forall j, (j < n)%nat -> ready (answers w (length (requests w) + j)%nat) = false.

(** A provider that starts answering at its fourth request. *)
Definition slow_start : net :=
  {| AUTH_DOMAIN := Some "auth.localhost";
     answers := fun n => if (n <? 3)%nat then None else Some 200;
     requests := []; pauses := 0 |}.

End WaitStatements.

(** * Properties *)

(** ** Strings *)

Section StringFacts.
Import JsString.

Lemma after_run_length cls skip s :
  (String.length (after_run cls skip s) <= String.length s)%nat.
Proof.
  revert skip. induction s as [|c r IH]; intros skip; simpl; [lia|].
  destruct (step cls skip (String c r)) as [k|]; simpl; [|lia].
  specialize (IH k). lia.
Qed.

Lemma step_none cls skip s :
  step cls skip s = None -> skip = O /\ cls s = O.
Proof.
  unfold step. destruct skip; [|discriminate].
  destruct (cls s); [auto|discriminate].
Qed.

Lemma step_here cls s :
  step cls 0 s = match cls s with S k => Some k | O => None end.
Proof. reflexivity. Qed.

Lemma collapse_runs_skip cls rep skip s :
  collapse_runs cls rep skip true s
  = collapse_runs cls rep 0 false (after_run cls skip s).
Proof.
  revert skip. induction s as [|c r IH]; intros skip; simpl; [reflexivity|].
  destruct (step cls skip (String c r)) as [k|] eqn:E; simpl.
  - apply IH.
  - destruct (step_none _ _ _ E) as [_ E0]. rewrite step_here, E0. reflexivity.
Qed.

Lemma replace_runs_fuel_collapse cls rep fuel s :
  (String.length s <= fuel)%nat ->
  replace_runs_fuel fuel cls rep s = collapse_runs cls rep 0 false s.
Proof.
  revert s. induction fuel as [|f IH]; intros s Hlen.
  - destruct s; simpl in *; [reflexivity|lia].
  - destruct s as [|c r]; simpl; [reflexivity|].
    simpl in Hlen. rewrite step_here. destruct (cls (String c r)) as [|k].
    + f_equal. apply IH. lia.
    + rewrite collapse_runs_skip. f_equal. apply IH.
      pose proof (after_run_length cls k r). lia.
Qed.

Lemma replace_runs_collapse cls rep s :
  replace_runs cls rep s = collapse_runs cls rep 0 false s.
Proof. apply replace_runs_fuel_collapse. lia. Qed.

Lemma append_empty_r (s : string) : s +:+ EmptyString = s.
Proof. induction s as [|c r IH]; simpl; [reflexivity|]. rewrite IH. reflexivity. Qed.

Lemma append_assoc (a b c : string) : (a +:+ b) +:+ c = a +:+ (b +:+ c).
Proof. induction a as [|x r IH]; simpl; [reflexivity|]. rewrite IH. reflexivity. Qed.

Lemma Forall_chars_app P a b :
  Forall_chars P (a +:+ b) = Forall_chars P a && Forall_chars P b.
Proof. induction a as [|c r IH]; simpl; [reflexivity|]. rewrite IH. apply andb_assoc. Qed.

End StringFacts.

(** ** Name derivation *)

Section NameDerivationFacts.
Import JsString NameDerivation.
Context `{Casing}.

Lemma npmName_pipeline_fused skip in_run s :
  replace_chars not_npm_char EmptyString (collapse_runs white "-" skip in_run s)
  = derive_from skip in_run s.
Proof.
  revert skip in_run. induction s as [|c r IH]; intros skip in_run; simpl;
    [reflexivity|].
  destruct (step white skip (String c r)) as [k|].
  - destruct in_run; simpl; rewrite IH; reflexivity.
  - simpl. unfold not_npm_char at 1.
    destruct (npm_char c); simpl; rewrite IH; reflexivity.
Qed.

Lemma derive_from_chars skip in_run s :
  Forall_chars npm_char (derive_from skip in_run s) = true.
Proof.
  revert skip in_run. induction s as [|c r IH]; intros skip in_run; simpl;
    [reflexivity|].
  destruct (step white skip (String c r)) as [k|].
  - destruct in_run; simpl; rewrite IH; reflexivity.
  - destruct (npm_char c) eqn:E; simpl; rewrite ?E, IH; reflexivity.
Qed.

(** C5. The manifest name is the project name lower-cased, with every run
    of white space turned into one hyphen and every character other than a
    lower-case letter, a digit or a hyphen removed: the three chained calls
    of the script compute [derive_name], the result holds only characters of
    that class, and [My Cool App!] gives [my-cool-app].  White space is the
    class of the pattern, the characters outside ASCII included, and the
    lower-casing is the runtime's, whatever its case tables. *)
Theorem npmName_derivation :
  npmName "My Cool App!" = "my-cool-app"
  /\ (forall projectName, npmName projectName = derive_name projectName)
  /\ (forall projectName, Forall_chars npm_char (npmName projectName) = true).
Proof.
  assert (E : forall s, npmName s = derive_name s).
  { intros s. unfold npmName, derive_name. rewrite replace_runs_collapse.
    apply npmName_pipeline_fused. }
  split; [|split; [exact E|]].
  - unfold npmName. rewrite toLowerCase_ascii by reflexivity. reflexivity.
  - intros s. rewrite E. apply derive_from_chars.
Qed.

End NameDerivationFacts.

(** ** The SQL literal of the Logto revision *)

Section SqlFacts.
Import JsString Sql.

Lemma is_quote_eq c : is_quote c = true -> c = "'"%char.
Proof. destruct c as [[] [] [] [] [] [] [] []]; simpl; intros H; solve [reflexivity | discriminate H]. Qed.

Lemma read_escaped_body userId rest :
  match rest with String c _ => is_quote c = false | EmptyString => True end ->
  read_literal_body (escape_quotes userId +:+ "'" +:+ rest) = Some (userId, rest).
Proof.
  intros Hrest. unfold escape_quotes.
  induction userId as [|c r IH]; simpl in *.
  - destruct rest as [|c' r']; [reflexivity|]. rewrite Hrest. reflexivity.
  - destruct (is_quote c) eqn:E; simpl.
    + rewrite IH, (is_quote_eq c E). reflexivity.
    + rewrite E, IH. reflexivity.
Qed.

Lemma escape_quotes_app a b :
  escape_quotes (a +:+ b) = escape_quotes a +:+ escape_quotes b.
Proof.
  unfold escape_quotes. induction a as [|c r IH]; simpl; [reflexivity|].
  destruct (is_quote c); simpl; rewrite IH; reflexivity.
Qed.

(** C10. The statement built for [SET SESSION] is the fixed prefix followed
    by a string constant in which every quote of the identifier is doubled;
    read back as SQL reads a string constant, that constant denotes the
    identifier itself and ends at the last character of the statement, so
    no quote of the identifier closes it early. *)
Theorem set_session_literal_denotes_identifier :
  forall userId,
    set_session_sql userId
      = set_session_prefix +:+ ("'" +:+ escape_quotes userId +:+ "'")
    /\ read_literal ("'" +:+ escape_quotes userId +:+ "'")
         = Some (userId, EmptyString)
    /\ (forall a b,
          userId = a +:+ "'" +:+ b ->
          escape_quotes userId = escape_quotes a +:+ "''" +:+ escape_quotes b).
Proof.
  intros userId. split; [reflexivity|]. split.
  - simpl. apply (read_escaped_body userId EmptyString). exact I.
  - intros a b ->. rewrite escape_quotes_app. reflexivity.
Qed.

End SqlFacts.

(** ** The Environment Initializer *)

Section SetupEnvFacts.
Import Runtime SetupEnv.

(** The four ways a run can go. *)
Lemma run_cases (w : world) :
  (env_exists w /\ fst (run w) = 0 /\ files (snd (run w)) = files w)
  \/ (files w !! envPath = None /\ template_missing w
      /\ fst (run w) = 1 /\ files (snd (run w)) = files w)
  \/ (files w !! envPath = None /\ env_locked w
      /\ (exists text, files w !! envExamplePath = Some text)
      /\ fst (run w) = 1 /\ files (snd (run w)) = files w)
  \/ (files w !! envPath = None /\ ~ env_locked w
      /\ (exists text, files w !! envExamplePath = Some text
            /\ files (snd (run w)) = <[envPath := text]> (files w))
      /\ fst (run w) = 1).
Proof.
  unfold env_exists, template_missing, env_locked, run, run_process, script, main.
  unfold try_catch, bind, existsSync, when, copyFileSync, event_loop. simpl.
  destruct (files w !! envPath) as [t|] eqn:He.
  - left. rewrite bool_decide_eq_true_2 by eauto. simpl. eauto.
  - right. rewrite bool_decide_eq_false_2 by (intros [? ?]; discriminate). simpl.
    destruct (files w !! envExamplePath) as [text|] eqn:Hx.
    + rewrite bool_decide_eq_true_2 by eauto. simpl. rewrite Hx.
      destruct (bool_decide (envPath ∈ locked w)) eqn:Hl.
      * apply bool_decide_eq_true_1 in Hl. right. left. simpl. eauto 10.
      * apply bool_decide_eq_false_1 in Hl. right. right. simpl. eauto 10.
    + left. rewrite bool_decide_eq_false_2 by (intros [? ?]; discriminate).
      simpl. eauto.
Qed.

Lemma run_locked (w : world) : locked (snd (run w)) = locked w.
Proof.
  unfold run, run_process, script, main.
  unfold try_catch, bind, existsSync, when, copyFileSync, event_loop. simpl.
  destruct (bool_decide (is_Some (files w !! envPath))); simpl; [reflexivity|].
  destruct (bool_decide (is_Some (files w !! envExamplePath))); simpl; [|reflexivity].
  destruct (files w !! envExamplePath); simpl; [|reflexivity].
  destruct (bool_decide (envPath ∈ locked w)); reflexivity.
Qed.

Lemma second_run_changes_nothing (w : world) :
  files (snd (run (snd (run w)))) = files (snd (run w)).
Proof.
  destruct (run_cases (snd (run w))) as [H|[H|[H|H]]];
    [tauto | tauto | tauto |].
  destruct H as (Hnone & Hfree & (text & Hex & _) & _). exfalso.
  destruct (run_cases w) as [H|[H|[H|H]]].
  - destruct H as ([t Ht] & _ & Hf). rewrite Hf, Ht in Hnone. discriminate.
  - destruct H as (_ & Hmiss & _ & Hf). unfold template_missing in Hmiss.
    rewrite Hf, Hmiss in Hex. discriminate.
  - destruct H as (_ & Hl & _). apply Hfree. unfold env_locked in *.
    rewrite run_locked. exact Hl.
  - destruct H as (_ & _ & (t & _ & Hf) & _).
    rewrite Hf, lookup_insert_eq in Hnone. discriminate.
Qed.

(** C7. When the environment file already exists the initializer ends with
    status 0 and leaves every file as it was; and whatever the first run did,
    a second run changes no file. *)
Theorem initializer_idempotent (w : world) :
  (env_exists w -> fst (run w) = 0 /\ files (snd (run w)) = files w)
  /\ files (snd (run (snd (run w)))) = files (snd (run w)).
Proof.
  split; [|apply second_run_changes_nothing].
  intros Hex. destruct (run_cases w) as [H|[H|[H|H]]]; [tauto| | |];
    destruct Hex as [t Ht]; destruct H as (Hnone & _); rewrite Ht in Hnone;
    discriminate.
Qed.

Lemma initializer_idempotent_witness :
  env_exists configured_tree
  /\ fst (run configured_tree) = 0
  /\ files (snd (run configured_tree)) = files configured_tree.
Proof.
  assert (H : env_exists configured_tree) by (eexists; reflexivity).
  split; [exact H|].
  exact (proj1 (initializer_idempotent configured_tree) H).
Defined.

(** C8, as stated, fails: in [read_only_tree] the copy is refused, the run
    ends with status 1, yet the file was not created and the template is not
    missing. *)
Lemma exit_status_claim_fails : ~ exit_status_claim read_only_tree.
Proof.
  intros [_ [Hnz _]].
  assert (Hrun : fst (run read_only_tree) <> 0) by (vm_compute; discriminate).
  destruct (Hnz Hrun) as [(_ & [t Ht] & _) | [_ Hmiss]].
  - vm_compute in Ht. discriminate.
  - vm_compute in Hmiss. discriminate.
Qed.

(** C8, amended. The status is 0 exactly when the environment file already
    existed, and 1 in exactly three other cases: the template is missing,
    the file was just created from the template, or the copy was refused. *)
Theorem exit_status_cases (w : world) :
  (fst (run w) = 0 <-> env_exists w)
  /\ (fst (run w) <> 0 <->
      fst (run w) = 1
      /\ ~ env_exists w
      /\ (template_missing w
          \/ just_created w (snd (run w))
          \/ (env_locked w /\ files (snd (run w)) = files w))).
Proof.
  assert (Hno : files w !! envPath = None -> ~ env_exists w).
  { intros Hn [t Ht]. rewrite Ht in Hn. discriminate. }
  destruct (run_cases w) as [H|[H|[H|H]]].
  - destruct H as (Hex & H0 & _). rewrite H0. split; [tauto|].
    split; [congruence|]. intros (? & ? & _). contradiction.
  - destruct H as (Hn & Hm & H1 & _). rewrite H1. split.
    + split; [discriminate|]. intros Hex. destruct (Hno Hn Hex).
    + split; [|discriminate]. intros _. auto.
  - destruct H as (Hn & Hl & _ & H1 & Hf). rewrite H1. split.
    + split; [discriminate|]. intros Hex. destruct (Hno Hn Hex).
    + split; [|discriminate]. intros _. auto 6.
  - destruct H as (Hn & _ & (text & Hx & Hf) & H1). rewrite H1. split.
    + split; [discriminate|]. intros Hex. destruct (Hno Hn Hex).
    + split; [|discriminate]. intros _. split; [reflexivity|]. split; [auto|].
      right. left. unfold just_created. rewrite Hf, lookup_insert_eq, Hx. eauto.
Qed.

End SetupEnvFacts.

(** ** Reasoning about computations *)

Section EffFacts.
Import Eff.
Context {W : Type}.

Lemma total_noexit {A} (m : M W A) : total m -> noexit m.
Proof. intros H w n E. destruct (H w) as [a Ha]. congruence. Qed.

Lemma total_ret {A} (a : A) : total (ret (W := W) a).
Proof. intros w. exists a. reflexivity. Qed.

Lemma total_bind {A B} (m : M W A) (k : A -> M W B) :
  total m -> (forall a, total (k a)) -> total (bind m k).
Proof.
  intros Hm Hk w. unfold bind. destruct (Hm w) as [a Ha].
  destruct (m w) as [o w']; simpl in Ha; subst o. apply Hk.
Qed.

Lemma total_try_catch {A} (m : M W A) (h : error -> M W A) :
  noexit m -> (forall e, total (h e)) -> total (try_catch m h).
Proof.
  intros Hm Hh w. unfold try_catch. specialize (Hm w).
  destruct (m w) as [[a|e|n] w']; simpl in *.
  - eauto.
  - apply Hh.
  - destruct (Hm n eq_refl).
Qed.

Lemma total_when (b : bool) (m : M W unit) : total m -> total (when b m).
Proof. intros H. destruct b; [exact H | apply total_ret]. Qed.

Lemma noexit_ret {A} (a : A) : noexit (ret (W := W) a).
Proof. intros w n E. discriminate E. Qed.

Lemma noexit_throw {A} (e : error) : noexit (throw (W := W) (A := A) e).
Proof. intros w n E. discriminate E. Qed.

Lemma noexit_type_error {A} (o : option A) : noexit (type_error (W := W) o).
Proof. destruct o; [apply noexit_ret | apply noexit_throw]. Qed.

Lemma noexit_bind {A B} (m : M W A) (k : A -> M W B) :
  noexit m -> (forall a, noexit (k a)) -> noexit (bind m k).
Proof.
  intros Hm Hk w n. unfold bind. specialize (Hm w).
  destruct (m w) as [[a|e|n'] w']; simpl in *.
  - apply Hk.
  - discriminate.
  - destruct (Hm n' eq_refl).
Qed.

Lemma noexit_try_catch {A} (m : M W A) (h : error -> M W A) :
  noexit m -> (forall e, noexit (h e)) -> noexit (try_catch m h).
Proof.
  intros Hm Hh w n. unfold try_catch. specialize (Hm w).
  destruct (m w) as [[a|e|n'] w']; simpl in *.
  - discriminate.
  - apply Hh.
  - destruct (Hm n' eq_refl).
Qed.

Lemma noexit_when (b : bool) (m : M W unit) : noexit m -> noexit (when b m).
Proof. intros H. destruct b; [exact H | apply noexit_ret]. Qed.

Section Keeps.
Variable R : W -> W -> Prop.
Hypothesis R_refl : forall w, R w w.
Hypothesis R_trans : forall a b c, R a b -> R b c -> R a c.

Lemma keeps_ret {A} (a : A) : keeps R (ret a).
Proof. intros w. apply R_refl. Qed.

Lemma keeps_throw {A} (e : error) : keeps R (throw (A := A) e).
Proof. intros w. apply R_refl. Qed.

Lemma keeps_type_error {A} (o : option A) : keeps R (type_error o).
Proof. destruct o; [apply keeps_ret | apply keeps_throw]. Qed.

Lemma keeps_bind {A B} (m : M W A) (k : A -> M W B) :
  keeps R m -> (forall a, keeps R (k a)) -> keeps R (bind m k).
Proof.
  intros Hm Hk w. unfold bind. specialize (Hm w).
  destruct (m w) as [[a|e|n] w']; simpl in *; try exact Hm.
  apply R_trans with w'; [exact Hm | apply Hk].
Qed.

Lemma keeps_try_catch {A} (m : M W A) (h : error -> M W A) :
  keeps R m -> (forall e, keeps R (h e)) -> keeps R (try_catch m h).
Proof.
  intros Hm Hh w. unfold try_catch. specialize (Hm w).
  destruct (m w) as [[a|e|n] w']; simpl in *; try exact Hm.
  apply R_trans with w'; [exact Hm | apply Hh].
Qed.

Lemma keeps_when (b : bool) (m : M W unit) : keeps R m -> keeps R (when b m).
Proof. intros H. destruct b; [exact H | apply keeps_ret]. Qed.

End Keeps.

End EffFacts.

(** ** Objects *)

Section JsonFacts.
Import Json.

Lemma obj_get_set_eq k v m : obj_get k (obj_set k v m) = Some v.
Proof.
  induction m as [|[k' v'] r IH]; simpl.
  - rewrite String.eqb_refl. reflexivity.
  - destruct (String.eqb k k') eqn:E; simpl; rewrite E; auto.
Qed.

Lemma obj_get_set_ne k k' v m :
  k <> k' -> obj_get k' (obj_set k v m) = obj_get k' m.
Proof.
  intros Hne. induction m as [|[k0 v0] r IH]; simpl.
  - destruct (String.eqb_spec k' k); [congruence|reflexivity].
  - destruct (String.eqb_spec k k0); simpl.
    + subst k0. destruct (String.eqb_spec k' k); [congruence|reflexivity].
    + rewrite IH. reflexivity.
Qed.

Lemma obj_get_delete_eq k m : obj_get k (obj_delete k m) = None.
Proof.
  induction m as [|[k' v'] r IH]; simpl; [reflexivity|].
  destruct (String.eqb k k') eqn:E; simpl; [|rewrite E]; auto.
Qed.

Lemma obj_get_delete_ne k k' m :
  k <> k' -> obj_get k' (obj_delete k m) = obj_get k' m.
Proof.
  intros Hne. induction m as [|[k0 v0] r IH]; simpl; [reflexivity|].
  destruct (String.eqb_spec k k0); simpl.
  - subst k0. rewrite IH. destruct (String.eqb_spec k' k); [congruence|reflexivity].
  - rewrite IH. reflexivity.
Qed.

End JsonFacts.

(** ** Command cleanup ([cleanupTemplateCommands]) *)

Section CommandCleanupFacts.
Import Json Runtime CleanupTemplate.

(** What the removal loop does to one key of a [scripts] object. *)
Lemma remove_commands_object cmds :
  forall m n,
    exists m' n',
      fold_opt remove_command cmds (JObj m, n) = Some (JObj m', n')
      /\ forall k,
           obj_get k m' =
             if existsb (String.eqb k) cmds && truthy_opt (obj_get k m)
             then None else obj_get k m.
Proof.
  induction cmds as [|c r IH]; intros m n.
  - exists m, n. split; [reflexivity|]. intros k. reflexivity.
  - simpl. unfold remove_command at 1. simpl.
    destruct (truthy_opt (obj_get c m)) eqn:Ht.
    + destruct (IH (obj_delete c m) (S n)) as (m' & n' & Hf & Hk).
      exists m', n'. split; [exact Hf|]. intros k. rewrite Hk.
      destruct (String.eqb_spec k c) as [->|Hne].
      * rewrite obj_get_delete_eq, Ht. simpl. rewrite andb_false_r. reflexivity.
      * rewrite obj_get_delete_ne by congruence. reflexivity.
    + destruct (IH m n) as (m' & n' & Hf & Hk).
      exists m', n'. split; [exact Hf|]. intros k. rewrite Hk.
      destruct (String.eqb_spec k c) as [->|Hne]; [|reflexivity].
      rewrite Ht. simpl. rewrite !andb_false_r. reflexivity.
Qed.

Lemma rename_command_object m old new :
  rename_command (JObj m) (old, new) = Some (JObj (rename_members old new m)).
Proof.
  unfold rename_command, rename_members. simpl.
  destruct (obj_get old m) as [x|]; [|reflexivity].
  destruct (truthy x); reflexivity.
Qed.

Lemma rename_members_other old new m k :
  k <> old -> k <> new ->
  obj_get k (rename_members old new m) = obj_get k m.
Proof.
  intros Ho Hn. unfold rename_members.
  destruct (obj_get old m) as [x|]; [|reflexivity].
  destruct (truthy x); [|reflexivity].
  rewrite obj_get_delete_ne, obj_get_set_ne by congruence. reflexivity.
Qed.

Lemma rename_members_moves old new m x :
  old <> new -> obj_get old m = Some x -> truthy x = true ->
  obj_get old (rename_members old new m) = None
  /\ obj_get new (rename_members old new m) = Some x.
Proof.
  intros Hne Hx Ht. unfold rename_members. rewrite Hx, Ht. split.
  - apply obj_get_delete_eq.
  - rewrite obj_get_delete_ne by exact Hne. apply obj_get_set_eq.
Qed.

Lemma rename_commands_object rs :
  List.NoDup (rename_keys rs) ->
  forall m,
    exists m',
      fold_opt rename_command rs (JObj m) = Some (JObj m')
      /\ (forall k, ~ In k (rename_keys rs) -> obj_get k m' = obj_get k m)
      /\ (forall old new x,
            In (old, new) rs -> obj_get old m = Some x -> truthy x = true ->
            obj_get old m' = None /\ obj_get new m' = Some x).
Proof.
  induction rs as [|[o n] r IH]; intros Hnd m.
  - exists m. split; [reflexivity|]. split; [reflexivity|]. intros ? ? ? [].
  - simpl in Hnd. inversion Hnd as [|? ? Ho Hnd1]; subst.
    inversion Hnd1 as [|? ? Hn Hnd2]; subst.
    assert (Hon : o <> n) by (intros ->; apply Ho; left; reflexivity).
    simpl. rewrite rename_command_object.
    destruct (IH Hnd2 (rename_members o n m)) as (m' & Hf & Hframe & Hmove).
    exists m'. split; [exact Hf|]. split.
    + intros k Hk. rewrite Hframe by (intros Hin; apply Hk; simpl; auto).
      apply rename_members_other; intros ->; apply Hk; simpl; auto.
    + intros old new x [Heq|Hin] Hx Ht.
      * inversion Heq; subst old new.
        destruct (rename_members_moves o n m x Hon Hx Ht) as [H1 H2].
        rewrite !Hframe; [auto| |]; intros Hin.
        -- apply Hn. exact Hin.
        -- apply Ho. right. exact Hin.
      * assert (Hko : In old (rename_keys r)).
        { unfold rename_keys. apply in_flat_map. exists (old, new). simpl. auto. }
        apply Hmove; [exact Hin| |exact Ht].
        rewrite rename_members_other; [exact Hx| |]; intros ->.
        -- apply Ho. right. exact Hko.
        -- apply Hn. exact Hko.
Qed.

Lemma rename_members_settled old new m :
  truthy_opt (obj_get old m) = false -> rename_members old new m = m.
Proof.
  unfold rename_members. destruct (obj_get old m) as [x|]; [|reflexivity].
  simpl. intros ->. reflexivity.
Qed.

(** A renaming whose old name holds no truthy value is skipped: the old
    name and the new name are as they were. *)
Lemma rename_commands_skips rs :
  List.NoDup (rename_keys rs) ->
  forall m m',
    fold_opt rename_command rs (JObj m) = Some (JObj m') ->
    forall old new,
      In (old, new) rs -> truthy_opt (obj_get old m) = false ->
      obj_get old m' = obj_get old m /\ obj_get new m' = obj_get new m.
Proof.
  induction rs as [|[o n] r IH]; intros Hnd m m' Hfold old new Hin Hf;
    [destruct Hin|].
  simpl in Hnd. inversion Hnd as [|? ? Ho Hnd1]; subst.
  inversion Hnd1 as [|? ? Hn Hnd2]; subst.
  simpl in Hfold. rewrite rename_command_object in Hfold.
  destruct Hin as [E|Hin].
  - inversion E; subst old new.
    rewrite rename_members_settled in Hfold by exact Hf.
    destruct (rename_commands_object r Hnd2 m) as (m'' & Hf' & Hframe & _).
    rewrite Hf' in Hfold. inversion Hfold; subst m''.
    split; apply Hframe; intros Hk; [apply Ho; right; exact Hk|apply Hn; exact Hk].
  - assert (Hko : In old (rename_keys r)).
    { unfold rename_keys. apply in_flat_map. exists (old, new). simpl. auto. }
    assert (Hkn : In new (rename_keys r)).
    { unfold rename_keys. apply in_flat_map. exists (old, new). simpl. auto. }
    assert (Eo : obj_get old (rename_members o n m) = obj_get old m).
    { apply rename_members_other; intros ->;
        [apply Ho; right; exact Hko|apply Hn; exact Hko]. }
    assert (En : obj_get new (rename_members o n m) = obj_get new m).
    { apply rename_members_other; intros ->;
        [apply Ho; right; exact Hkn|apply Hn; exact Hkn]. }
    rewrite <- Eo, <- En. apply (IH Hnd2 _ _ Hfold); [exact Hin|].
    rewrite Eo. exact Hf.
Qed.

Lemma renames_keys_distinct : List.NoDup (rename_keys renames).
Proof.
  unfold rename_keys, renames. simpl.
  repeat (constructor; [simpl; intros H; repeat (destruct H as [H|H]; [discriminate H|]); exact H|]).
  constructor.
Qed.

Lemma removed_not_renamed cmd :
  In cmd commandsToRemove -> ~ In cmd (rename_keys renames).
Proof.
  intros Hin. simpl in Hin.
  repeat (destruct Hin as [<-|Hin];
          [simpl; intros H; repeat (destruct H as [H|H]; [discriminate H|]); exact H|]).
  destruct Hin.
Qed.

Lemma renamed_not_removed old new :
  In (old, new) renames -> existsb (String.eqb old) commandsToRemove = false.
Proof.
  intros Hin. simpl in Hin.
  repeat (destruct Hin as [Heq|Hin]; [inversion Heq; subst; reflexivity|]).
  destruct Hin.
Qed.

Lemma removed_listed cmd :
  In cmd commandsToRemove -> existsb (String.eqb cmd) commandsToRemove = true.
Proof.
  intros Hin. apply existsb_exists. exists cmd. split; [exact Hin|].
  apply String.eqb_refl.
Qed.

(** The two loops together, on the members of a [scripts] object. *)
Lemma clean_scripts_object sc :
  exists st sc',
    fold_opt remove_command commandsToRemove (JObj sc, O) = Some st
    /\ fold_opt rename_command renames (fst st) = Some (JObj sc')
    /\ (forall cmd,
          In cmd commandsToRemove -> truthy_opt (obj_get cmd sc) = true ->
          obj_get cmd sc' = None)
    /\ (forall old new x,
          In (old, new) renames -> obj_get old sc = Some x -> truthy x = true ->
          obj_get old sc' = None /\ obj_get new sc' = Some x)
    /\ (forall k,
          existsb (String.eqb k) commandsToRemove = false ->
          ~ In k (rename_keys renames) ->
          obj_get k sc' = obj_get k sc).
Proof.
  destruct (remove_commands_object commandsToRemove sc O) as (sc1 & n & Hrm & Hk1).
  destruct (rename_commands_object renames renames_keys_distinct sc1)
    as (sc' & Hrn & Hframe & Hmove).
  exists (JObj sc1, n), sc'. split; [exact Hrm|]. split; [exact Hrn|].
  split; [|split].
  - intros cmd Hin Ht. rewrite Hframe by (apply removed_not_renamed; exact Hin).
    rewrite Hk1, (removed_listed cmd Hin), Ht. reflexivity.
  - intros old new x Hin Hx Ht. apply Hmove; [exact Hin| |exact Ht].
    rewrite Hk1, (renamed_not_removed old new Hin). exact Hx.
  - intros k Hk Hnk. rewrite Hframe by exact Hnk. rewrite Hk1, Hk. reflexivity.
Qed.

(** The commands the [if (scripts[cmd])] tests of the two loops pass over:
    a command of the removal list without a truthy value stays as it is, and
    so do the old and the new name of a renaming whose old name has none.
    [cmds] is the removal list of either revision. *)
Lemma clean_scripts_skips cmds sc sc1 n sc' :
  (forall cmd, In cmd cmds -> ~ In cmd (rename_keys renames)) ->
  (forall old new, In (old, new) renames -> existsb (String.eqb old) cmds = false) ->
  fold_opt remove_command cmds (JObj sc, O) = Some (JObj sc1, n) ->
  fold_opt rename_command renames (JObj sc1) = Some (JObj sc') ->
  (forall cmd,
     In cmd cmds -> truthy_opt (obj_get cmd sc) = false ->
     obj_get cmd sc' = obj_get cmd sc)
  /\ (forall old new,
        In (old, new) renames -> truthy_opt (obj_get old sc) = false ->
        obj_get old sc' = obj_get old sc /\ obj_get new sc' = obj_get new sc).
Proof.
  intros Hdisj Hold Hrm Hrn.
  destruct (remove_commands_object cmds sc O) as (sc1' & n' & Hrm' & Hk1).
  rewrite Hrm in Hrm'. inversion Hrm'; subst sc1' n'. clear Hrm'.
  destruct (rename_commands_object renames renames_keys_distinct sc1)
    as (sc'' & Hrn' & Hframe & _).
  rewrite Hrn in Hrn'. inversion Hrn'; subst sc''. clear Hrn'.
  split.
  - intros cmd Hin Hf. rewrite Hframe by (apply Hdisj; exact Hin).
    rewrite Hk1, Hf, andb_false_r. reflexivity.
  - intros old new Hin Hf.
    assert (Eo : obj_get old sc1 = obj_get old sc).
    { rewrite Hk1, (Hold old new Hin). reflexivity. }
    destruct (rename_commands_skips renames renames_keys_distinct sc1 sc' Hrn
                old new Hin) as [H1 H2]; [rewrite Eo; exact Hf|].
    rewrite H1, H2, Eo. split; [reflexivity|].
    rewrite Hk1. destruct (existsb (String.eqb new) cmds && truthy_opt (obj_get new sc))
      eqn:E; [|reflexivity].
    apply andb_prop in E. destruct E as [E _].
    apply existsb_exists in E. destruct E as (c & Hc & Ec).
    apply String.eqb_eq in Ec. subst c.
    destruct (Hdisj new Hc). unfold rename_keys. apply in_flat_map.
    exists (old, new). simpl. auto.
Qed.

(** C4, amended. When the manifest is an object whose [scripts] member is an
    object and the file can be written, [cleanupTemplateCommands] writes the
    manifest back with a [scripts] object in which every command of the
    removal list that had a truthy value (a non-empty command string) is
    gone, every command of the rename map that had a truthy value is gone
    under its old name and present under its new name with the same value,
    and every other command is as it was.  The commands the two truthiness
    tests pass over are among those: a command of the removal list whose
    value is not truthy (absent, or the empty string) is as it was, and when
    the old name of a renaming has no truthy value both its old and its new
    name are as they were. *)
Theorem cleanup_removes_and_renames `{Codec} (w : world)
    (text : string) (manifest scripts : list (string * json)) :
  files w !! packageJsonPath = Some text ->
  JSON_parse text = Some (JObj manifest) ->
  obj_get "scripts" manifest = Some (JObj scripts) ->
  packageJsonPath ∉ locked w ->
  exists scripts',
    fst (cleanupTemplateCommands w) = Ret tt
    /\ files (snd (cleanupTemplateCommands w)) !! packageJsonPath
       = Some (JSON_stringify (JObj (obj_set "scripts" (JObj scripts') manifest)) +:+ nl)
    /\ (forall cmd,
          In cmd commandsToRemove -> truthy_opt (obj_get cmd scripts) = true ->
          obj_get cmd scripts' = None)
    /\ (forall old new x,
          In (old, new) renames -> obj_get old scripts = Some x -> truthy x = true ->
          obj_get old scripts' = None /\ obj_get new scripts' = Some x)
    /\ (forall k,
          existsb (String.eqb k) commandsToRemove = false ->
          ~ In k (rename_keys renames) ->
          obj_get k scripts' = obj_get k scripts)
    /\ (forall cmd,
          In cmd commandsToRemove -> truthy_opt (obj_get cmd scripts) = false ->
          obj_get cmd scripts' = obj_get cmd scripts)
    /\ (forall old new,
          In (old, new) renames -> truthy_opt (obj_get old scripts) = false ->
          obj_get old scripts' = obj_get old scripts
          /\ obj_get new scripts' = obj_get new scripts).
Proof.
  intros Hfile Hparse Hscripts Hfree.
  destruct (clean_scripts_object scripts) as (st & sc' & Hrm & Hrn & P1 & P2 & P3).
  assert (P45 : (forall cmd,
                   In cmd commandsToRemove ->
                   truthy_opt (obj_get cmd scripts) = false ->
                   obj_get cmd sc' = obj_get cmd scripts)
                /\ (forall old new,
                      In (old, new) renames ->
                      truthy_opt (obj_get old scripts) = false ->
                      obj_get old sc' = obj_get old scripts
                      /\ obj_get new sc' = obj_get new scripts)).
  { destruct (remove_commands_object commandsToRemove scripts O)
      as (sc1 & n & Hrm1 & _).
    assert (Hst : st = (JObj sc1, n)) by congruence. subst st.
    exact (clean_scripts_skips commandsToRemove scripts sc1 n sc'
             removed_not_renamed renamed_not_removed Hrm Hrn). }
  destruct P45 as [P4 P5].
  exists sc'.
  assert (Hrun : cleanupTemplateCommands w
                 = (Ret tt,
                    emit (Log "📝 Renamed container commands to infra:* pattern")
                      (emit (Log ("✅ Cleaned up " +:+ nat_to_string (snd st)
                                    +:+ " template commands"))
                         (emit (Wrote packageJsonPath
                                  (JSON_stringify (JObj (obj_set "scripts" (JObj sc') manifest))
                                     +:+ nl))
                            (with_files
                               (<[packageJsonPath :=
                                    JSON_stringify (JObj (obj_set "scripts" (JObj sc') manifest))
                                      +:+ nl]> (files w))
                               (emit (Log "🧹 Cleaning up template commands...") w)))))).
  { unfold cleanupTemplateCommands, try_catch, bind, console_log, readFile,
      parse_json, writeFile. cbn -[fold_opt commandsToRemove renames].
    rewrite Hfile, Hparse. cbn -[fold_opt commandsToRemove renames].
    rewrite Hscripts. cbn -[fold_opt commandsToRemove renames].
    rewrite Hrm. cbn -[fold_opt commandsToRemove renames].
    rewrite Hrn. cbn -[fold_opt commandsToRemove renames].
    rewrite bool_decide_eq_false_2 by exact Hfree. reflexivity. }
  rewrite Hrun. simpl. split; [reflexivity|]. split; [apply lookup_insert_eq|].
  auto 6.
Qed.

End CommandCleanupFacts.

(** ** What the steps of the orchestrators leave alone *)

Section RuntimeFacts.
Import Json Runtime.

Lemma only_manifest_refl w : only_manifest w w.
Proof. split; auto. Qed.

Lemma only_manifest_trans a b c :
  only_manifest a b -> only_manifest b c -> only_manifest a c.
Proof.
  intros [T1 F1] [T2 F2]. split; [congruence|].
  intros p Hp. rewrite F2, F1 by exact Hp. reflexivity.
Qed.

Lemma quiet_refl w : quiet w w.
Proof. split; [reflexivity|]. exists []. rewrite app_nil_r. auto. Qed.

Lemma quiet_trans a b c : quiet a b -> quiet b c -> quiet a c.
Proof.
  intros [T1 (e1 & E1 & F1)] [T2 (e2 & E2 & F2)]. split; [congruence|].
  exists (e1 ++ e2). rewrite E2, E1, app_assoc. split; [reflexivity|].
  apply Forall_app. auto.
Qed.

Lemma quiet_emit e w : not_scheduled e -> quiet w (emit e w).
Proof.
  intros He. split; [reflexivity|]. exists [e]. split; [reflexivity|].
  constructor; [exact He|constructor].
Qed.

(** The primitives. *)
Lemma console_log_quiet line : keeps quiet (console_log line).
Proof. intros w. apply quiet_emit. exact I. Qed.

Lemma console_error_quiet line : keeps quiet (console_error line).
Proof. intros w. apply quiet_emit. exact I. Qed.

Lemma readFile_quiet path : keeps quiet (readFile path).
Proof. intros w. unfold readFile. destruct (files w !! path); apply quiet_refl. Qed.

Lemma writeFile_quiet path text : keeps quiet (writeFile path text).
Proof.
  intros w. unfold writeFile. destruct (bool_decide (path ∈ locked w)); simpl.
  - apply quiet_refl.
  - split; [reflexivity|]. exists [Wrote path text]. split; [reflexivity|].
    constructor; [exact I|constructor].
Qed.

Lemma unlink_quiet path : keeps quiet (unlink path).
Proof.
  intros w. unfold unlink. destruct (files w !! path); [|apply quiet_refl].
  destruct (bool_decide (path ∈ locked w)); simpl; [apply quiet_refl|].
  split; [reflexivity|]. exists [Removed path]. split; [reflexivity|].
  constructor; [exact I|constructor].
Qed.

Lemma execSync_quiet : keeps quiet execSync_git_status.
Proof. intros w. unfold execSync_git_status. destruct (git_status w); apply quiet_refl. Qed.

Lemma console_log_only_manifest line : keeps only_manifest (console_log line).
Proof. intros w. split; auto. Qed.

Lemma console_error_only_manifest line : keeps only_manifest (console_error line).
Proof. intros w. split; auto. Qed.

Lemma readFile_only_manifest path : keeps only_manifest (readFile path).
Proof. intros w. unfold readFile. destruct (files w !! path); apply only_manifest_refl. Qed.

Lemma writeFile_only_manifest text :
  keeps only_manifest (writeFile "package.json" text).
Proof.
  intros w. unfold writeFile.
  destruct (bool_decide ("package.json" ∈ locked w)); simpl.
  - apply only_manifest_refl.
  - split; [reflexivity|]. intros p Hp. simpl. apply lookup_insert_ne. congruence.
Qed.

Lemma execSync_only_manifest : keeps only_manifest execSync_git_status.
Proof.
  intros w. unfold execSync_git_status.
  destruct (git_status w); apply only_manifest_refl.
Qed.

(** None of the primitives ends the process. *)
Lemma console_log_total line : total (console_log line).
Proof. intros w. exists tt. reflexivity. Qed.

Lemma console_error_total line : total (console_error line).
Proof. intros w. exists tt. reflexivity. Qed.

Lemma setTimeout_total t d : total (setTimeout t d).
Proof. intros w. exists tt. reflexivity. Qed.

Lemma readFile_noexit path : noexit (readFile path).
Proof. intros w n. unfold readFile. destruct (files w !! path); discriminate. Qed.

Lemma writeFile_noexit path text : noexit (writeFile path text).
Proof.
  intros w n. unfold writeFile. destruct (bool_decide (path ∈ locked w)); discriminate.
Qed.

Lemma unlink_noexit path : noexit (unlink path).
Proof.
  intros w n. unfold unlink. destruct (files w !! path); [|discriminate].
  destruct (bool_decide (path ∈ locked w)); discriminate.
Qed.

Lemma execSync_noexit : noexit execSync_git_status.
Proof. intros w n. unfold execSync_git_status. destruct (git_status w); discriminate. Qed.

End RuntimeFacts.

(** Goals of the three judgements are taken apart along the structure of the
    script; what is left is a primitive. *)
Ltac script_step :=
  lazymatch goal with
  | |- forall _, _ => intro
  | |- keeps only_manifest (Eff.bind _ _) => apply (keeps_bind _ only_manifest_trans)
  | |- keeps only_manifest (Eff.try_catch _ _) => apply (keeps_try_catch _ only_manifest_trans)
  | |- keeps only_manifest (Eff.when _ _) => apply (keeps_when _ only_manifest_refl)
  | |- keeps only_manifest (Eff.ret _) => apply (keeps_ret _ only_manifest_refl)
  | |- keeps only_manifest (Eff.type_error _) => apply (keeps_type_error _ only_manifest_refl)
  | |- keeps quiet (Eff.bind _ _) => apply (keeps_bind _ quiet_trans)
  | |- keeps quiet (Eff.try_catch _ _) => apply (keeps_try_catch _ quiet_trans)
  | |- keeps quiet (Eff.when _ _) => apply (keeps_when _ quiet_refl)
  | |- keeps quiet (Eff.ret _) => apply (keeps_ret _ quiet_refl)
  | |- keeps quiet (Eff.type_error _) => apply (keeps_type_error _ quiet_refl)
  | |- noexit (Eff.bind _ _) => apply noexit_bind
  | |- noexit (Eff.try_catch _ _) => apply noexit_try_catch
  | |- noexit (Eff.when _ _) => apply noexit_when
  | |- noexit (Eff.ret _) => apply noexit_ret
  | |- noexit (Eff.type_error _) => apply noexit_type_error
  | |- total (Eff.bind _ _) => apply total_bind
  | |- total (Eff.try_catch _ _) => apply total_try_catch
  | |- total (Eff.when _ _) => apply total_when
  | |- total (Eff.ret _) => apply total_ret
  | |- _ (Runtime.parse_json _) => unfold Runtime.parse_json
  | |- _ (Eff.throw _) =>
      first [ apply noexit_throw
            | apply (keeps_throw _ quiet_refl)
            | apply (keeps_throw _ only_manifest_refl) ]
  | |- _ (match ?x with _ => _ end) => destruct x
  | |- _ _ (match ?x with _ => _ end) => destruct x
  end.

Create HintDb script discriminated.
#[export] Hint Resolve console_log_quiet console_error_quiet readFile_quiet
  writeFile_quiet unlink_quiet execSync_quiet console_log_only_manifest
  console_error_only_manifest readFile_only_manifest writeFile_only_manifest
  execSync_only_manifest readFile_noexit writeFile_noexit unlink_noexit
  execSync_noexit console_log_total console_error_total setTimeout_total
  : script.

Ltac script_auto :=
  repeat first [ script_step
               | solve [auto with script]
               | solve [apply total_noexit; auto with script] ].

(** ** The guarded revision ([cleanup-template.ts]) *)

Section GuardedFacts.
Import JsString Json Runtime CleanupTemplate.
Context `{Codec}.
Context {casing : JsString.Casing}.

Lemma hasUncommittedChanges_total : total hasUncommittedChanges.
Proof. unfold hasUncommittedChanges. script_auto. Qed.

Lemma hasUncommittedChanges_only_manifest : keeps only_manifest hasUncommittedChanges.
Proof. unfold hasUncommittedChanges. script_auto. Qed.

Lemma cleanupTemplateCommands_total : total cleanupTemplateCommands.
Proof. unfold cleanupTemplateCommands. script_auto. Qed.

Lemma cleanupTemplateCommands_only_manifest : keeps only_manifest cleanupTemplateCommands.
Proof. unfold cleanupTemplateCommands. script_auto. Qed.

Lemma updatePackageInfo_total : total updatePackageInfo.
Proof. unfold updatePackageInfo. script_auto. Qed.

Lemma updatePackageInfo_only_manifest : keeps only_manifest updatePackageInfo.
Proof. unfold updatePackageInfo. script_auto. Qed.

Lemma updatePackageInfo_quiet : keeps quiet updatePackageInfo.
Proof. unfold updatePackageInfo. script_auto. Qed.

Lemma main_total : total main.
Proof.
  unfold main. script_auto;
    auto using hasUncommittedChanges_total, cleanupTemplateCommands_total,
      updatePackageInfo_total.
Qed.

Lemma main_only_manifest : keeps only_manifest main.
Proof.
  unfold main. script_auto;
    auto using hasUncommittedChanges_only_manifest,
      cleanupTemplateCommands_only_manifest, updatePackageInfo_only_manifest.
Qed.

(** A script that returns and sets no timer: the run ends with status 0 in
    the world the script left. *)
Lemma run_process_returns (m : M unit) (w : world) :
  total m -> (forall w0, timers (snd (m w0)) = timers w0) ->
  fst (run_process m w) = 0
  /\ files (snd (run_process m w)) = files (snd (m (with_timers [] w)))
  /\ trace (snd (run_process m w)) = trace (snd (m (with_timers [] w))).
Proof.
  intros Ht Hq. unfold run_process, bind, event_loop.
  specialize (Hq (with_timers [] w)). destruct (Ht (with_timers [] w)) as [a Ha].
  destruct (m (with_timers [] w)) as [o w1]. simpl in *. subst o.
  rewrite Hq. simpl. auto.
Qed.

Lemma updatePackageInfo_files (w : world) :
  files (snd (updatePackageInfo w)) = files w
  \/ exists name text pj pj',
       project_name w = Some name
       /\ files w !! packageJsonPath = Some text
       /\ JSON_parse text = Some pj
       /\ rebrand pj (NameDerivation.npmName name) = Some pj'
       /\ files (snd (updatePackageInfo w))
          = <[packageJsonPath := JSON_stringify pj' +:+ nl]> (files w).
Proof.
  unfold updatePackageInfo, project_name, try_catch, bind, readFile, parse_json,
    writeFile, console_log, console_error, type_error.
  destruct (files w !! envPath) as [env|]; simpl; [|auto].
  destruct (match_line project_name_key true env) as [capture|]; simpl; [|auto].
  destruct (files w !! packageJsonPath) as [text|]; simpl; [|auto].
  destruct (JSON_parse text) as [pj|] eqn:Hp; simpl; [|auto].
  destruct (rebrand pj (NameDerivation.npmName (trim capture))) as [pj'|] eqn:Hr;
    simpl; [|auto].
  destruct (bool_decide (packageJsonPath ∈ locked w)); simpl; [auto|].
  right. exists (trim capture), text, pj, pj'. repeat split; auto.
Qed.

Lemma updatePackageInfo_unnamed (w : world) :
  project_name w = None -> files (snd (updatePackageInfo w)) = files w.
Proof.
  intros Hn. destruct (updatePackageInfo_files w) as [Hf|(n & ? & ? & ? & Hp & _)];
    [exact Hf|]. rewrite Hn in Hp. discriminate.
Qed.


Lemma rebrand_object m name :
  exists m',
    rebrand (JObj m) name = Some (JObj m')
    /\ obj_get "name" m' = Some (JStr name)
    /\ obj_get "version" m' = Some (JStr "0.1.0")
    /\ obj_get "description" m' = None.
Proof.
  eexists. split; [reflexivity|]. split; [|split].
  - rewrite obj_get_set_ne, obj_get_delete_ne by discriminate. apply obj_get_set_eq.
  - apply obj_get_set_eq.
  - rewrite obj_get_set_ne by discriminate. apply obj_get_delete_eq.
Qed.



(** Whatever the guard says, no file but the manifest is touched: the README
    in particular. *)
Lemma run_only_manifest (w : world) (p : string) :
  p <> packageJsonPath -> files (snd (run w)) !! p = files w !! p.
Proof.
  intros Hp.
  destruct (run_process_returns main w main_total
              (fun w0 => proj1 (main_only_manifest w0))) as (_ & Hf & _).
  unfold run. rewrite Hf.
  apply (proj2 (main_only_manifest (with_timers [] w)) p Hp).
Qed.

End GuardedFacts.

(** ** The template marker *)

Section MarkerFacts.
Import JsString Json Runtime.
Context `{Codec}.
Context {casing : JsString.Casing}.

Lemma manifest_is_template_files (w w' : world) :
  files w' = files w -> manifest_is_template w' = manifest_is_template w.
Proof. intros Hf. unfold manifest_is_template. rewrite Hf. reflexivity. Qed.

(** The revision with the guard up front stops at the marker. *)
Lemma cleanupTemplate_template (w : world) :
  manifest_is_template w = true ->
  CleanupTemplateMarker.cleanupTemplate w
  = (Ret tt, emit (Log "📦 Template repository detected - keeping all commands") w).
Proof.
  unfold manifest_is_template, CleanupTemplateMarker.cleanupTemplate,
    CleanupTemplateMarker.packageJsonPath, try_catch, bind, readFile, parse_json.
  destruct (files w !! "package.json") as [text|]; [|discriminate].
  destruct (JSON_parse text) as [pj|]; [|discriminate]. simpl.
  destruct (get_prop pj "name") as [name|]; [|discriminate]. simpl.
  intros ->. reflexivity.
Qed.

Lemma marker_run_template (w : world) :
  manifest_is_template w = true ->
  fst (CleanupTemplateMarker.run w) = 0
  /\ files (snd (CleanupTemplateMarker.run w)) = files w.
Proof.
  intros Ht. unfold CleanupTemplateMarker.run, run_process, bind, event_loop.
  rewrite cleanupTemplate_template by exact Ht. simpl. auto.
Qed.

(** [isTemplateRepo] answers the marker test and changes no file. *)
Lemma isTemplateRepo_spec (w : world) :
  exists w',
    CleanupTemplateSelfDelete.isTemplateRepo w = (Ret (manifest_is_template w), w')
    /\ quiet w w' /\ files w' = files w.
Proof.
  unfold manifest_is_template, CleanupTemplateSelfDelete.isTemplateRepo,
    CleanupTemplateSelfDelete.packageJsonPath, try_catch, bind, readFile,
    parse_json, console_log, console_error, type_error.
  destruct (files w !! "package.json") as [text|]; simpl.
  - destruct (JSON_parse text) as [pj|]; simpl.
    + destruct (get_prop pj "name") as [name|]; simpl.
      * destruct (strict_eq_str name "nuxtship"); simpl; eexists;
          (split; [reflexivity|]); (split; [|reflexivity]);
          [apply quiet_emit; exact I | apply quiet_refl].
      * eexists. split; [reflexivity|]. split; [|reflexivity].
        apply quiet_emit. exact I.
    + eexists. split; [reflexivity|]. split; [|reflexivity].
      apply quiet_emit. exact I.
  - eexists. split; [reflexivity|]. split; [|reflexivity].
    apply quiet_emit. exact I.
Qed.

End MarkerFacts.

(** ** The self-deleting revision *)

Section SelfDeleteFacts.
Import JsString Json Runtime CleanupTemplateSelfDelete.
Context `{Codec}.
Context {casing : JsString.Casing}.

Lemma bind_total {A B} (m : M A) (k : A -> M B) (w : world) :
  total m -> exists a, bind m k w = k a (snd (m w)).
Proof.
  intros Ht. destruct (Ht w) as [a Ha]. exists a. unfold bind.
  destruct (m w) as [o w']. simpl in *. subst o. reflexivity.
Qed.

Lemma sd_cleanupTemplateCommands_total : total cleanupTemplateCommands.
Proof. unfold cleanupTemplateCommands. script_auto. Qed.

Lemma sd_cleanupTemplateCommands_quiet : keeps quiet cleanupTemplateCommands.
Proof. unfold cleanupTemplateCommands. script_auto. Qed.

Lemma cleanupReadme_total : total cleanupReadme.
Proof. unfold cleanupReadme. script_auto. Qed.

Lemma cleanupReadme_quiet : keeps quiet cleanupReadme.
Proof. unfold cleanupReadme. script_auto. Qed.

Lemma cleanupLicense_total : total cleanupLicense.
Proof. unfold cleanupLicense. script_auto. Qed.

Lemma cleanupLicense_quiet : keeps quiet cleanupLicense.
Proof. unfold cleanupLicense. script_auto. Qed.

(** The shape of a run of [main]: the steps up to the license removal leave
    a world [w'] with no timer set; in template mode that is the end, else
    the timer and the closing message follow. *)
Lemma main_shape (w : world) :
  exists w',
    quiet w w'
    /\ main w
       = (Ret tt,
          if template_seen w then w'
          else emit (Log ready_line)
                 (emit (Scheduled (UnlinkLater scriptPath) 100)
                    (with_timers (timers w' ++ [UnlinkLater scriptPath]) w')))
    /\ (template_seen w = true -> files w' = files (snd (updatePackageInfo w))).
Proof.
  unfold template_seen, main, updatePackageInfo.
  destruct (bind_total CleanupTemplate.updatePackageInfo
              (fun _ => isTemplate <- isTemplateRepo ;;
                 when (negb isTemplate)
                   (cleanupTemplateCommands ;;; cleanupReadme ;;; cleanupLicense ;;;
                    selfDelete ;;; console_log ready_line)) w
              updatePackageInfo_total) as [[] E1].
  unfold ready_line in E1 at 1. rewrite E1. clear E1.
  pose proof (updatePackageInfo_quiet w) as Q1.
  set (w1 := snd (CleanupTemplate.updatePackageInfo w)) in *.
  destruct (isTemplateRepo_spec w1) as (w2 & E2 & Q2 & F2).
  unfold bind at 1. rewrite E2.
  pose proof (quiet_trans _ _ _ Q1 Q2) as Q12.
  destruct (manifest_is_template w1); unfold when; cbn [negb].
  - exists w2. split; [exact Q12|]. split; [reflexivity|]. intros _. exact F2.
  - destruct (bind_total cleanupTemplateCommands
                (fun _ => cleanupReadme ;;; cleanupLicense ;;; selfDelete ;;;
                          console_log ready_line) w2
                sd_cleanupTemplateCommands_total) as [[] E3].
    rewrite E3. clear E3.
    pose proof (sd_cleanupTemplateCommands_quiet w2) as Q3.
    set (w3 := snd (cleanupTemplateCommands w2)) in *.
    destruct (bind_total cleanupReadme
                (fun _ => cleanupLicense ;;; selfDelete ;;; console_log ready_line) w3
                cleanupReadme_total) as [[] E4].
    rewrite E4. clear E4.
    pose proof (cleanupReadme_quiet w3) as Q4.
    set (w4 := snd (cleanupReadme w3)) in *.
    destruct (bind_total cleanupLicense
                (fun _ => selfDelete ;;; console_log ready_line) w4
                cleanupLicense_total) as [[] E5].
    rewrite E5. clear E5.
    pose proof (cleanupLicense_quiet w4) as Q5.
    exists (snd (cleanupLicense w4)). split; [|split; [reflexivity|discriminate]].
    exact (quiet_trans _ _ _ (quiet_trans _ _ _ (quiet_trans _ _ _ Q12 Q3) Q4) Q5).
Qed.

(** C6, amended. [main] always returns.  When the marker test, made after
    [updatePackageInfo] has rewritten the manifest, sees the reserved name,
    no timer is set.  Otherwise the self-deletion is scheduled exactly once,
    after every effect of the manifest, README and license steps, whether
    those steps succeeded or failed and were logged, and only the closing
    message follows it. *)
Theorem self_delete_comes_last (w : world) :
  exists evs,
    fst (main w) = Ret tt
    /\ Forall not_scheduled evs
    /\ if template_seen w then
         trace (snd (main w)) = trace w ++ evs
         /\ timers (snd (main w)) = timers w
       else
         trace (snd (main w))
         = trace w ++ evs ++ [Scheduled (UnlinkLater scriptPath) 100; Log ready_line]
         /\ timers (snd (main w)) = timers w ++ [UnlinkLater scriptPath].
Proof.
  destruct (main_shape w) as (w' & [T (evs & E & F)] & Hm & _).
  exists evs. rewrite Hm. split; [reflexivity|]. split; [exact F|].
  destruct (template_seen w); simpl.
  - auto.
  - rewrite E, T. split; [|reflexivity]. rewrite <- !app_assoc. reflexivity.
Qed.

End SelfDeleteFacts.

(** ** The guards, across the revisions *)

Section GuardFacts.
Import JsString Json Runtime.
Context `{Codec}.
Context {casing : JsString.Casing}.

(** The self-deleting revision, in template mode, with an environment file
    that names no project: [updatePackageInfo] skips, the marker test stops
    the run. *)
Lemma self_delete_run_unnamed_template (w : world) :
  manifest_is_template w = true -> project_name w = None ->
  fst (CleanupTemplateSelfDelete.run w) = 0
  /\ files (snd (CleanupTemplateSelfDelete.run w)) = files w.
Proof.
  intros Ht Hn. set (w0 := with_timers [] w).
  assert (Hf1 : files (snd (CleanupTemplate.updatePackageInfo w0)) = files w)
    by (apply (updatePackageInfo_unnamed w0); exact Hn).
  assert (Hseen : template_seen w0 = true).
  { unfold template_seen, CleanupTemplateSelfDelete.updatePackageInfo.
    rewrite (manifest_is_template_files w _ Hf1). exact Ht. }
  destruct (main_shape w0) as (w' & [T _] & Hm & Hf).
  rewrite Hseen in Hm. specialize (Hf Hseen).
  unfold CleanupTemplateSelfDelete.run, run_process, bind, event_loop.
  fold w0. rewrite Hm, T. simpl. split; [reflexivity|].
  rewrite Hf. exact Hf1.
Qed.

(** C1, amended. With a manifest named [nuxtship]: the revision whose
    marker test comes first ([cleanupTemplate]) ends with status 0 and
    changes no file; the self-deleting revision changes no file when the
    environment file names no project (its [updatePackageInfo], which runs
    before the marker test, then has nothing to write); the revision guarded
    by version control has no marker test, and leaves the README as it was. *)
Theorem template_guard (w : world) :
  manifest_is_template w = true ->
  (fst (CleanupTemplateMarker.run w) = 0
   /\ files (snd (CleanupTemplateMarker.run w)) = files w)
  /\ (project_name w = None ->
      files (snd (CleanupTemplateSelfDelete.run w)) = files w)
  /\ files (snd (CleanupTemplate.run w)) !! "README.md" = files w !! "README.md".
Proof.
  intros Ht. split; [apply marker_run_template; exact Ht|]. split.
  - intros Hn. apply self_delete_run_unnamed_template; assumption.
  - apply run_only_manifest. discriminate.
Qed.

End GuardFacts.

(** ** The revisions run on the example trees, with the reference codec *)

Section Runs.
Import JsString Json Runtime.

#[local] Abbreviation codec := RefCodec.codec.
#[local] Existing Instance RefCasing.casing.

Ltac in_list := repeat first [left; reflexivity | right].

(** C1, as stated, fails for the two revisions that update the package
    information: in [template_tree] the manifest is named [nuxtship], the
    guarded revision rewrites it, and the self-deleting revision rewrites
    both it and the README. *)
Lemma template_guard_claim_fails :
  ~ template_guard_claim (H := codec) (CleanupTemplate.run (H := codec)) template_tree
  /\ ~ template_guard_claim (H := codec) (CleanupTemplateSelfDelete.run (H := codec))
         template_tree.
Proof.
  split; intros Hc.
  - destruct (Hc eq_refl) as [Hm _]. vm_compute in Hm. discriminate Hm.
  - destruct (Hc eq_refl) as [_ Hr]. vm_compute in Hr. discriminate Hr.
Qed.

Lemma template_guard_witness :
  manifest_is_template (H := codec) unnamed_template_tree = true
  /\ project_name unnamed_template_tree = None
  /\ files (snd (CleanupTemplateMarker.run (H := codec) unnamed_template_tree))
     = files unnamed_template_tree
  /\ files (snd (CleanupTemplateSelfDelete.run (H := codec) unnamed_template_tree))
     = files unnamed_template_tree.
Proof.
  assert (Ht : manifest_is_template (H := codec) unnamed_template_tree = true)
    by reflexivity.
  assert (Hn : project_name unnamed_template_tree = None) by reflexivity.
  pose proof (template_guard (H := codec) unnamed_template_tree Ht) as [[_ Hm] [Hs _]].
  split; [exact Ht|]. split; [exact Hn|]. split; [exact Hm|exact (Hs Hn)].
Defined.

(** The name derivation at work: the environment file of [template_tree]
    names the project [My Cool App!], and the manifest that
    [updatePackageInfo] writes parses with the name [my-cool-app]. *)
Lemma update_names_manifest :
  project_name template_tree = Some "My Cool App!"
  /\ match files (snd (CleanupTemplate.updatePackageInfo (H := codec) template_tree))
            !! "package.json" with
     | Some text =>
         match RefCodec.parse text with
         | Some pj => get_prop pj "name"
         | None => None
         end
     | None => None
     end = Some (Some (JStr "my-cool-app")).
Proof. split; reflexivity. Qed.



(** C4, as stated, fails: the manifest of [emptied_tree] holds every command
    of the removal list and of the rename map, two of them with an empty
    command string; after the cleanup [setup:env] is still there. *)
Lemma command_cleanup_claim_fails : ~ command_cleanup_claim (H := codec) emptied_tree.
Proof.
  intros Hc.
  assert (Hall : forall cmd, In cmd CleanupTemplate.commandsToRemove ->
                   is_Some (manifest_command (H := codec) emptied_tree cmd)).
  { intros cmd Hin. simpl in Hin.
    repeat (destruct Hin as [<-|Hin]; [eexists; reflexivity|]). destruct Hin. }
  destruct (Hc Hall) as [Hgone _].
  specialize (Hgone "setup:env" ltac:(in_list)).
  vm_compute in Hgone. discriminate Hgone.
Qed.

(** In the same tree the empty [containers:logs] keeps its old name. *)
Lemma empty_command_not_renamed :
  manifest_command (H := codec)
    (snd (CleanupTemplate.cleanupTemplateCommands (H := codec) emptied_tree))
    "containers:logs" = Some (JStr EmptyString)
  /\ manifest_command (H := codec)
       (snd (CleanupTemplate.cleanupTemplateCommands (H := codec) emptied_tree))
       "infra:logs" = None.
Proof. split; reflexivity. Qed.

(** The revision with the marker guard has a shorter removal list:
    [setup:auth:provision] stays. *)
Lemma marker_revision_keeps_provision :
  manifest_command (H := codec)
    (snd (CleanupTemplateMarker.cleanupTemplate (H := codec)
            (tree [("package.json", emptied_manifest_text)] [] None)))
    "setup:auth:provision"
  = Some (JStr "bun run deployment/scripts/provision.ts").
Proof. reflexivity. Qed.

Lemma cleanup_removes_and_renames_witness :
  files template_tree !! CleanupTemplate.packageJsonPath = Some template_manifest_text
  /\ JSON_parse (Codec := codec) template_manifest_text = Some (JObj template_manifest)
  /\ obj_get "scripts" template_manifest = Some (JObj template_scripts)
  /\ (CleanupTemplate.packageJsonPath ∉ locked template_tree)
  /\ exists scripts',
       (files (snd (CleanupTemplate.cleanupTemplateCommands (H := codec) template_tree))
          !! CleanupTemplate.packageJsonPath)
       = Some (JSON_stringify (Codec := codec)
                 (JObj (obj_set "scripts" (JObj scripts') template_manifest))
               +:+ CleanupTemplate.nl)
       /\ obj_get "init" scripts' = None
       /\ obj_get "setup:auth:provision" scripts' = None
       /\ obj_get "containers:start" scripts' = None
       /\ obj_get "infra:start" scripts' = Some (JStr "docker compose up -d")
       /\ obj_get "dev" scripts' = Some (JStr "nuxt dev").
Proof.
  assert (H1 : files template_tree !! CleanupTemplate.packageJsonPath
               = Some template_manifest_text) by reflexivity.
  assert (H2 : JSON_parse (Codec := codec) template_manifest_text
               = Some (JObj template_manifest)) by reflexivity.
  assert (H3 : obj_get "scripts" template_manifest = Some (JObj template_scripts))
    by reflexivity.
  assert (H4 : CleanupTemplate.packageJsonPath ∉ locked template_tree)
    by (simpl; apply not_elem_of_empty).
  destruct (cleanup_removes_and_renames (H := codec) template_tree
              template_manifest_text template_manifest template_scripts H1 H2 H3 H4)
    as (scripts' & _ & Hw & Hrm & Hrn & Hkeep & _).
  repeat (split; [assumption|]). exists scripts'. split; [exact Hw|].
  split; [apply Hrm; [in_list|reflexivity]|].
  split; [apply Hrm; [in_list|reflexivity]|].
  destruct (Hrn "containers:start" "infra:start" (JStr "docker compose up -d"))
    as [Ho Hn]; [in_list|reflexivity|reflexivity|].
  split; [exact Ho|]. split; [exact Hn|].
  rewrite Hkeep; [reflexivity|reflexivity|].
  simpl. intros Hin. repeat (destruct Hin as [Hin|Hin]; [discriminate Hin|]). exact Hin.
Defined.

(** C6, as stated, fails twice.  In [no_readme_tree] the README step fails
    and is logged, and the self-deletion is scheduled all the same.  In
    [template_tree] the manifest of the run is the template's, the package
    information is updated first, and the self-deletion is scheduled. *)
Lemma self_delete_claim_fails :
  ~ self_delete_claim (H := codec) no_readme_tree
  /\ ~ self_delete_claim (H := codec) template_tree.
Proof.
  split; intros Hc.
  - assert (Hs : exists t d,
               In (Scheduled t d)
                 (trace (snd (CleanupTemplateSelfDelete.main (H := codec) no_readme_tree)))).
    { exists (UnlinkLater "deployment/scripts/cleanup-template.ts"), 100.
      vm_compute. in_list. }
    destruct (Hc Hs) as [[_ [text Hin]] _]. vm_compute in Hin.
    repeat (destruct Hin as [Hin|Hin]; [discriminate Hin|]). exact Hin.
  - assert (Hs : exists t d,
               In (Scheduled t d)
                 (trace (snd (CleanupTemplateSelfDelete.main (H := codec) template_tree)))).
    { exists (UnlinkLater "deployment/scripts/cleanup-template.ts"), 100.
      vm_compute. in_list. }
    destruct (Hc Hs) as [_ Ht]. vm_compute in Ht. discriminate Ht.
Qed.

End Runs.

(** ** The Auth-Context Bridge *)

Section AuthContextFacts.
Import JsString Eff AuthContext.

Lemma handler_unauthenticated (r : request) (st : state) :
  not_api (url r) = false -> no_answer (oidc r) ->
  fst (handler r st) = Ret tt /\ untouched st (snd (handler r st)).
Proof.
  intros Hapi Hno. unfold handler. rewrite Hapi.
  unfold try_catch, bind, answer, untouched.
  destruct (oidc r) as [s| |e]; simpl; [destruct Hno| |]; auto.
Qed.

Lemma handler_example_unauthenticated (r : request) (st : state) :
  not_api (url r) = false -> no_answer (oidc r) ->
  fst (handler_example r st) = Ret tt /\ untouched st (snd (handler_example r st)).
Proof.
  intros Hapi Hno. unfold handler_example. rewrite Hapi.
  unfold getUserSession, try_catch, bind, answer, untouched.
  destruct (oidc r) as [s| |e]; simpl; [destruct Hno| |]; auto.
Qed.

Lemma handler_logto_unauthenticated (r : request) (st : state) :
  not_api (url r) = false -> no_valid_session r ->
  fst (handler_logto r st) = Ret tt /\ untouched st (snd (handler_logto r st)).
Proof.
  intros Hapi [_ Hno]. unfold handler_logto. rewrite Hapi.
  unfold try_catch, bind, answer, when, untouched.
  destruct (logto_init r) as [e|]; simpl.
  - destruct (negb (String.eqb (message e) "Not authenticated.")); simpl; auto.
  - destruct (logto_client r) as [[c| |e]|]; simpl; [destruct Hno| | |]; auto.
    destruct (negb (String.eqb (message e) "Not authenticated.")); simpl; auto.
Qed.

(** C9. For a request under the API prefix that carries no valid session,
    each revision of the handler returns normally, leaves [userId] and
    [user] of the context as they were, and executes no statement. *)
Theorem unauthenticated_request_passes (r : request) (st : state) :
  not_api (url r) = false -> no_valid_session r ->
  forall h, In h [handler; handler_example; handler_logto] ->
    fst (h r st) = Ret tt /\ untouched st (snd (h r st)).
Proof.
  intros Hapi Hno h Hin. simpl in Hin.
  destruct Hin as [<-|[<-|[<-|[]]]].
  - apply handler_unauthenticated; [exact Hapi|apply Hno].
  - apply handler_example_unauthenticated; [exact Hapi|apply Hno].
  - apply handler_logto_unauthenticated; assumption.
Qed.

Lemma unauthenticated_request_witness :
  not_api (url anonymous_request) = false
  /\ no_valid_session anonymous_request
  /\ (fst (handler anonymous_request fresh_state) = Ret tt
      /\ untouched fresh_state (snd (handler anonymous_request fresh_state)))
  /\ (fst (handler_logto anonymous_request fresh_state) = Ret tt
      /\ untouched fresh_state (snd (handler_logto anonymous_request fresh_state))).
Proof.
  assert (Hapi : not_api (url anonymous_request) = false) by reflexivity.
  assert (Hno : no_valid_session anonymous_request) by (split; exact I).
  split; [exact Hapi|]. split; [exact Hno|]. split.
  - apply (unauthenticated_request_passes anonymous_request fresh_state Hapi Hno).
    left. reflexivity.
  - apply (unauthenticated_request_passes anonymous_request fresh_state Hapi Hno).
    right. right. left. reflexivity.
Defined.

End AuthContextFacts.

(** * Further properties of the code *)

(** ** Lines and white space *)

Section TextFacts.
Import JsString.

Lemma trimStart_white skip s :
  all_from white skip s = true -> trimStart_from skip s = EmptyString.
Proof.
  revert skip. induction s as [|c r IH]; intros skip; simpl; [reflexivity|].
  destruct (step white skip (String c r)) as [k|]; [apply IH|discriminate].
Qed.

Lemma trimStart_black skip s :
  all_from white skip s = false ->
  exists c r, trimStart_from skip s = String c r /\ white (String c r) = 0%nat.
Proof.
  revert skip. induction s as [|c r IH]; intros skip; simpl; [discriminate|].
  destruct (step white skip (String c r)) as [k|] eqn:E; [apply IH|].
  intros _. exists c, r. split; [reflexivity|]. apply (step_none _ _ _ E).
Qed.

Lemma trimEnd_black c r :
  white (String c r) = 0%nat -> trimEnd (String c r) <> EmptyString.
Proof.
  intros E. cbn [trimEnd]. unfold all_of. cbn [all_from]. rewrite step_here, E.
  discriminate.
Qed.

Lemma trim_empty s : String.eqb (trim s) EmptyString = all_of white s.
Proof.
  unfold trim, trimStart, all_of. destruct (all_from white 0 s) eqn:E.
  - rewrite trimStart_white by exact E. reflexivity.
  - destruct (trimStart_black 0 s E) as (c & r & -> & Hc).
    destruct (String.eqb_spec (trimEnd (String c r)) EmptyString) as [H|H];
      [destruct (trimEnd_black c r Hc H)|reflexivity].
Qed.

Lemma startsWith_split p s :
  startsWith p s = true -> s = p +:+ drop (String.length p) s.
Proof.
  revert s. induction p as [|a p IH]; intros s; simpl; [reflexivity|].
  destruct s as [|b s]; [discriminate|].
  destruct (Ascii.eqb_spec a b) as [->|]; [|discriminate].
  intros H. rewrite <- IH by exact H. reflexivity.
Qed.

Lemma startsWith_app p s : startsWith p (p +:+ s) = true.
Proof. induction p as [|a p IH]; simpl; [reflexivity|]. rewrite Ascii.eqb_refl. exact IH. Qed.

Lemma drop_app p s : drop (String.length p) (p +:+ s) = s.
Proof. induction p as [|a p IH]; simpl; [reflexivity|exact IH]. Qed.

(** What [before] cuts off. *)
Lemma before_spec cls s :
  exists post,
    s = before cls s +:+ post
    /\ (post = EmptyString \/ cls post <> 0%nat)
    /\ none_before cls (before cls s) post = true.
Proof.
  induction s as [|c r IH]; simpl.
  - exists EmptyString. auto.
  - destruct (cls (String c r)) as [|k] eqn:E.
    + destruct IH as (post & Hs & Hp & Hn). exists post.
      split; [simpl; rewrite <- Hs; reflexivity|]. split; [exact Hp|].
      simpl. rewrite <- Hs, E, Hn. reflexivity.
    + exists (String c r). split; [reflexivity|]. split; [|reflexivity].
      right. rewrite E. discriminate.
Qed.

Lemma before_stop cls v post :
  none_before cls v post = true ->
  (post = EmptyString \/ cls post <> 0%nat) ->
  before cls (v +:+ post) = v.
Proof.
  intros Hv Hp. induction v as [|c r IH]; simpl in *.
  - destruct post as [|c r]; [reflexivity|]. simpl.
    destruct Hp as [Hp|Hp]; [discriminate Hp|].
    destruct (cls (String c r)); [destruct (Hp eq_refl)|reflexivity].
  - apply andb_prop in Hv. destruct Hv as [Hc Hr].
    apply Nat.eqb_eq in Hc. rewrite Hc, (IH Hr). reflexivity.
Qed.

(** A line terminator is recognised by its own bytes. *)
Lemma line_end_prefix s k :
  line_end s = S k ->
  exists t rest, s = t +:+ rest /\ String.length t = S k /\ line_end t = S k.
Proof.
  unfold line_end. destruct s as [|a r]; [discriminate|].
  destruct (is_line_terminator1 a) eqn:Ea.
  - intros E. inversion E. subst k. exists (String a EmptyString), r.
    split; [reflexivity|]. split; [reflexivity|]. rewrite Ea. reflexivity.
  - destruct r as [|b [|c r]]; try discriminate.
    destruct ((code a =? 226) && (code b =? 128) && in_range 168 169 c)%N eqn:E3;
      [|discriminate].
    intros E. inversion E. subst k.
    exists (String a (String b (String c EmptyString))), r.
    split; [reflexivity|]. split; [reflexivity|]. rewrite Ea, E3. reflexivity.
Qed.

Lemma line_end_bound s : (line_end s <= String.length s)%nat.
Proof.
  unfold line_end. destruct s as [|a r]; simpl; [lia|].
  destruct (is_line_terminator1 a); [lia|].
  destruct r as [|b [|c r]]; simpl; try lia.
  destruct ((code a =? 226) && (code b =? 128) && in_range 168 169 c)%N; lia.
Qed.

Lemma match_line_unfold key b skip s :
  match_line_from key b skip s =
    if b && startsWith key s then
      Some (before line_end (drop (String.length key) s))
    else
      match s with
      | EmptyString => None
      | String _ r =>
          match step line_end skip s with
          | Some k => match_line_from key (Nat.eqb k 0) k r
          | None => match_line_from key false 0 r
          end
      end.
Proof. destruct s; reflexivity. Qed.

Lemma append_same_length (a b x y : string) :
  a +:+ x = b +:+ y -> String.length a = String.length b -> a = b.
Proof.
  revert b. induction a as [|c a IH]; intros [|d b]; simpl; try discriminate;
    [reflexivity|].
  intros E L. inversion E. subst d. f_equal. apply (IH b); [assumption|lia].
Qed.

(** Where a match begins: at the start, right after the bytes of a line
    terminator still to be passed, or after a line terminator. *)
Lemma match_line_from_spec key v s :
  forall b skip,
    match_line_from key b skip s = Some v ->
    exists pre post,
      s = pre +:+ key +:+ v +:+ post
      /\ none_before line_end v post = true
      /\ at_line_end post
      /\ ((pre = EmptyString /\ b = true)
          \/ (pre <> EmptyString /\ String.length pre = skip)
          \/ (exists p t, pre = p +:+ t /\ t <> EmptyString
                          /\ line_end t = String.length t)).
Proof.
  assert (Here : forall b skip s0,
            b && startsWith key s0 = true ->
            exists pre post,
              s0 = pre +:+ key +:+ before line_end (drop (String.length key) s0) +:+ post
              /\ none_before line_end
                   (before line_end (drop (String.length key) s0)) post = true
              /\ at_line_end post
              /\ ((pre = EmptyString /\ b = true)
                  \/ (pre <> EmptyString /\ String.length pre = skip)
                  \/ (exists p t, pre = p +:+ t /\ t <> EmptyString
                                  /\ line_end t = String.length t))).
  { intros b skip s0 E. apply andb_prop in E. destruct E as [-> E].
    pose proof (startsWith_split _ _ E) as Hs.
    destruct (before_spec line_end (drop (String.length key) s0))
      as (post & H1 & H2 & H3).
    exists EmptyString, post. split; [simpl; rewrite <- H1; exact Hs|].
    split; [exact H3|]. split; [exact H2|]. left. auto. }
  induction s as [|c r IH]; intros b skip; rewrite match_line_unfold.
  - destruct (b && startsWith key EmptyString) eqn:E; [|discriminate].
    intros Hv. inversion Hv; subst v. apply Here. exact E.
  - destruct (b && startsWith key (String c r)) eqn:E.
    { intros Hv. inversion Hv; subst v. apply Here. exact E. }
    clear Here E. unfold step. destruct skip as [|k0].
    + destruct (line_end (String c r)) as [|k] eqn:El.
      * intros Hv. destruct (IH _ _ Hv) as (pre & post & Hs & Hn & Hp & Hc).
        exists (String c pre), post. split; [simpl; rewrite Hs; reflexivity|].
        split; [exact Hn|]. split; [exact Hp|]. right. right.
        destruct Hc as [[_ Hb]|[[Hne Hl]|(p & t & -> & Ht & Hlt)]].
        -- discriminate Hb.
        -- destruct pre; [destruct (Hne eq_refl)|discriminate Hl].
        -- exists (String c p), t. auto.
      * intros Hv. destruct (IH _ _ Hv) as (pre & post & Hs & Hn & Hp & Hc).
        exists (String c pre), post. split; [simpl; rewrite Hs; reflexivity|].
        split; [exact Hn|]. split; [exact Hp|]. right. right.
        destruct (line_end_prefix _ _ El) as (t & rest & Et & Lt & Tt).
        destruct Hc as [[-> Hb]|[[Hne Hl]|(p & t' & -> & Ht & Hlt)]].
        -- apply Nat.eqb_eq in Hb. subst k.
           exists EmptyString, t. split; [|split].
           ++ simpl. destruct t as [|c' [|? ?]]; try discriminate Lt.
              simpl in Et. inversion Et. reflexivity.
           ++ intros ->. discriminate Lt.
           ++ congruence.
        -- exists EmptyString, t. split; [|split].
           ++ simpl. symmetry.
              apply (append_same_length t (String c pre) rest (key +:+ v +:+ post)).
              ** rewrite <- Et. simpl. rewrite Hs. reflexivity.
              ** simpl. lia.
           ++ intros ->. discriminate Lt.
           ++ congruence.
        -- exists (String c p), t'. auto.
    + intros Hv. destruct (IH _ _ Hv) as (pre & post & Hs & Hn & Hp & Hc).
      exists (String c pre), post. split; [simpl; rewrite Hs; reflexivity|].
      split; [exact Hn|]. split; [exact Hp|]. right.
      destruct Hc as [[-> Hb]|[[Hne Hl]|(p & t' & -> & Ht & Hlt)]].
      * apply Nat.eqb_eq in Hb. subst k0. left. split; [discriminate|reflexivity].
      * left. split; [discriminate|]. simpl. lia.
      * right. exists (String c p), t'. auto.
Qed.

(** X1. What the multi-line pattern captures is the rest of one line: when
    the match for a key succeeds with capture [v], the text reads
    [pre ++ key ++ v ++ post], where [pre] is empty or ends with a line
    terminator, no line terminator begins inside [v], and [post] is empty or
    begins with a line terminator.  The line terminators are LF, CR, U+2028
    and U+2029. *)
Theorem match_line_is_a_line key s v :
  match_line key true s = Some v ->
  exists pre post,
    s = pre +:+ key +:+ v +:+ post
    /\ at_line_start pre
    /\ none_before line_end v post = true
    /\ at_line_end post.
Proof.
  intros Hv. destruct (match_line_from_spec key v s true 0%nat Hv)
    as (pre & post & Hs & Hn & Hp & Hc).
  exists pre, post. split; [exact Hs|]. split; [|auto].
  destruct Hc as [[-> _]|[[Hne Hl]|Ht]].
  - left. reflexivity.
  - destruct pre; [destruct (Hne eq_refl)|discriminate Hl].
  - right. exact Ht.
Qed.

(** X2. A text that begins with the key yields the rest of its first line:
    for [v] in which no line terminator begins, followed by the end of the
    text or by a line terminator, the capture is [v] itself (an empty [v]
    included; a carriage return before the line feed is not part of it, and
    U+2028 ends the line as a line feed does). *)
Theorem match_line_first_line key v post :
  none_before line_end v post = true -> at_line_end post ->
  match_line key true (key +:+ v +:+ post) = Some v.
Proof.
  intros Hv Hp. unfold match_line. rewrite match_line_unfold, startsWith_app, drop_app.
  simpl. rewrite (before_stop line_end v post Hv Hp). reflexivity.
Qed.

Lemma match_line_is_a_line_witness :
  exists pre post,
    env_text = pre +:+ "PROJECT_NAME=" +:+ "My Cool App!" +:+ post
    /\ at_line_start pre
    /\ none_before line_end "My Cool App!" post = true
    /\ at_line_end post.
Proof.
  apply (match_line_is_a_line "PROJECT_NAME=" env_text "My Cool App!").
  reflexivity.
Defined.

Lemma match_line_first_line_witness :
  match_line "PROJECT_NAME=" true
    ("PROJECT_NAME=" +:+ "shop" +:+ String "013" (String "010" "PORT=3000"))
  = Some "shop"
  /\ match_line "PROJECT_NAME=" true
       ("PROJECT_NAME=" +:+ "shop"
          +:+ String "226" (String "128" (String "168" "PORT=3000")))
     = Some "shop".
Proof.
  split.
  - apply (match_line_first_line "PROJECT_NAME=" "shop"
             (String "013" (String "010" "PORT=3000"))); [reflexivity|].
    right. discriminate.
  - apply (match_line_first_line "PROJECT_NAME=" "shop"
             (String "226" (String "128" (String "168" "PORT=3000"))));
      [reflexivity|].
    right. discriminate.
Defined.

End TextFacts.

(** ** The derived name as a normal form *)

Section NameMore.
Import JsString NameDerivation.
Context `{Casing}.

Lemma npm_char_plain c r :
  npm_char c = true ->
  white (String c r) = 0%nat /\ lower_ascii_char c = c /\ is_ascii c = true.
Proof.
  unfold white.
  destruct c as [[] [] [] [] [] [] [] []]; simpl; intros Hc;
    solve [ discriminate Hc
          | split; [destruct r as [|b [|c r]]; reflexivity|split; reflexivity] ].
Qed.

Lemma npm_chars_ascii s :
  Forall_chars npm_char s = true ->
  Forall_chars is_ascii s = true /\ lower_ascii s = s.
Proof.
  induction s as [|c r IH]; simpl; [auto|].
  intros Hs. apply andb_prop in Hs. destruct Hs as [Hc Hr].
  destruct (npm_char_plain c r Hc) as (_ & Hl & Ha). destruct (IH Hr) as [IH1 IH2].
  rewrite Ha, IH1, Hl, IH2. auto.
Qed.

Lemma derive_from_fixed s :
  Forall_chars npm_char s = true -> derive_from 0 false s = s.
Proof.
  induction s as [|c r IH]; simpl; [reflexivity|].
  intros Hs. apply andb_prop in Hs. destruct Hs as [Hc Hr].
  destruct (npm_char_plain c r Hc) as (Hw & _ & _).
  rewrite step_here, Hw, Hc, (IH Hr). reflexivity.
Qed.

Lemma derive_from_length skip in_run s :
  (String.length (derive_from skip in_run s) <= String.length s)%nat.
Proof.
  revert skip in_run. induction s as [|c r IH]; intros skip in_run; simpl; [lia|].
  destruct (step white skip (String c r)) as [k|].
  - destruct in_run; simpl; specialize (IH k true); lia.
  - destruct (npm_char c); simpl; specialize (IH 0%nat false); lia.
Qed.

Lemma derive_from_empty s :
  derive_from 0 false s = EmptyString
  <-> never white s = true /\ Forall_chars not_npm_char s = true.
Proof.
  induction s as [|c r IH]; simpl; [tauto|].
  rewrite step_here. destruct (white (String c r)) as [|k]; simpl.
  - unfold not_npm_char at 1. destruct (npm_char c); simpl.
    + split; [discriminate|]. intros [_ Hf]. discriminate Hf.
    + exact IH.
  - split; [discriminate|]. intros [Hf _]. discriminate Hf.
Qed.

(** X3. The derived package name is in normal form: a name made only of
    lower-case letters, digits and hyphens is left as it is; deriving twice
    gives what deriving once gives; the derived name is never longer than the
    lower-cased project name; and it is empty exactly when the lower-cased
    project name holds no white space and no lower-case letter, digit or
    hyphen. *)
Theorem npmName_normal_form :
  (forall s, Forall_chars npm_char s = true -> npmName s = s)
  /\ (forall s, npmName (npmName s) = npmName s)
  /\ (forall s, (String.length (npmName s) <= String.length (toLowerCase s))%nat)
  /\ (forall s,
        npmName s = EmptyString
        <-> never white (toLowerCase s) = true
            /\ Forall_chars not_npm_char (toLowerCase s) = true).
Proof.
  assert (E : forall s, npmName s = derive_from 0 false (toLowerCase s)).
  { intros s. unfold npmName. rewrite replace_runs_collapse.
    apply npmName_pipeline_fused. }
  assert (F : forall s, Forall_chars npm_char s = true -> npmName s = s).
  { intros s Hs. destruct (npm_chars_ascii s Hs) as [Ha Hl].
    rewrite E, (toLowerCase_ascii s Ha), Hl. apply derive_from_fixed. exact Hs. }
  split; [exact F|]. split; [|split].
  - intros s. apply F. rewrite E. apply derive_from_chars.
  - intros s. rewrite E. apply derive_from_length.
  - intros s. rewrite E. apply derive_from_empty.
Qed.

End NameMore.

Section NameMoreRuns.
Import JsString NameDerivation.
#[local] Existing Instance RefCasing.casing.

Lemma npmName_normal_form_witness :
  npmName "my-cool-app" = "my-cool-app"
  /\ npmName "!?" = EmptyString.
Proof.
  destruct npmName_normal_form as (Hfix & _ & _ & Hempty). split.
  - apply Hfix. reflexivity.
  - apply Hempty. split; reflexivity.
Defined.

End NameMoreRuns.

(** ** One statement per subject *)

Section SqlMore.
Import JsString Sql.

Lemma append_cancel (p a b : string) : p +:+ a = p +:+ b -> a = b.
Proof. induction p as [|c r IH]; simpl; intros H; [exact H|]. inversion H. auto. Qed.

(** X4. Two different subject identifiers never give the same
    [SET SESSION] statement. *)
Theorem distinct_users_distinct_statements a b :
  a <> b -> set_session_sql a <> set_session_sql b.
Proof.
  intros Hne H. apply Hne. clear Hne.
  unfold set_session_sql in H. apply append_cancel in H.
  assert (Ha := read_escaped_body a EmptyString I).
  assert (Hb := read_escaped_body b EmptyString I).
  simpl in H. inversion H as [H'].
  simpl in Ha, Hb. rewrite H' in Ha. rewrite Ha in Hb. inversion Hb. reflexivity.
Qed.

Lemma distinct_users_witness :
  set_session_sql "o'neil" <> set_session_sql "o''neil".
Proof.
  apply (distinct_users_distinct_statements "o'neil" "o''neil"). discriminate.
Defined.

End SqlMore.

(** ** Names and texts of the README step; the status query *)

Section ReadmeFacts.
Import JsString Runtime CleanupTemplateSelfDelete.
Context {casing : Casing}.

Lemma replace_chars_removes cls s :
  Forall_chars (fun c => negb (cls c)) (replace_chars cls EmptyString s) = true.
Proof.
  induction s as [|c r IH]; simpl; [reflexivity|].
  destruct (cls c) eqn:E; simpl; [exact IH|]. rewrite E, IH. reflexivity.
Qed.

(** X5. A name that [cleanupReadme] reads from the environment file is
    either the fallback or a non-empty text without single or double quote;
    with a non-empty fallback it is never empty. *)
Theorem env_value_clean (key envContent fallback : string) :
  (env_value key envContent fallback = fallback
   \/ (env_value key envContent fallback <> EmptyString
       /\ Forall_chars not_quote (env_value key envContent fallback) = true))
  /\ (fallback <> EmptyString -> env_value key envContent fallback <> EmptyString).
Proof.
  unfold env_value.
  destruct (match_line key true envContent) as [capture|]; [|split; auto].
  destruct (String.eqb_spec (replace_chars is_any_quote EmptyString (trim capture))
              EmptyString) as [E|E]; [split; auto|].
  split; [|intros _; exact E]. right. split; [exact E|].
  apply replace_chars_removes.
Qed.

Lemma find_unfold pat s :
  find pat s =
    if startsWith pat s then Some (EmptyString, drop (String.length pat) s)
    else
      match s with
      | EmptyString => None
      | String c r =>
          match find pat r with
          | Some (b, a) => Some (String c b, a)
          | None => None
          end
      end.
Proof. destruct s; reflexivity. Qed.

Lemma find_none_here pat s : find pat s = None -> startsWith pat s = false.
Proof.
  rewrite find_unfold. destruct (startsWith pat s); [discriminate|reflexivity].
Qed.

Lemma find_none_tail pat c r : find pat (String c r) = None -> find pat r = None.
Proof.
  rewrite find_unfold. destruct (startsWith pat (String c r)); [discriminate|].
  destruct (find pat r) as [[b a]|]; [discriminate|reflexivity].
Qed.

Lemma replace_all_absent pat repl s :
  find pat s = None -> replace_all pat repl s = s.
Proof.
  unfold replace_all. generalize (S (String.length s)) as fuel.
  generalize EmptyString as before. revert s.
  induction s as [|c r IH]; intros before fuel Hn.
  - destruct fuel; simpl; [reflexivity|]. rewrite (find_none_here _ _ Hn). reflexivity.
  - destruct fuel; [reflexivity|]. cbn [replace_all_fuel].
    rewrite (find_none_here _ _ Hn), IH by (eapply find_none_tail; exact Hn).
    reflexivity.
Qed.

Lemma replace_first_absent pat repl s :
  find pat s = None -> replace_first pat repl s = s.
Proof. unfold replace_first. intros ->. reflexivity. Qed.

Lemma remove_section_absent header stops s :
  find header s = None -> remove_section header stops s = s.
Proof. unfold remove_section. intros ->. reflexivity. Qed.

(** X6. A README that holds none of the six template texts which
    [cleanupReadme] looks for is written back unchanged, whatever the
    names. *)
Theorem rewrite_readme_own_text (appName projectName readme : string) :
  (forall pat, In pat readme_patterns -> find pat readme = None) ->
  rewrite_readme appName projectName readme = readme.
Proof.
  intros Hn. unfold rewrite_readme. cbv zeta.
  rewrite (replace_first_absent title_pattern _ readme) by (apply Hn; simpl; tauto).
  rewrite (remove_section_absent "## 🚀 Quick Start" _ readme)
    by (apply Hn; simpl; tauto).
  rewrite (remove_section_absent "## 🤝 Contributing" _ readme)
    by (apply Hn; simpl; tauto).
  rewrite (remove_section_absent "## 📝 License" _ readme)
    by (apply Hn; simpl; tauto).
  rewrite (replace_all_absent "my-awesome-app/" _ readme) by (apply Hn; simpl; tauto).
  apply replace_first_absent. apply Hn. simpl. tauto.
Qed.

(** X7. [hasUncommittedChanges], in both revisions that have it, never
    throws and changes nothing on disk; it answers [true] exactly when the
    status command succeeded and printed some character that is not white
    space: blank output and a failing command (no git, no repository) both
    count as clean. *)
Theorem blank_status_is_clean (w : world) :
  (fst (CleanupTemplate.hasUncommittedChanges w) = Ret (pending w)
   /\ same_disk w (snd (CleanupTemplate.hasUncommittedChanges w)))
  /\ (fst (CleanupTemplatePlain.hasUncommittedChanges w) = Ret (pending w)
      /\ same_disk w (snd (CleanupTemplatePlain.hasUncommittedChanges w))).
Proof.
  unfold CleanupTemplate.hasUncommittedChanges, CleanupTemplatePlain.hasUncommittedChanges,
    pending, try_catch, bind, execSync_git_status, same_disk.
  destruct (git_status w) as [out|]; simpl; [|auto].
  rewrite trim_empty. destruct (all_of white out); simpl; auto.
Qed.

End ReadmeFacts.

Section ReadmeRuns.
Import JsString Runtime CleanupTemplateSelfDelete.
#[local] Existing Instance RefCasing.casing.

Lemma env_value_clean_witness :
  env_value "PROJECT_NAME=" env_text "My App" <> EmptyString
  /\ env_value "APPLICATION_NAME=" env_text "My App" <> EmptyString.
Proof.
  split.
  - apply (proj2 (env_value_clean "PROJECT_NAME=" env_text "My App")). discriminate.
  - apply (proj2 (env_value_clean "APPLICATION_NAME=" env_text "My App")). discriminate.
Defined.

Lemma rewrite_readme_own_text_witness :
  rewrite_readme "Shop" "shop" own_readme_text = own_readme_text.
Proof.
  apply rewrite_readme_own_text. intros pat Hin. simpl in Hin.
  repeat (destruct Hin as [<-|Hin]; [vm_compute; reflexivity|]). destruct Hin.
Defined.

End ReadmeRuns.

(** ** What the initializer leaves alone *)

Section InitializerFrame.
Import Runtime SetupEnv.

(** X8. A run of the initializer changes no permission and no file other
    than the environment file; that file is as it was, or it was absent and
    now holds the text of the example file. *)
Theorem initializer_touches_only_env (w : world) :
  outside [".env"] w (snd (run w))
  /\ (files (snd (run w)) !! ".env" = files w !! ".env"
      \/ (files w !! ".env" = None
          /\ files (snd (run w)) !! ".env" = files w !! ".env.example")).
Proof.
  split.
  - split; [apply run_locked|]. intros p Hp.
    destruct (run_cases w) as [H|[H|[H|H]]].
    + destruct H as (_ & _ & Hf). rewrite Hf. reflexivity.
    + destruct H as (_ & _ & _ & Hf). rewrite Hf. reflexivity.
    + destruct H as (_ & _ & _ & _ & Hf). rewrite Hf. reflexivity.
    + destruct H as (_ & _ & (text & _ & Hf) & _). rewrite Hf.
      apply lookup_insert_ne. intros <-. apply Hp. left. reflexivity.
  - destruct (run_cases w) as [H|[H|[H|H]]].
    + destruct H as (_ & _ & Hf). rewrite Hf. auto.
    + destruct H as (_ & _ & _ & Hf). rewrite Hf. auto.
    + destruct H as (_ & _ & _ & _ & Hf). rewrite Hf. auto.
    + destruct H as (Hn & _ & (text & Hx & Hf) & _). right. split; [exact Hn|].
      unfold envPath, envExamplePath in *. rewrite Hf, Hx. apply lookup_insert_eq.
Qed.

End InitializerFrame.

(** ** Frames on the disk *)

Section DiskFacts.
Import JsString Json Runtime.

Lemma outside_refl ps w : outside ps w w.
Proof. split; auto. Qed.

Lemma outside_trans ps a b c : outside ps a b -> outside ps b c -> outside ps a c.
Proof.
  intros [L1 F1] [L2 F2]. split; [congruence|].
  intros p Hp. rewrite F2, F1 by exact Hp. reflexivity.
Qed.

Lemma console_log_outside ps line : keeps (outside ps) (console_log line).
Proof. intros w. split; auto. Qed.

Lemma console_error_outside ps line : keeps (outside ps) (console_error line).
Proof. intros w. split; auto. Qed.

Lemma readFile_outside ps path : keeps (outside ps) (readFile path).
Proof. intros w. unfold readFile. destruct (files w !! path); apply outside_refl. Qed.

Lemma execSync_outside ps : keeps (outside ps) execSync_git_status.
Proof. intros w. unfold execSync_git_status. destruct (git_status w); apply outside_refl. Qed.

Lemma setTimeout_outside ps t d : keeps (outside ps) (setTimeout t d).
Proof. intros w. split; auto. Qed.

Lemma writeFile_outside ps path text :
  In path ps -> keeps (outside ps) (writeFile path text).
Proof.
  intros Hin w. unfold writeFile. destruct (bool_decide (path ∈ locked w)); simpl.
  - apply outside_refl.
  - split; [reflexivity|]. intros p Hp. simpl. apply lookup_insert_ne.
    intros ->. exact (Hp Hin).
Qed.

Lemma unlink_outside ps path : In path ps -> keeps (outside ps) (unlink path).
Proof.
  intros Hin w. unfold unlink. destruct (files w !! path); [|apply outside_refl].
  destruct (bool_decide (path ∈ locked w)); simpl; [apply outside_refl|].
  split; [reflexivity|]. intros p Hp. simpl. apply lookup_delete_ne.
  intros ->. exact (Hp Hin).
Qed.

End DiskFacts.

(** ** Runs of the revisions that write the manifest only *)

Ltac frame_step :=
  lazymatch goal with
  | |- forall _, _ => intro
  | |- keeps (outside ?ps) (Eff.bind _ _) => apply (keeps_bind _ (outside_trans ps))
  | |- keeps (outside ?ps) (Eff.try_catch _ _) =>
      apply (keeps_try_catch _ (outside_trans ps))
  | |- keeps (outside ?ps) (Eff.when _ _) => apply (keeps_when _ (outside_refl ps))
  | |- keeps (outside ?ps) (Eff.ret _) => apply (keeps_ret _ (outside_refl ps))
  | |- keeps (outside ?ps) (Eff.type_error _) =>
      apply (keeps_type_error _ (outside_refl ps))
  | |- keeps (outside ?ps) (Eff.throw _) => apply (keeps_throw _ (outside_refl ps))
  | |- keeps (outside ?ps) (Runtime.parse_json _) => unfold Runtime.parse_json
  | |- keeps (outside _) (Runtime.console_log _) => apply console_log_outside
  | |- keeps (outside _) (Runtime.console_error _) => apply console_error_outside
  | |- keeps (outside _) (Runtime.readFile _) => apply readFile_outside
  | |- keeps (outside _) Runtime.execSync_git_status => apply execSync_outside
  | |- keeps (outside _) (Runtime.setTimeout _ _) => apply setTimeout_outside
  | |- keeps (outside _) (Runtime.writeFile _ _) =>
      apply writeFile_outside; simpl; tauto
  | |- keeps (outside _) (Runtime.unlink _) => apply unlink_outside; simpl; tauto
  | |- keeps _ (match ?x with _ => _ end) => destruct x
  end.

Ltac frame_auto := repeat frame_step.

Section OrchestratorMore.
Import JsString Json Runtime.
Context `{Codec}.
Context {casing : JsString.Casing}.

Lemma guarded_main_outside :
  keeps (outside ["package.json"]) CleanupTemplate.main.
Proof.
  unfold CleanupTemplate.main, CleanupTemplate.hasUncommittedChanges,
    CleanupTemplate.cleanupTemplateCommands, CleanupTemplate.updatePackageInfo.
  frame_auto.
Qed.

Lemma marker_outside :
  keeps (outside ["package.json"]) CleanupTemplateMarker.cleanupTemplate.
Proof. unfold CleanupTemplateMarker.cleanupTemplate. frame_auto. Qed.

Lemma marker_total : total CleanupTemplateMarker.cleanupTemplate.
Proof. unfold CleanupTemplateMarker.cleanupTemplate. script_auto. Qed.

Lemma marker_quiet : keeps quiet CleanupTemplateMarker.cleanupTemplate.
Proof. unfold CleanupTemplateMarker.cleanupTemplate. script_auto. Qed.

Lemma run_task_total t : total (run_task t).
Proof. destruct t. unfold run_task. script_auto. Qed.

Lemma run_tasks_total ts : total (run_tasks ts).
Proof.
  induction ts as [|t r IH]; simpl; [apply total_ret|].
  apply total_bind; [apply run_task_total|]. intros _. exact IH.
Qed.

(** A script that returns: the run ends with status 0, after the event loop
    has run the timers the script left. *)
Lemma run_process_total (m : M unit) (w : world) :
  total m ->
  fst (run_process m w) = 0
  /\ snd (run_process m w)
     = snd (event_loop (snd (m (with_timers [] w)))).
Proof.
  intros Ht. unfold run_process, bind. destruct (Ht (with_timers [] w)) as [[] Ha].
  destruct (m (with_timers [] w)) as [o w1]. simpl in *. subst o.
  unfold event_loop.
  destruct (run_tasks_total (timers w1) (with_timers [] w1)) as [[] Hb].
  destruct (run_tasks (timers w1) (with_timers [] w1)) as [o w2]. simpl in *. subst o.
  auto.
Qed.

Lemma event_loop_idle (w : world) :
  timers w = [] -> same_disk w (snd (event_loop w)).
Proof. intros Ht. unfold event_loop. rewrite Ht. simpl. split; reflexivity. Qed.

(** What is on disk once the deferred deletion of [path] has run. *)
Lemma event_loop_unlinks (w : world) (path : string) :
  timers w = [UnlinkLater path] ->
  locked (snd (event_loop w)) = locked w
  /\ files (snd (event_loop w))
     = if bool_decide (path ∈ locked w) then files w else delete path (files w).
Proof.
  intros Ht. unfold event_loop. rewrite Ht. simpl.
  unfold bind, try_catch, unlink, console_log. simpl.
  destruct (files w !! path) as [text|] eqn:E; simpl.
  - destruct (bool_decide (path ∈ locked w)); simpl; auto.
  - split; [reflexivity|]. destruct (bool_decide (path ∈ locked w)); [reflexivity|].
    symmetry. apply delete_id. exact E.
Qed.

Lemma guarded_main_quiet : keeps quiet CleanupTemplate.main.
Proof.
  unfold CleanupTemplate.main, CleanupTemplate.hasUncommittedChanges,
    CleanupTemplate.cleanupTemplateCommands, CleanupTemplate.updatePackageInfo.
  script_auto.
Qed.

Lemma plain_main_outside :
  keeps (outside ["package.json"]) CleanupTemplatePlain.main.
Proof.
  unfold CleanupTemplatePlain.main, CleanupTemplatePlain.hasUncommittedChanges,
    CleanupTemplatePlain.cleanupTemplateCommands, CleanupTemplatePlain.updatePackageInfo,
    CleanupTemplate.updatePackageInfo.
  frame_auto.
Qed.

Lemma plain_main_total : total CleanupTemplatePlain.main.
Proof.
  unfold CleanupTemplatePlain.main, CleanupTemplatePlain.hasUncommittedChanges,
    CleanupTemplatePlain.cleanupTemplateCommands, CleanupTemplatePlain.updatePackageInfo,
    CleanupTemplate.updatePackageInfo.
  script_auto.
Qed.

Lemma plain_main_quiet : keeps quiet CleanupTemplatePlain.main.
Proof.
  unfold CleanupTemplatePlain.main, CleanupTemplatePlain.hasUncommittedChanges,
    CleanupTemplatePlain.cleanupTemplateCommands, CleanupTemplatePlain.updatePackageInfo,
    CleanupTemplate.updatePackageInfo.
  script_auto.
Qed.

(** A script that returns, sets no timer and keeps to [paths]: so does its
    run, which ends with status 0. *)
Lemma run_process_outside (m : M unit) (paths : list string) (w : world) :
  total m -> keeps quiet m -> keeps (outside paths) m ->
  fst (run_process m w) = 0 /\ outside paths w (snd (run_process m w)).
Proof.
  intros Ht Hq Ho. destruct (run_process_total m w Ht) as [H0 Hs].
  rewrite Hs. split; [exact H0|].
  pose proof (Ho (with_timers [] w)) as [L F].
  pose proof (proj1 (Hq (with_timers [] w))) as Hti. simpl in Hti.
  destruct (event_loop_idle _ Hti) as [Hf Hl].
  split; [rewrite Hl; exact L|]. intros p Hp. rewrite Hf. apply F. exact Hp.
Qed.

(** X9. Whatever the working tree, a run of the guarded revision, of the
    marker revision and of the revision that renames nothing ends with
    status 0, changes no permission and leaves every file other than the
    manifest as it was. *)
Theorem orchestrator_touches_only_the_manifest (w : world) :
  (fst (CleanupTemplate.run w) = 0
   /\ outside ["package.json"] w (snd (CleanupTemplate.run w)))
  /\ (fst (CleanupTemplateMarker.run w) = 0
      /\ outside ["package.json"] w (snd (CleanupTemplateMarker.run w)))
  /\ (fst (CleanupTemplatePlain.run w) = 0
      /\ outside ["package.json"] w (snd (CleanupTemplatePlain.run w))).
Proof.
  split; [|split].
  - apply run_process_outside;
      [apply main_total|apply guarded_main_quiet|apply guarded_main_outside].
  - apply run_process_outside; [apply marker_total|apply marker_quiet|apply marker_outside].
  - apply run_process_outside;
      [apply plain_main_total|apply plain_main_quiet|apply plain_main_outside].
Qed.

End OrchestratorMore.

(** ** The disk after the self-deleting revision *)

Section SelfDeleteDisk.
Import JsString Json Runtime CleanupTemplateSelfDelete.
Context `{Codec}.
Context {casing : JsString.Casing}.

(** [updatePackageInfo] looks at the disk only. *)
Lemma updatePackageInfo_disk (w1 w2 : world) :
  files w1 = files w2 -> locked w1 = locked w2 ->
  files (snd (CleanupTemplate.updatePackageInfo w1))
  = files (snd (CleanupTemplate.updatePackageInfo w2)).
Proof.
  intros Hf Hl.
  unfold CleanupTemplate.updatePackageInfo, try_catch, bind, readFile, parse_json,
    writeFile, console_log, console_error, type_error.
  rewrite Hf.
  destruct (files w2 !! CleanupTemplate.envPath) as [env|]; simpl; [|exact Hf].
  destruct (match_line CleanupTemplate.project_name_key true env) as [capture|];
    simpl; [|exact Hf].
  rewrite Hf.
  destruct (files w2 !! CleanupTemplate.packageJsonPath) as [text|]; simpl; [|exact Hf].
  destruct (JSON_parse text) as [pj|]; simpl; [|exact Hf].
  destruct (CleanupTemplate.rebrand pj _) as [pj'|]; simpl; [|exact Hf].
  rewrite Hl.
  destruct (bool_decide (CleanupTemplate.packageJsonPath ∈ locked w2)); simpl;
    [exact Hf|]. rewrite Hf. reflexivity.
Qed.

Lemma template_seen_timers (t : list task) (w : world) :
  template_seen (with_timers t w) = template_seen w.
Proof.
  unfold template_seen. apply manifest_is_template_files.
  apply updatePackageInfo_disk; reflexivity.
Qed.

Lemma cleanupLicense_disk (w : world) :
  locked (snd (cleanupLicense w)) = locked w
  /\ timers (snd (cleanupLicense w)) = timers w
  /\ files (snd (cleanupLicense w))
     = if bool_decide (licensePath ∈ locked w) then files w
       else delete licensePath (files w).
Proof.
  unfold cleanupLicense, try_catch, bind, unlink, console_log.
  destruct (files w !! licensePath) as [text|] eqn:E; simpl.
  - destruct (bool_decide (licensePath ∈ locked w)); simpl; auto.
  - split; [reflexivity|]. split; [reflexivity|].
    destruct (bool_decide (licensePath ∈ locked w)); [reflexivity|].
    symmetry. apply delete_id. exact E.
Qed.

Lemma updatePackageInfo_outside ps :
  In "package.json" ps -> keeps (outside ps) CleanupTemplate.updatePackageInfo.
Proof.
  intros Hin. unfold CleanupTemplate.updatePackageInfo.
  repeat first [ apply writeFile_outside; exact Hin | frame_step ].
Qed.

Lemma isTemplateRepo_outside ps : keeps (outside ps) isTemplateRepo.
Proof. unfold isTemplateRepo. frame_auto. Qed.

Lemma sd_cleanupTemplateCommands_outside ps :
  In "package.json" ps -> keeps (outside ps) cleanupTemplateCommands.
Proof.
  intros Hin. unfold cleanupTemplateCommands.
  repeat first [ apply writeFile_outside; exact Hin | frame_step ].
Qed.

Lemma cleanupReadme_outside ps :
  In "README.md" ps -> keeps (outside ps) cleanupReadme.
Proof.
  intros Hin. unfold cleanupReadme.
  repeat first [ apply writeFile_outside; exact Hin | frame_step ].
Qed.

(** The steps of [main], one world after the other. *)
Lemma main_steps (w : world) :
  main w
  = (Ret tt,
     let w2 := snd (isTemplateRepo (snd (updatePackageInfo w))) in
     if template_seen w then w2
     else
       let w5 := snd (cleanupLicense (snd (cleanupReadme
                        (snd (cleanupTemplateCommands w2))))) in
       emit (Log ready_line)
         (emit (Scheduled (UnlinkLater scriptPath) 100)
            (with_timers (timers w5 ++ [UnlinkLater scriptPath]) w5))).
Proof.
  unfold template_seen, main, updatePackageInfo.
  destruct (bind_total CleanupTemplate.updatePackageInfo
              (fun _ => isTemplate <- isTemplateRepo ;;
                 when (negb isTemplate)
                   (cleanupTemplateCommands ;;; cleanupReadme ;;; cleanupLicense ;;;
                    selfDelete ;;; console_log ready_line)) w
              updatePackageInfo_total) as [[] E1].
  unfold ready_line in E1 at 1. rewrite E1. clear E1.
  set (w1 := snd (CleanupTemplate.updatePackageInfo w)).
  destruct (isTemplateRepo_spec w1) as (w2 & E2 & _ & _).
  unfold bind at 1. rewrite E2. cbn [snd].
  destruct (manifest_is_template w1); unfold when; cbn [negb]; [reflexivity|].
  destruct (bind_total cleanupTemplateCommands
              (fun _ => cleanupReadme ;;; cleanupLicense ;;; selfDelete ;;;
                        console_log ready_line) w2
              sd_cleanupTemplateCommands_total) as [[] E3].
  rewrite E3. clear E3.
  set (w3 := snd (cleanupTemplateCommands w2)).
  destruct (bind_total cleanupReadme
              (fun _ => cleanupLicense ;;; selfDelete ;;; console_log ready_line) w3
              cleanupReadme_total) as [[] E4].
  rewrite E4. clear E4.
  set (w4 := snd (cleanupReadme w3)).
  destruct (bind_total cleanupLicense
              (fun _ => selfDelete ;;; console_log ready_line) w4
              cleanupLicense_total) as [[] E5].
  rewrite E5. reflexivity.
Qed.

Lemma sd_main_total : total main.
Proof. intros w. exists tt. rewrite main_steps. reflexivity. Qed.

(** The world before the license step, in a run that is not in template
    mode, and the world after the marker test. *)
Lemma sd_prefix (w : world) :
  let w2 := snd (isTemplateRepo (snd (updatePackageInfo w))) in
  let w4 := snd (cleanupReadme (snd (cleanupTemplateCommands w2))) in
  (outside ["package.json"; "README.md"] w w2 /\ timers w2 = timers w)
  /\ (outside ["package.json"; "README.md"] w w4 /\ timers w4 = timers w).
Proof.
  intros w2 w4.
  pose proof (updatePackageInfo_quiet w) as [T1 _].
  destruct (isTemplateRepo_spec (snd (updatePackageInfo w))) as (w2' & E2 & [T2 _] & F2).
  assert (Ew2 : w2 = w2') by (unfold w2; rewrite E2; reflexivity).
  pose proof (sd_cleanupTemplateCommands_quiet w2) as [T3 _].
  pose proof (cleanupReadme_quiet (snd (cleanupTemplateCommands w2))) as [T4 _].
  assert (O2 : outside ["package.json"; "README.md"] w w2).
  { apply outside_trans with (snd (updatePackageInfo w)).
    - apply updatePackageInfo_outside. simpl. tauto.
    - apply isTemplateRepo_outside. }
  assert (Ti2 : timers w2 = timers w).
  { rewrite Ew2, T2. exact T1. }
  split; [split; assumption|]. split.
  - apply outside_trans with w2; [exact O2|].
    apply outside_trans with (snd (cleanupTemplateCommands w2)).
    + apply sd_cleanupTemplateCommands_outside. simpl. tauto.
    + apply cleanupReadme_outside. simpl. tauto.
  - unfold w4. rewrite T4, T3. exact Ti2.
Qed.

(** X10. A run of the self-deleting revision ends with status 0 and changes
    no permission and no file other than the manifest, the README, the
    license and the script itself.  In template mode, or when the path is
    write-protected, the license and the script are what they were;
    otherwise both are gone once the event loop has run the timer. *)
Theorem self_delete_run_disk (w : world) :
  fst (run w) = 0
  /\ outside ["package.json"; "README.md"; "LICENSE";
              "deployment/scripts/cleanup-template.ts"] w (snd (run w))
  /\ files (snd (run w)) !! licensePath
     = (if template_seen w || bool_decide (licensePath ∈ locked w)
        then files w !! licensePath else None)
  /\ files (snd (run w)) !! scriptPath
     = (if template_seen w || bool_decide (scriptPath ∈ locked w)
        then files w !! scriptPath else None).
Proof.
  destruct (run_process_total main w sd_main_total) as [H0 Hs].
  unfold run. rewrite Hs. clear Hs. split; [exact H0|]. clear H0.
  rewrite <- (template_seen_timers [] w).
  set (w0 := with_timers [] w).
  destruct (sd_prefix w0) as [[[L2 F2] T2] [[L4 F4] T4]].
  rewrite main_steps. cbn [snd]. unfold outside.
  set (w2 := snd (isTemplateRepo (snd (updatePackageInfo w0)))) in *.
  set (w4 := snd (cleanupReadme (snd (cleanupTemplateCommands w2)))) in *.
  destruct (template_seen w0); cbn [orb].
  - destruct (event_loop_idle w2 T2) as [Hf Hl]. rewrite Hf.
    split; [|split].
    + split; [rewrite Hl; exact L2|]. intros p Hp. apply F2.
      intros Hin. apply Hp. simpl in Hin |- *. tauto.
    + apply F2. simpl. intros [E|[E|[]]]; discriminate E.
    + apply F2. simpl. intros [E|[E|[]]]; discriminate E.
  - destruct (cleanupLicense_disk w4) as (L5 & T5 & F5).
    set (w5 := snd (cleanupLicense w4)) in *.
    set (wf := emit (Log ready_line)
                 (emit (Scheduled (UnlinkLater scriptPath) 100)
                    (with_timers (timers w5 ++ [UnlinkLater scriptPath]) w5))).
    assert (Tf : timers wf = [UnlinkLater scriptPath]).
    { unfold wf, emit, with_timers. cbn [timers]. rewrite T5, T4. reflexivity. }
    destruct (event_loop_unlinks wf scriptPath Tf) as [Ll Fl].
    rewrite Fl. change (locked wf) with (locked w5). change (files wf) with (files w5).
    rewrite L5, L4. change (locked w0) with (locked w). rewrite F5, L4.
    change (locked w0) with (locked w).
    assert (Hlic : files w4 !! licensePath = files w !! licensePath).
    { apply F4. simpl. intros [E|[E|[]]]; discriminate E. }
    assert (Hscr : files w4 !! scriptPath = files w !! scriptPath).
    { apply F4. simpl. intros [E|[E|[]]]; discriminate E. }
    split; [|split].
    + split.
      * rewrite Ll. change (locked wf) with (locked w5). rewrite L5. exact L4.
      * intros p Hp.
        assert (Hps : p <> scriptPath) by (intros ->; apply Hp; simpl; tauto).
        assert (Hpl : p <> licensePath) by (intros ->; apply Hp; simpl; tauto).
        assert (Hp4 : files w4 !! p = files w !! p).
        { apply F4. intros Hin. apply Hp. simpl in Hin |- *. tauto. }
        destruct (bool_decide (scriptPath ∈ locked w));
          destruct (bool_decide (licensePath ∈ locked w));
          rewrite ?lookup_delete_ne by congruence; exact Hp4.
    + destruct (bool_decide (scriptPath ∈ locked w));
        destruct (bool_decide (licensePath ∈ locked w));
        rewrite ?(lookup_delete_ne _ scriptPath licensePath) by discriminate;
        rewrite ?lookup_delete_eq; auto.
    + destruct (bool_decide (scriptPath ∈ locked w));
        destruct (bool_decide (licensePath ∈ locked w));
        rewrite ?lookup_delete_eq; auto;
        rewrite ?(lookup_delete_ne _ licensePath scriptPath) by discriminate; auto.
Qed.

End SelfDeleteDisk.

(** ** A manifest that cannot be used *)

Section UnusableManifest.
Import JsString Json Runtime.
Context `{Codec}.
Context {casing : JsString.Casing}.

Lemma needs_manifest_refl w : needs_manifest w w.
Proof. intros _. split; reflexivity. Qed.

Lemma needs_manifest_trans a b c :
  needs_manifest a b -> needs_manifest b c -> needs_manifest a c.
Proof.
  intros Hab Hbc Hn. destruct (Hab Hn) as [F1 L1].
  assert (Hnb : ~ manifest_usable b).
  { intros (text & pj & Hf & Hp & Hl). apply Hn. exists text, pj.
    rewrite <- F1, <- L1. auto. }
  destruct (Hbc Hnb) as [F2 L2]. split; congruence.
Qed.

Lemma needs_of {A} (m : M A) :
  keeps (outside ["package.json"]) m ->
  (forall w, ~ manifest_usable w -> files (snd (m w)) = files w) ->
  keeps needs_manifest m.
Proof. intros Ho Hf w Hn. split; [apply Hf; exact Hn|apply Ho]. Qed.

End UnusableManifest.

(** The innermost scrutinee of a nest of case analyses. *)
Ltac innermost x :=
  lazymatch x with
  | context [match ?y with _ => _ end] => innermost y
  | _ => x
  end.

(** A script is followed branch by branch; where it wrote the manifest, the
    manifest was usable. *)
Ltac follow_branches Hn :=
  repeat (cbn -[Json.fold_opt CleanupTemplate.commandsToRemove
                CleanupTemplate.renames CleanupTemplateMarker.commandsToRemove
                CleanupTemplatePlain.commandsToRemove NameDerivation.npmName
                JsString.match_line JsString.trim String.append];
          lazymatch goal with
          | |- context [match ?x with _ => _ end] =>
              let y := innermost x in destruct y eqn:?
          end);
  cbn -[String.append];
  first [ reflexivity
        | exfalso; apply Hn; eexists _, _;
          split; [eassumption|split; [eassumption|]];
          eapply bool_decide_eq_false_1; eassumption ].

Section UnusableManifestFacts.
Import JsString Json Runtime.
Context `{Codec}.
Context {casing : JsString.Casing}.

Lemma guarded_cleanup_needs : keeps needs_manifest CleanupTemplate.cleanupTemplateCommands.
Proof.
  apply needs_of.
  - unfold CleanupTemplate.cleanupTemplateCommands. frame_auto.
  - intros w Hn.
    unfold CleanupTemplate.cleanupTemplateCommands, CleanupTemplate.packageJsonPath,
      try_catch, bind, readFile, parse_json, writeFile, console_log, console_error,
      type_error, ret, throw in *.
    follow_branches Hn.
Qed.

Lemma updatePackageInfo_needs : keeps needs_manifest CleanupTemplate.updatePackageInfo.
Proof.
  apply needs_of.
  - unfold CleanupTemplate.updatePackageInfo. frame_auto.
  - intros w Hn.
    unfold CleanupTemplate.updatePackageInfo, CleanupTemplate.packageJsonPath,
      try_catch, bind, readFile, parse_json, writeFile, console_log, console_error,
      type_error, ret, throw in *.
    follow_branches Hn.
Qed.

Lemma marker_needs : keeps needs_manifest CleanupTemplateMarker.cleanupTemplate.
Proof.
  apply needs_of; [apply marker_outside|].
  intros w Hn.
  unfold CleanupTemplateMarker.cleanupTemplate, CleanupTemplateMarker.packageJsonPath,
    try_catch, bind, readFile, parse_json, writeFile, console_log, console_error,
    type_error, ret, throw in *.
  follow_branches Hn.
Qed.

Lemma plain_cleanup_needs :
  keeps needs_manifest CleanupTemplatePlain.cleanupTemplateCommands.
Proof.
  apply needs_of.
  - unfold CleanupTemplatePlain.cleanupTemplateCommands. frame_auto.
  - intros w Hn.
    unfold CleanupTemplatePlain.cleanupTemplateCommands,
      CleanupTemplatePlain.packageJsonPath,
      try_catch, bind, readFile, parse_json, writeFile, console_log, console_error,
      type_error, ret, throw in *.
    follow_branches Hn.
Qed.

Lemma same_disk_needs {A} (m : M A) :
  (forall w, same_disk w (snd (m w))) -> keeps needs_manifest m.
Proof. intros Hs w _. apply Hs. Qed.

Lemma guarded_hasUncommittedChanges_disk (w : world) :
  same_disk w (snd (CleanupTemplate.hasUncommittedChanges w)).
Proof.
  unfold CleanupTemplate.hasUncommittedChanges, try_catch, bind, execSync_git_status.
  destruct (git_status w) as [out|]; simpl; [|split; reflexivity].
  destruct (String.eqb (trim out) EmptyString); simpl; split; reflexivity.
Qed.

Lemma plain_hasUncommittedChanges_disk (w : world) :
  same_disk w (snd (CleanupTemplatePlain.hasUncommittedChanges w)).
Proof.
  unfold CleanupTemplatePlain.hasUncommittedChanges, try_catch, bind,
    execSync_git_status.
  destruct (git_status w) as [out|]; simpl; [|split; reflexivity].
  destruct (String.eqb (trim out) EmptyString); simpl; split; reflexivity.
Qed.

Lemma guarded_main_needs : keeps needs_manifest CleanupTemplate.main.
Proof.
  unfold CleanupTemplate.main.
  apply (keeps_bind _ needs_manifest_trans);
    [apply same_disk_needs, guarded_hasUncommittedChanges_disk|intros b].
  apply (keeps_bind _ needs_manifest_trans);
    [apply (keeps_when _ needs_manifest_refl), guarded_cleanup_needs|intros _].
  apply (keeps_bind _ needs_manifest_trans); [apply updatePackageInfo_needs|intros _].
  apply (keeps_when _ needs_manifest_refl). apply same_disk_needs.
  intros w. split; reflexivity.
Qed.

Lemma plain_main_needs : keeps needs_manifest CleanupTemplatePlain.main.
Proof.
  unfold CleanupTemplatePlain.main.
  apply (keeps_bind _ needs_manifest_trans);
    [apply same_disk_needs, plain_hasUncommittedChanges_disk|intros b].
  apply (keeps_bind _ needs_manifest_trans);
    [apply (keeps_when _ needs_manifest_refl), plain_cleanup_needs|intros _].
  apply (keeps_bind _ needs_manifest_trans); [apply updatePackageInfo_needs|intros _].
  apply (keeps_when _ needs_manifest_refl). apply same_disk_needs.
  intros w. split; reflexivity.
Qed.

(** A script that returns, sets no timer and needs the manifest. *)
Lemma run_process_needs (m : M unit) (w : world) :
  total m -> keeps quiet m -> keeps needs_manifest m ->
  ~ manifest_usable w -> same_disk w (snd (run_process m w)).
Proof.
  intros Ht Hq Hk Hn. destruct (run_process_total m w Ht) as [_ Hs]. rewrite Hs.
  pose proof (proj1 (Hq (with_timers [] w))) as Hti. simpl in Hti.
  destruct (event_loop_idle _ Hti) as [Hf Hl].
  destruct (Hk (with_timers [] w) Hn) as [F L].
  split; [rewrite Hf; exact F|rewrite Hl; exact L].
Qed.

(** X11. When the manifest is missing, does not parse or cannot be written,
    a run of the guarded revision, of the marker revision and of the
    revision that renames nothing changes no file and no permission. *)
Theorem unusable_manifest_changes_nothing (w : world) :
  ~ manifest_usable w ->
  same_disk w (snd (CleanupTemplate.run w))
  /\ same_disk w (snd (CleanupTemplateMarker.run w))
  /\ same_disk w (snd (CleanupTemplatePlain.run w)).
Proof.
  intros Hn. split; [|split].
  - apply run_process_needs;
      [apply main_total|apply guarded_main_quiet|apply guarded_main_needs|exact Hn].
  - apply run_process_needs;
      [apply marker_total|apply marker_quiet|apply marker_needs|exact Hn].
  - apply run_process_needs;
      [apply plain_main_total|apply plain_main_quiet|apply plain_main_needs|exact Hn].
Qed.

End UnusableManifestFacts.

Section UnusableRuns.
Import JsString Json Runtime.
#[local] Abbreviation codec := RefCodec.codec.
#[local] Existing Instance RefCasing.casing.

Lemma unusable_manifest_witness :
  ~ manifest_usable (H := codec) configured_tree
  /\ same_disk configured_tree (snd (CleanupTemplate.run (H := codec) configured_tree)).
Proof.
  assert (Hn : ~ manifest_usable (H := codec) configured_tree).
  { intros (text & pj & Hf & _). vm_compute in Hf. discriminate. }
  split; [exact Hn|].
  exact (proj1 (unusable_manifest_changes_nothing (H := codec) configured_tree Hn)).
Defined.

End UnusableRuns.

(** ** Assignments that change nothing *)

Section ObjectFacts.
Import Json.

Lemma obj_set_same k v m : obj_get k m = Some v -> obj_set k v m = m.
Proof.
  induction m as [|[k' v'] r IH]; simpl; [discriminate|].
  destruct (String.eqb k k'); [intros E; inversion E; reflexivity|].
  intros E. rewrite IH by exact E. reflexivity.
Qed.

Lemma obj_delete_absent k m : obj_get k m = None -> obj_delete k m = m.
Proof.
  induction m as [|[k' v'] r IH]; simpl; [reflexivity|].
  destruct (String.eqb k k'); [discriminate|].
  intros E. rewrite IH by exact E. reflexivity.
Qed.

Lemma obj_set_absent k v m : obj_get k m = None -> obj_set k v m = m ++ [(k, v)].
Proof.
  induction m as [|[k' v'] r IH]; simpl; [reflexivity|].
  destruct (String.eqb k k'); [discriminate|].
  intros E. rewrite IH by exact E. reflexivity.
Qed.

End ObjectFacts.

(** ** The naming step twice, and the marker test after it *)

Section NamingTwice.
Import JsString Json Runtime CleanupTemplate.
Context `{Codec}.
Context {casing : JsString.Casing}.

Lemma rebrand_idempotent pj name pj' :
  rebrand pj name = Some pj' -> rebrand pj' name = Some pj'.
Proof.
  destruct pj as [| | | |l|m]; simpl; try discriminate.
  - intros E. inversion E. reflexivity.
  - intros E. destruct (rebrand_object m name) as (m' & Hm & P1 & P2 & P3).
    rewrite Hm in E. inversion E. subst pj'. unfold rebrand. simpl.
    rewrite (obj_set_same _ _ _ P1), (obj_delete_absent _ _ P3),
      (obj_set_same _ _ _ P2). reflexivity.
Qed.

Lemma updatePackageInfo_writes (w : world) :
  files (snd (updatePackageInfo w)) = files w
  \/ exists pj',
       renamed_manifest w = Some pj'
       /\ files (snd (updatePackageInfo w))
          = <[packageJsonPath := JSON_stringify pj' +:+ nl]> (files w).
Proof.
  destruct (updatePackageInfo_files w)
    as [E|(name & text & pj & pj' & Hn & Hf & Hp & Hr & Hw)]; [left; exact E|].
  right. exists pj'. split; [|exact Hw].
  unfold renamed_manifest. rewrite Hn, Hf, Hp. exact Hr.
Qed.

Lemma project_name_after (w : world) :
  project_name (snd (updatePackageInfo w)) = project_name w.
Proof.
  unfold project_name.
  destruct (updatePackageInfo_outside ["package.json"] ltac:(simpl; tauto) w) as [_ F].
  rewrite F; [reflexivity|]. simpl. intros [E|[]]. discriminate E.
Qed.

(** X12. Running [updatePackageInfo] a second time leaves the files as the
    first run left them, provided the codec reads back the manifest that the
    first run writes. *)
Theorem updatePackageInfo_idempotent (w : world) :
  (forall pj', renamed_manifest w = Some pj' -> reads_back pj') ->
  files (snd (updatePackageInfo (snd (updatePackageInfo w))))
  = files (snd (updatePackageInfo w)).
Proof.
  intros Hback.
  destruct (updatePackageInfo_outside ["package.json"] ltac:(simpl; tauto) w) as [L _].
  destruct (updatePackageInfo_writes w) as [E|(pj' & Hr & Hw)].
  - rewrite (updatePackageInfo_disk _ w E L). reflexivity.
  - pose proof (Hback pj' Hr) as Hb. unfold reads_back in Hb.
    set (w1 := snd (updatePackageInfo w)) in *.
    destruct (updatePackageInfo_writes w1) as [E|(pj2 & Hr2 & Hw2)]; [exact E|].
    rewrite Hw2. unfold renamed_manifest in Hr, Hr2.
    unfold w1 in Hr2 at 1. rewrite project_name_after in Hr2.
    destruct (project_name w) as [name|]; [|discriminate].
    rewrite Hw, lookup_insert_eq, Hb in Hr2.
    destruct (files w !! packageJsonPath) as [text|]; [|discriminate].
    destruct (JSON_parse text) as [pj|]; [|discriminate].
    rewrite (rebrand_idempotent _ _ _ Hr) in Hr2. inversion Hr2. subst pj2.
    rewrite Hw. apply insert_insert_eq.
Qed.

(** X13. In the self-deleting revision the marker test is decided by the
    environment file: when the file names a project, the manifest is an
    object that can be written and the codec reads back what is written,
    the test sees the template exactly when the name derived from the
    project name is [nuxtship], whatever name the manifest had. *)
Theorem template_guard_follows_env (w : world) (name : string) :
  project_name w = Some name ->
  (exists m, renamed_manifest w = Some (JObj m)) ->
  packageJsonPath ∉ locked w ->
  (forall pj', renamed_manifest w = Some pj' -> reads_back pj') ->
  template_seen w = String.eqb (NameDerivation.npmName name) "nuxtship".
Proof.
  intros Hname [m' Hm] Hfree Hback.
  pose proof (Hback _ Hm) as Hb. unfold reads_back in Hb.
  assert (Hw : files (snd (updatePackageInfo w))
               = <[packageJsonPath := JSON_stringify (JObj m') +:+ nl]> (files w)).
  { unfold renamed_manifest in Hm. rewrite Hname in Hm.
    unfold updatePackageInfo, project_name, try_catch, bind, readFile, parse_json,
      writeFile, console_log, console_error, type_error in *.
    destruct (files w !! envPath) as [env|]; [|discriminate]. simpl.
    destruct (match_line project_name_key true env) as [capture|]; [|discriminate].
    inversion Hname. subst name. simpl.
    destruct (files w !! packageJsonPath) as [text|]; [|discriminate]. simpl.
    destruct (JSON_parse text) as [pj|]; [|discriminate]. simpl.
    rewrite Hm. simpl. rewrite bool_decide_eq_false_2 by exact Hfree. reflexivity. }
  assert (Hn : obj_get "name" m' = Some (JStr (NameDerivation.npmName name))).
  { unfold renamed_manifest in Hm. rewrite Hname in Hm.
    destruct (files w !! packageJsonPath) as [text|]; [|discriminate].
    destruct (JSON_parse text) as [pj|]; [|discriminate].
    destruct pj as [| | | |l|m]; try (simpl in Hm; discriminate Hm).
    destruct (rebrand_object m (NameDerivation.npmName name)) as (m2 & Hm2 & P1 & _).
    rewrite Hm2 in Hm. inversion Hm. subst m2. exact P1. }
  unfold template_seen, CleanupTemplateSelfDelete.updatePackageInfo,
    manifest_is_template.
  fold packageJsonPath. rewrite Hw, lookup_insert_eq, Hb. simpl. rewrite Hn.
  reflexivity.
Qed.

End NamingTwice.

Section NamingTwiceRuns.
Import JsString Json Runtime CleanupTemplate.
#[local] Abbreviation codec := RefCodec.codec.
#[local] Existing Instance RefCasing.casing.

Lemma updatePackageInfo_idempotent_witness :
  files (snd (updatePackageInfo (H := codec)
                (snd (updatePackageInfo (H := codec) template_tree))))
  = files (snd (updatePackageInfo (H := codec) template_tree)).
Proof.
  apply (updatePackageInfo_idempotent (H := codec) template_tree).
  intros pj' E. vm_compute in E. inversion E. subst pj'. vm_compute. reflexivity.
Defined.

Lemma template_guard_follows_env_witness :
  manifest_is_template (H := codec) template_tree = true
  /\ template_seen (H := codec) template_tree = false.
Proof.
  split; [reflexivity|].
  rewrite (template_guard_follows_env (H := codec) template_tree "My Cool App!").
  - reflexivity.
  - reflexivity.
  - eexists. vm_compute. reflexivity.
  - simpl. apply not_elem_of_empty.
  - intros pj' E. vm_compute in E. inversion E. subst pj'. vm_compute. reflexivity.
Defined.

End NamingTwiceRuns.

(** ** The command loops twice *)

Section CleanupTwice.
Import Json Runtime CleanupTemplate.

Lemma remove_commands_settled cmds m n :
  (forall c, In c cmds -> truthy_opt (obj_get c m) = false) ->
  fold_opt remove_command cmds (JObj m, n) = Some (JObj m, n).
Proof.
  induction cmds as [|c r IH]; intros Hf; [reflexivity|].
  simpl. unfold remove_command at 1. simpl.
  rewrite (Hf c) by (left; reflexivity). apply IH.
  intros c' Hc. apply Hf. right. exact Hc.
Qed.

Lemma rename_commands_settled rs m :
  (forall o n, In (o, n) rs -> truthy_opt (obj_get o m) = false) ->
  fold_opt rename_command rs (JObj m) = Some (JObj m).
Proof.
  induction rs as [|[o n] r IH]; intros Hf; [reflexivity|].
  simpl. rewrite rename_command_object.
  rewrite rename_members_settled by (apply (Hf o n); left; reflexivity).
  apply IH. intros o' n' Hin. apply (Hf o' n'). right. exact Hin.
Qed.

Lemma rename_members_old_gone old new m :
  old <> new -> truthy_opt (obj_get old (rename_members old new m)) = false.
Proof.
  intros Hne. unfold rename_members.
  destruct (obj_get old m) as [x|] eqn:E; [|rewrite E; reflexivity].
  destruct (truthy x) eqn:T.
  - rewrite obj_get_delete_eq. reflexivity.
  - rewrite E. exact T.
Qed.

(** After the renaming loop no old name holds a command. *)
Lemma rename_commands_olds_gone rs :
  List.NoDup (rename_keys rs) ->
  forall m m',
    fold_opt rename_command rs (JObj m) = Some (JObj m') ->
    forall o n, In (o, n) rs -> truthy_opt (obj_get o m') = false.
Proof.
  induction rs as [|[o n] r IH]; intros Hnd m m' Hfold o' n' Hin; [destruct Hin|].
  simpl in Hnd. inversion Hnd as [|? ? Ho Hnd1]; subst.
  inversion Hnd1 as [|? ? Hn Hnd2]; subst.
  simpl in Hfold. rewrite rename_command_object in Hfold.
  destruct Hin as [E|Hin].
  - inversion E; subst o' n'.
    destruct (rename_commands_object r Hnd2 (rename_members o n m))
      as (m'' & Hf & Hframe & _).
    rewrite Hf in Hfold. inversion Hfold; subst m''.
    rewrite Hframe by (intros Hk; apply Ho; right; exact Hk).
    apply rename_members_old_gone. intros ->. apply Ho. left. reflexivity.
  - exact (IH Hnd2 _ _ Hfold o' n' Hin).
Qed.

Lemma or_empty_object_cases held :
  (exists m, or_empty_object held = JObj m)
  \/ (forall k, get_prop (or_empty_object held) k = Some None).
Proof.
  destruct held as [[| [|] |n|s|l|m]|]; simpl; eauto.
  - destruct (negb (n =? 0)); simpl; eauto.
  - destruct (negb (String.eqb s EmptyString)); simpl; eauto.
Qed.

Lemma remove_commands_inert cmds v n :
  (forall k, get_prop v k = Some None) ->
  fold_opt remove_command cmds (v, n) = Some (v, n).
Proof.
  intros Hg. induction cmds as [|c r IH]; [reflexivity|].
  simpl. unfold remove_command at 1. simpl. rewrite Hg. simpl. exact IH.
Qed.

Lemma rename_commands_inert rs v :
  (forall k, get_prop v k = Some None) ->
  fold_opt rename_command rs v = Some v.
Proof.
  intros Hg. induction rs as [|e r IH]; [reflexivity|].
  simpl. unfold rename_command at 1. rewrite Hg. exact IH.
Qed.

(** X14. The two loops of [cleanupTemplateCommands] never throw on the
    value [packageJson.scripts || {}], and running them again on their
    result changes nothing and counts no removal. *)
Theorem clean_scripts_idempotent (held : option json) :
  exists scripts n,
    clean_scripts (or_empty_object held) = Some (scripts, n)
    /\ clean_scripts scripts = Some (scripts, O).
Proof.
  destruct (or_empty_object_cases held) as [[m ->]|Hinert].
  - destruct (remove_commands_object commandsToRemove m O) as (m1 & n & Hrm & Hk1).
    destruct (rename_commands_object renames renames_keys_distinct m1)
      as (m' & Hrn & Hframe & _).
    exists (JObj m'), n. unfold clean_scripts.
    rewrite Hrm. cbn [fst snd]. rewrite Hrn. split; [reflexivity|].
    rewrite remove_commands_settled.
    + cbn [fst snd]. rewrite rename_commands_settled; [reflexivity|].
      intros o nn Hin.
      exact (rename_commands_olds_gone renames renames_keys_distinct m1 m' Hrn o nn Hin).
    + intros c Hc. rewrite Hframe by (apply removed_not_renamed; exact Hc).
      rewrite Hk1, (removed_listed c Hc). simpl.
      destruct (truthy_opt (obj_get c m)) eqn:T; [reflexivity|exact T].
  - exists (or_empty_object held), O. unfold clean_scripts.
    rewrite (remove_commands_inert _ _ _ Hinert). cbn [fst snd].
    rewrite (rename_commands_inert _ _ Hinert). auto.
Qed.

End CleanupTwice.

(** ** What the command cleanup writes and reports *)

Section CleanupRuns.
Import Json Runtime.
Context `{Codec}.
Context {casing : JsString.Casing}.

Lemma truthy_commands_delete c cmds m :
  ~ In c cmds ->
  truthy_commands cmds (obj_delete c m) = truthy_commands cmds m.
Proof.
  intros Hc. unfold truthy_commands. f_equal.
  induction cmds as [|k r IH]; [reflexivity|]. simpl.
  rewrite obj_get_delete_ne by (intros ->; apply Hc; left; reflexivity).
  rewrite IH by (intros Hin; apply Hc; right; exact Hin). reflexivity.
Qed.

(** The counter of the removal loop. *)
Lemma remove_commands_count cmds :
  List.NoDup cmds ->
  forall m n,
    exists m',
      fold_opt CleanupTemplate.remove_command cmds (JObj m, n)
      = Some (JObj m', (n + truthy_commands cmds m)%nat).
Proof.
  induction cmds as [|c r IH]; intros Hnd m n.
  - exists m. simpl. unfold truthy_commands. simpl. rewrite Nat.add_0_r. reflexivity.
  - inversion Hnd as [|? ? Hc Hnd1]; subst.
    simpl. unfold CleanupTemplate.remove_command at 1. simpl.
    unfold truthy_commands. simpl.
    destruct (truthy_opt (obj_get c m)) eqn:T.
    + destruct (IH Hnd1 (obj_delete c m) (S n)) as (m' & Hf).
      exists m'. rewrite Hf. rewrite truthy_commands_delete by exact Hc.
      unfold truthy_commands. simpl. do 2 f_equal. lia.
    + destruct (IH Hnd1 m n) as (m' & Hf). exists m'. rewrite Hf. reflexivity.
Qed.

Lemma commandsToRemove_distinct : List.NoDup CleanupTemplate.commandsToRemove.
Proof.
  unfold CleanupTemplate.commandsToRemove.
  repeat (constructor;
          [simpl; intros Hin; repeat (destruct Hin as [Hin|Hin]; [discriminate Hin|]);
           exact Hin|]).
  constructor.
Qed.

(** A successful run of the command cleanup of the guarded revision. *)
Lemma guarded_cleanup_run (w : world) (text : string)
    (manifest : list (string * json)) (scripts : json) (n : nat) :
  files w !! "package.json" = Some text ->
  JSON_parse text = Some (JObj manifest) ->
  "package.json" ∉ locked w ->
  clean_scripts (CleanupTemplate.or_empty_object (obj_get "scripts" manifest))
  = Some (scripts, n) ->
  CleanupTemplate.cleanupTemplateCommands w
  = (Ret tt,
     emit (Log "📝 Renamed container commands to infra:* pattern")
       (emit (Log ("✅ Cleaned up " +:+ CleanupTemplate.nat_to_string n
                     +:+ " template commands"))
          (emit (Wrote "package.json"
                   (JSON_stringify (JObj (obj_set "scripts" scripts manifest))
                      +:+ CleanupTemplate.nl))
             (with_files
                (<["package.json" :=
                     JSON_stringify (JObj (obj_set "scripts" scripts manifest))
                       +:+ CleanupTemplate.nl]> (files w))
                (emit (Log "🧹 Cleaning up template commands...") w))))).
Proof.
  intros Hfile Hparse Hfree Hclean. unfold clean_scripts in Hclean.
  destruct (fold_opt CleanupTemplate.remove_command CleanupTemplate.commandsToRemove
              (CleanupTemplate.or_empty_object (obj_get "scripts" manifest), O))
    as [st|] eqn:Hrm; [|discriminate].
  destruct (fold_opt CleanupTemplate.rename_command CleanupTemplate.renames (fst st))
    as [sc|] eqn:Hrn; [|discriminate].
  inversion Hclean; subst scripts n.
  unfold CleanupTemplate.cleanupTemplateCommands, CleanupTemplate.packageJsonPath,
    try_catch, bind, console_log, readFile, parse_json, writeFile.
  cbn -[fold_opt CleanupTemplate.commandsToRemove CleanupTemplate.renames].
  rewrite Hfile, Hparse.
  cbn -[fold_opt CleanupTemplate.commandsToRemove CleanupTemplate.renames].
  rewrite Hrm. cbn -[fold_opt CleanupTemplate.commandsToRemove CleanupTemplate.renames].
  rewrite Hrn. cbn -[fold_opt CleanupTemplate.commandsToRemove CleanupTemplate.renames].
  rewrite bool_decide_eq_false_2 by exact Hfree. reflexivity.
Qed.

Lemma clean_scripts_counts (scripts : list (string * json)) :
  exists scripts',
    clean_scripts (JObj scripts)
    = Some (JObj scripts',
            truthy_commands CleanupTemplate.commandsToRemove scripts).
Proof.
  destruct (remove_commands_count _ commandsToRemove_distinct scripts O) as (m1 & Hrm).
  destruct (rename_commands_object CleanupTemplate.renames renames_keys_distinct m1)
    as (m' & Hrn & _).
  exists m'. unfold clean_scripts. rewrite Hrm. cbn [fst snd]. rewrite Hrn.
  reflexivity.
Qed.

(** X15. On a manifest object with a [scripts] object that can be written,
    the command cleanup of the guarded revision performs exactly four
    effects: the opening line, the write of the manifest, the line with the
    count, which is the number of commands of the removal list that had a
    truthy value, and the line about the renaming, printed whether or not a
    command was renamed. *)
Theorem cleanup_reports_count (w : world) (text : string)
    (manifest scripts : list (string * json)) :
  files w !! "package.json" = Some text ->
  JSON_parse text = Some (JObj manifest) ->
  obj_get "scripts" manifest = Some (JObj scripts) ->
  "package.json" ∉ locked w ->
  exists text',
    trace (snd (CleanupTemplate.cleanupTemplateCommands w))
    = trace w
        ++ [ Log "🧹 Cleaning up template commands...";
             Wrote "package.json" text';
             Log ("✅ Cleaned up "
                    +:+ CleanupTemplate.nat_to_string
                          (truthy_commands CleanupTemplate.commandsToRemove scripts)
                    +:+ " template commands");
             Log "📝 Renamed container commands to infra:* pattern" ].
Proof.
  intros Hfile Hparse Hscripts Hfree.
  destruct (clean_scripts_counts scripts) as (scripts' & Hc).
  eexists.
  rewrite (guarded_cleanup_run w text manifest (JObj scripts')
             (truthy_commands CleanupTemplate.commandsToRemove scripts)
             Hfile Hparse Hfree).
  - cbn [snd emit with_files trace]. rewrite <- !app_assoc. reflexivity.
  - rewrite Hscripts. exact Hc.
Qed.

(** X16. A manifest object without a [scripts] member gets one: the file
    written is the manifest with an empty [scripts] object appended as its
    last member, and the count reported is 0. *)
Theorem cleanup_adds_empty_scripts (w : world) (text : string)
    (manifest : list (string * json)) :
  files w !! "package.json" = Some text ->
  JSON_parse text = Some (JObj manifest) ->
  obj_get "scripts" manifest = None ->
  "package.json" ∉ locked w ->
  fst (CleanupTemplate.cleanupTemplateCommands w) = Ret tt
  /\ files (snd (CleanupTemplate.cleanupTemplateCommands w)) !! "package.json"
     = Some (JSON_stringify (JObj (manifest ++ [("scripts", JObj [])]))
               +:+ CleanupTemplate.nl)
  /\ In (Log "✅ Cleaned up 0 template commands")
       (trace (snd (CleanupTemplate.cleanupTemplateCommands w))).
Proof.
  intros Hfile Hparse Hscripts Hfree.
  rewrite (guarded_cleanup_run w text manifest (JObj []) O Hfile Hparse Hfree).
  - cbn [fst snd emit with_files trace files]. split; [reflexivity|]. split.
    + rewrite lookup_insert_eq, (obj_set_absent _ _ _ Hscripts). reflexivity.
    + rewrite !in_app_iff. left. right. left. reflexivity.
  - rewrite Hscripts. reflexivity.
Qed.

End CleanupRuns.

Section CleanupRunsWitnesses.
Import Json Runtime.
#[local] Abbreviation codec := RefCodec.codec.
#[local] Existing Instance RefCasing.casing.

Lemma cleanup_reports_count_witness :
  exists text',
    trace (snd (CleanupTemplate.cleanupTemplateCommands (H := codec) emptied_tree))
    = [ Log "🧹 Cleaning up template commands...";
        Wrote "package.json" text';
        Log "✅ Cleaned up 8 template commands";
        Log "📝 Renamed container commands to infra:* pattern" ].
Proof.
  assert (H1 : files emptied_tree !! "package.json" = Some emptied_manifest_text)
    by reflexivity.
  assert (H2 : JSON_parse (Codec := codec) emptied_manifest_text
               = Some (JObj emptied_manifest)) by (vm_compute; reflexivity).
  assert (H3 : obj_get "scripts" emptied_manifest = Some (JObj emptied_scripts))
    by reflexivity.
  assert (H4 : "package.json" ∉ locked emptied_tree)
    by (simpl; apply not_elem_of_empty).
  destruct (cleanup_reports_count (H := codec) emptied_tree emptied_manifest_text
              emptied_manifest emptied_scripts H1 H2 H3 H4) as (text' & Ht).
  exists text'. rewrite Ht. reflexivity.
Defined.

Lemma cleanup_adds_empty_scripts_witness :
  files (snd (CleanupTemplate.cleanupTemplateCommands (H := codec) bare_tree))
    !! "package.json"
  = Some (JSON_stringify (Codec := codec)
            (JObj (bare_manifest ++ [("scripts", JObj [])]))
          +:+ CleanupTemplate.nl).
Proof.
  assert (H1 : files bare_tree !! "package.json" = Some bare_manifest_text)
    by reflexivity.
  assert (H2 : JSON_parse (Codec := codec) bare_manifest_text
               = Some (JObj bare_manifest)) by (vm_compute; reflexivity).
  assert (H3 : obj_get "scripts" bare_manifest = None) by reflexivity.
  assert (H4 : "package.json" ∉ locked bare_tree)
    by (simpl; apply not_elem_of_empty).
  exact (proj1 (proj2 (cleanup_adds_empty_scripts (H := codec) bare_tree
                         bare_manifest_text bare_manifest H1 H2 H3 H4))).
Defined.

End CleanupRunsWitnesses.

(** ** The command cleanup of the other revisions *)

Section OtherRevisions.
Import Json Runtime.
Context `{Codec}.
Context {casing : JsString.Casing}.

Lemma rename_fold_object rs m :
  fold_opt CleanupTemplate.rename_command rs (JObj m) = Some (JObj (rename_all rs m)).
Proof.
  revert m. induction rs as [|[o n] r IH]; intros m; [reflexivity|].
  simpl. rewrite rename_command_object. apply IH.
Qed.

Lemma marker_list_included cmd :
  In cmd CleanupTemplateMarker.commandsToRemove ->
  In cmd CleanupTemplate.commandsToRemove.
Proof. simpl. tauto. Qed.

Lemma renamed_not_removed_marker old new :
  In (old, new) CleanupTemplate.renames ->
  existsb (String.eqb old) CleanupTemplateMarker.commandsToRemove = false.
Proof.
  intros Hin. simpl in Hin.
  repeat (destruct Hin as [Heq|Hin]; [inversion Heq; subst; reflexivity|]).
  destruct Hin.
Qed.

Lemma listed_existsb cmd cmds :
  In cmd cmds -> existsb (String.eqb cmd) cmds = true.
Proof.
  intros Hin. apply existsb_exists. exists cmd. split; [exact Hin|].
  apply String.eqb_refl.
Qed.

(** X17. The marker revision on a derived project (a manifest object not
    named [nuxtship], with a [scripts] object, that can be written): every
    command of its removal list with a truthy value is gone, every command
    of the rename map with a truthy value has moved to its new name, every
    other command is as it was; its removal list is one shorter than that of
    the guarded revision, so [setup:auth:provision] stays.  What the
    truthiness tests pass over stays too: a command of the removal list
    without a truthy value is as it was, and when the old name of a renaming
    has no truthy value both its old and its new name are as they were. *)
Theorem marker_cleanup_keeps_provision (w : world) (text : string)
    (manifest scripts : list (string * json)) :
  files w !! "package.json" = Some text ->
  JSON_parse text = Some (JObj manifest) ->
  strict_eq_str (obj_get "name" manifest) "nuxtship" = false ->
  obj_get "scripts" manifest = Some (JObj scripts) ->
  "package.json" ∉ locked w ->
  exists scripts',
    fst (CleanupTemplateMarker.cleanupTemplate w) = Ret tt
    /\ files (snd (CleanupTemplateMarker.cleanupTemplate w)) !! "package.json"
       = Some (JSON_stringify (JObj (obj_set "scripts" (JObj scripts') manifest))
                 +:+ CleanupTemplateMarker.nl)
    /\ (forall cmd,
          In cmd CleanupTemplateMarker.commandsToRemove ->
          truthy_opt (obj_get cmd scripts) = true ->
          obj_get cmd scripts' = None)
    /\ (forall old new x,
          In (old, new) CleanupTemplate.renames ->
          obj_get old scripts = Some x -> truthy x = true ->
          obj_get old scripts' = None /\ obj_get new scripts' = Some x)
    /\ (forall k,
          existsb (String.eqb k) CleanupTemplateMarker.commandsToRemove = false ->
          ~ In k (rename_keys CleanupTemplate.renames) ->
          obj_get k scripts' = obj_get k scripts)
    /\ obj_get "setup:auth:provision" scripts'
       = obj_get "setup:auth:provision" scripts
    /\ (forall cmd,
          In cmd CleanupTemplateMarker.commandsToRemove ->
          truthy_opt (obj_get cmd scripts) = false ->
          obj_get cmd scripts' = obj_get cmd scripts)
    /\ (forall old new,
          In (old, new) CleanupTemplate.renames ->
          truthy_opt (obj_get old scripts) = false ->
          obj_get old scripts' = obj_get old scripts
          /\ obj_get new scripts' = obj_get new scripts).
Proof.
  intros Hfile Hparse Hname Hscripts Hfree.
  destruct (remove_commands_object CleanupTemplateMarker.commandsToRemove scripts O)
    as (m1 & n & Hrm & Hk1).
  destruct (rename_commands_object CleanupTemplate.renames renames_keys_distinct m1)
    as (m' & Hrn & Hframe & Hmove).
  pose proof (clean_scripts_skips CleanupTemplateMarker.commandsToRemove scripts m1 n m'
                (fun cmd Hin => removed_not_renamed cmd (marker_list_included cmd Hin))
                renamed_not_removed_marker Hrm Hrn) as [Hskip1 Hskip2].
  rewrite rename_fold_object in Hrn.
  assert (Hm' : rename_all CleanupTemplate.renames m1 = m') by congruence. clear Hrn.
  exists (rename_all CleanupTemplate.renames m1).
  assert (Hrun : CleanupTemplateMarker.cleanupTemplate w
                 = (Ret tt,
                    emit (Log "🚀 Your project is ready for development!")
                      (emit (Log "📝 Renamed container commands to infra:* pattern")
                         (emit (Log ("✅ Cleaned up " +:+ CleanupTemplate.nat_to_string n
                                       +:+ " template commands"))
                            (emit (Wrote "package.json"
                                     (JSON_stringify
                                        (JObj (obj_set "scripts"
                                                 (JObj (rename_all CleanupTemplate.renames m1))
                                                 manifest))
                                      +:+ CleanupTemplateMarker.nl))
                               (with_files
                                  (<["package.json" :=
                                       JSON_stringify
                                         (JObj (obj_set "scripts"
                                                  (JObj (rename_all CleanupTemplate.renames m1))
                                                  manifest))
                                       +:+ CleanupTemplateMarker.nl]> (files w))
                                  (emit (Log "🧹 User project detected - cleaning up template commands...")
                                     w))))))).
  { unfold CleanupTemplateMarker.cleanupTemplate, CleanupTemplateMarker.packageJsonPath,
      try_catch, bind, console_log, readFile, parse_json, writeFile.
    rewrite Hfile, Hparse.
    cbn -[fold_opt CleanupTemplateMarker.commandsToRemove CleanupTemplateMarker.rename].
    rewrite Hname.
    cbn -[fold_opt CleanupTemplateMarker.commandsToRemove CleanupTemplateMarker.rename].
    rewrite Hscripts.
    cbn -[fold_opt CleanupTemplateMarker.commandsToRemove CleanupTemplateMarker.rename].
    rewrite Hrm.
    cbn -[fold_opt CleanupTemplateMarker.commandsToRemove CleanupTemplateMarker.rename].
    unfold CleanupTemplateMarker.rename.
    repeat (rewrite rename_command_object;
            cbn -[rename_members CleanupTemplate.rename_command]).
    rewrite bool_decide_eq_false_2 by exact Hfree. reflexivity. }
  rewrite Hrun. cbn [fst snd emit with_files files]. rewrite Hm'.
  split; [reflexivity|]. split; [apply lookup_insert_eq|].
  assert (Hkeep : forall k,
             existsb (String.eqb k) CleanupTemplateMarker.commandsToRemove = false ->
             ~ In k (rename_keys CleanupTemplate.renames) ->
             obj_get k m' = obj_get k scripts).
  { intros k Hk Hnk. rewrite Hframe by exact Hnk. rewrite Hk1, Hk. reflexivity. }
  split; [|split; [|split; [exact Hkeep|split; [|split; [exact Hskip1|exact Hskip2]]]]].
  - intros cmd Hin Ht.
    rewrite Hframe by (apply removed_not_renamed, marker_list_included; exact Hin).
    rewrite Hk1, (listed_existsb cmd _ Hin), Ht. reflexivity.
  - intros old new x Hin Hx Ht. apply Hmove; [exact Hin| |exact Ht].
    rewrite Hk1, (renamed_not_removed_marker old new Hin). exact Hx.
  - apply Hkeep; [reflexivity|].
    simpl. intros Hin. repeat (destruct Hin as [Hin|Hin]; [discriminate Hin|]).
    exact Hin.
Qed.

(** X18. The revision that renames nothing: on a manifest object with a
    [scripts] object that can be written, the command cleanup returns after
    a single effect, the write of the manifest, in which a command is gone
    exactly when it is on the removal list with a truthy value and every
    other command, the container commands included, is as it was. *)
Theorem plain_cleanup_renames_nothing (w : world) (text : string)
    (manifest scripts : list (string * json)) :
  files w !! "package.json" = Some text ->
  JSON_parse text = Some (JObj manifest) ->
  obj_get "scripts" manifest = Some (JObj scripts) ->
  "package.json" ∉ locked w ->
  exists scripts',
    CleanupTemplatePlain.cleanupTemplateCommands w
    = (Ret tt,
       emit (Wrote "package.json"
               (JSON_stringify (JObj (obj_set "scripts" (JObj scripts') manifest))
                  +:+ CleanupTemplatePlain.nl))
         (with_files
            (<["package.json" :=
                 JSON_stringify (JObj (obj_set "scripts" (JObj scripts') manifest))
                   +:+ CleanupTemplatePlain.nl]> (files w)) w))
    /\ forall k,
         obj_get k scripts'
         = if existsb (String.eqb k) CleanupTemplatePlain.commandsToRemove
              && truthy_opt (obj_get k scripts)
           then None else obj_get k scripts.
Proof.
  intros Hfile Hparse Hscripts Hfree.
  destruct (remove_commands_object CleanupTemplatePlain.commandsToRemove scripts O)
    as (m1 & n & Hrm & Hk1).
  exists m1. split; [|exact Hk1].
  unfold CleanupTemplatePlain.cleanupTemplateCommands,
    CleanupTemplatePlain.packageJsonPath,
    try_catch, bind, console_log, readFile, parse_json, writeFile.
  rewrite Hfile, Hparse.
  cbn -[fold_opt CleanupTemplatePlain.commandsToRemove].
  rewrite Hscripts. cbn -[fold_opt CleanupTemplatePlain.commandsToRemove].
  rewrite Hrm. cbn -[fold_opt CleanupTemplatePlain.commandsToRemove].
  rewrite bool_decide_eq_false_2 by exact Hfree. reflexivity.
Qed.

(** X19. The self-deleting revision removes no command: on a manifest object
    with a [scripts] object that can be written, its command cleanup writes
    the manifest back with [init] replaced by the two setup steps when
    [init] had a truthy value, and with every other command as it was. *)
Theorem self_delete_cleanup_rewrites_init (w : world) (text : string)
    (manifest scripts : list (string * json)) :
  files w !! "package.json" = Some text ->
  JSON_parse text = Some (JObj manifest) ->
  obj_get "scripts" manifest = Some (JObj scripts) ->
  "package.json" ∉ locked w ->
  exists scripts',
    fst (CleanupTemplateSelfDelete.cleanupTemplateCommands w) = Ret tt
    /\ files (snd (CleanupTemplateSelfDelete.cleanupTemplateCommands w)) !! "package.json"
       = Some (JSON_stringify (JObj (obj_set "scripts" (JObj scripts') manifest))
                 +:+ CleanupTemplateSelfDelete.nl)
    /\ obj_get "init" scripts'
       = (if truthy_opt (obj_get "init" scripts) then Some init_command
          else obj_get "init" scripts)
    /\ forall k, k <> "init" -> obj_get k scripts' = obj_get k scripts.
Proof.
  intros Hfile Hparse Hscripts Hfree.
  exists (if truthy_opt (obj_get "init" scripts)
          then obj_set "init" init_command scripts else scripts).
  unfold CleanupTemplateSelfDelete.cleanupTemplateCommands,
    CleanupTemplateSelfDelete.packageJsonPath,
    try_catch, bind, console_log, readFile, parse_json, writeFile.
  rewrite Hfile, Hparse. cbn. rewrite Hscripts. cbn.
  destruct (truthy_opt (obj_get "init" scripts)) eqn:T; cbn;
    rewrite bool_decide_eq_false_2 by exact Hfree; cbn;
    (split; [reflexivity|]); (split; [apply lookup_insert_eq|]).
  - split; [apply obj_get_set_eq|]. intros k Hk. apply obj_get_set_ne. congruence.
  - split; reflexivity.
Qed.

End OtherRevisions.

Section OtherRevisionsWitnesses.
Import Json Runtime.
#[local] Abbreviation codec := RefCodec.codec.
#[local] Existing Instance RefCasing.casing.

Lemma emptied_tree_manifest :
  files emptied_tree !! "package.json" = Some emptied_manifest_text
  /\ JSON_parse (Codec := codec) emptied_manifest_text = Some (JObj emptied_manifest)
  /\ obj_get "scripts" emptied_manifest = Some (JObj emptied_scripts)
  /\ "package.json" ∉ locked emptied_tree.
Proof.
  split; [reflexivity|]. split; [vm_compute; reflexivity|]. split; [reflexivity|].
  simpl. apply not_elem_of_empty.
Qed.

Lemma marker_cleanup_witness :
  exists scripts',
    files (snd (CleanupTemplateMarker.cleanupTemplate (H := codec) emptied_tree))
      !! "package.json"
    = Some (JSON_stringify (Codec := codec)
              (JObj (obj_set "scripts" (JObj scripts') emptied_manifest))
            +:+ CleanupTemplateMarker.nl)
    /\ obj_get "setup:auth" scripts' = None
    /\ obj_get "setup:auth:provision" scripts'
       = Some (JStr "bun run deployment/scripts/provision.ts")
    /\ obj_get "setup:env" scripts' = Some (JStr EmptyString).
Proof.
  destruct emptied_tree_manifest as (H1 & H2 & H4 & H5).
  assert (H3 : strict_eq_str (obj_get "name" emptied_manifest) "nuxtship" = false)
    by reflexivity.
  destruct (marker_cleanup_keeps_provision (H := codec) emptied_tree
              emptied_manifest_text emptied_manifest emptied_scripts H1 H2 H3 H4 H5)
    as (scripts' & _ & Hw & Hrm & _ & _ & Hp & Hskip & _).
  exists scripts'. split; [exact Hw|]. split; [|split].
  - apply Hrm; [|reflexivity]. simpl. tauto.
  - rewrite Hp. reflexivity.
  - rewrite Hskip; [reflexivity| |reflexivity]. simpl. tauto.
Defined.

Lemma plain_cleanup_witness :
  exists scripts',
    fst (CleanupTemplatePlain.cleanupTemplateCommands (H := codec) emptied_tree) = Ret tt
    /\ obj_get "init" scripts' = None
    /\ obj_get "setup:env" scripts' = Some (JStr EmptyString)
    /\ obj_get "containers:start" scripts' = Some (JStr "docker compose up -d").
Proof.
  destruct emptied_tree_manifest as (H1 & H2 & H3 & H4).
  destruct (plain_cleanup_renames_nothing (H := codec) emptied_tree
              emptied_manifest_text emptied_manifest emptied_scripts H1 H2 H3 H4)
    as (scripts' & Hrun & Hk).
  exists scripts'. rewrite Hrun, !Hk. repeat split; reflexivity.
Defined.

Lemma self_delete_cleanup_witness :
  exists scripts',
    fst (CleanupTemplateSelfDelete.cleanupTemplateCommands (H := codec) emptied_tree)
    = Ret tt
    /\ obj_get "init" scripts' = Some init_command
    /\ obj_get "setup:full" scripts'
       = Some (JStr "bun run setup:certs && bun run setup:init-steps").
Proof.
  destruct emptied_tree_manifest as (H1 & H2 & H3 & H4).
  destruct (self_delete_cleanup_rewrites_init (H := codec) emptied_tree
              emptied_manifest_text emptied_manifest emptied_scripts H1 H2 H3 H4)
    as (scripts' & H0 & _ & Hi & Hk).
  exists scripts'. split; [exact H0|]. split; [rewrite Hi; reflexivity|].
  rewrite Hk by discriminate. reflexivity.
Defined.

End OtherRevisionsWitnesses.

(** ** The bridge, request by request *)

Section BridgeMoreFacts.
Import JsString Eff AuthContext.

Lemma truthy_id_some o s : truthy_id o = Some s -> o = Some s /\ s <> EmptyString.
Proof.
  destruct o as [t|]; simpl; [|discriminate].
  destruct (String.eqb_spec t EmptyString); [discriminate|].
  intros H. inversion H. subst. auto.
Qed.

Lemma truthy_id_of s : s <> EmptyString -> truthy_id (Some s) = Some s.
Proof. intros H. simpl. destruct (String.eqb_spec s EmptyString); [contradiction|reflexivity]. Qed.

(** Outside the API prefix the handlers return at once. *)
Lemma handlers_skip_pages (r : request) (st : state) :
  not_api (url r) = true -> forall h, In h handlers -> h r st = (Ret tt, st).
Proof.
  intros Hn h Hin. simpl in Hin. destruct Hin as [<-|[<-|[<-|[]]]];
    [unfold handler|unfold handler_example|unfold handler_logto];
    rewrite Hn; reflexivity.
Qed.

(** X20. The handler of [auth-context.ts] and the example revision, whose
    [catch] blocks only log, return normally on every request: a failing
    session module or a database that is down never reaches the caller.  And
    for a URL outside the API prefix (or a request without URL) each of the
    three revisions returns at once and leaves the state as it was, console
    included. *)
Theorem bridge_never_blocks (r : request) (st : state) :
  (forall h, In h [handler; handler_example] -> fst (h r st) = Ret tt)
  /\ (not_api (url r) = true -> forall h, In h handlers -> h r st = (Ret tt, st)).
Proof.
  split.
  - intros h Hin. simpl in Hin. destruct Hin as [<-|[<-|[]]].
    + unfold handler. destruct (not_api (url r)); [reflexivity|].
      unfold try_catch, bind, answer, db_execute.
      destruct (oidc r) as [s| |e]; simpl; try reflexivity.
      destruct (truthy_id _); simpl; [|reflexivity].
      destruct (db_up r); reflexivity.
    + unfold handler_example. destruct (not_api (url r)); [reflexivity|].
      unfold getUserSession, try_catch, bind, answer, db_execute.
      destruct (oidc r) as [s| |e]; simpl; try reflexivity.
      destruct (truthy_id _); simpl; [|reflexivity].
      destruct (db_up r); reflexivity.
  - apply handlers_skip_pages.
Qed.

Lemma bridge_never_blocks_witness :
  not_api (url page_request) = true
  /\ handler page_request fresh_state = (Ret tt, fresh_state)
  /\ handler_logto page_request fresh_state = (Ret tt, fresh_state)
  /\ fst (handler unreachable_db_request fresh_state) = Ret tt.
Proof.
  assert (Hp : not_api (url page_request) = true) by reflexivity.
  split; [exact Hp|]. split; [|split].
  - apply (proj2 (bridge_never_blocks page_request fresh_state) Hp). left. reflexivity.
  - apply (proj2 (bridge_never_blocks page_request fresh_state) Hp).
    right. right. left. reflexivity.
  - apply (proj1 (bridge_never_blocks unreachable_db_request fresh_state)).
    left. reflexivity.
Defined.

(** X21. The context and the database variable move together: after each
    revision of the handler, either [userId], [user] and the statements
    executed are what they were, or the database was up, exactly one
    statement was added, built from a non-empty subject, and that subject is
    the [userId] of the context.  A failing statement leaves no identity on
    the context. *)
Theorem identity_and_variable_together (r : request) (st : state) :
  (untouched st (snd (handler r st))
   \/ (db_up r = true /\ bridged set_local_auth st (snd (handler r st))))
  /\ (untouched st (snd (handler_example r st))
      \/ (db_up r = true /\ bridged set_local_app st (snd (handler_example r st))))
  /\ (untouched st (snd (handler_logto r st))
      \/ (db_up r = true /\ bridged set_session_raw st (snd (handler_logto r st)))).
Proof.
  assert (U : untouched st st) by (unfold untouched; auto).
  split; [|split].
  - unfold handler. destruct (not_api (url r)); [left; exact U|].
    unfold try_catch, bind, answer, db_execute.
    destruct (oidc r) as [s| |e]; simpl; try (left; exact U).
    destruct (truthy_id _) as [uid|] eqn:E; simpl; [|left; exact U].
    destruct (db_up r); simpl; [|left; exact U].
    right. split; [reflexivity|]. exists uid.
    destruct (truthy_id_some _ _ E) as [_ Hne]. auto.
  - unfold handler_example. destruct (not_api (url r)); [left; exact U|].
    unfold getUserSession, try_catch, bind, answer, db_execute.
    destruct (oidc r) as [s| |e]; simpl; try (left; exact U).
    destruct (truthy_id _) as [uid|] eqn:E; simpl; [|left; exact U].
    destruct (db_up r); simpl; [|left; exact U].
    right. split; [reflexivity|]. exists uid.
    destruct (truthy_id_some _ _ E) as [_ Hne]. auto.
  - unfold handler_logto. destruct (not_api (url r)); [left; exact U|].
    unfold try_catch, bind, answer, db_execute, when.
    destruct (logto_init r) as [e|]; simpl.
    { destruct (negb _); left; exact U. }
    destruct (logto_client r) as [[c| |e]|]; simpl; try (left; exact U).
    + destruct (truthy_id _) as [uid|] eqn:E; simpl; [|left; exact U].
      destruct (db_up r); simpl.
      * right. split; [reflexivity|]. exists uid.
        destruct (truthy_id_some _ _ E) as [_ Hne]. auto.
      * left; exact U.
    + destruct (negb _); left; exact U.
Qed.

(** X22. For a signed-in request under the API prefix, with the database
    up, each revision sets [userId] to the subject and executes its one
    statement ([auth.user_id] as a parameter, [app.user_id] as a parameter,
    the raw [SET SESSION] text); the example revision leaves [user] as it
    was, the two others store the claims; and [requireAuth] then returns
    the subject. *)
Theorem signed_in_request_is_bridged (r : request) (c : claims) (userId : string)
    (st : state) :
  signed_in r c userId ->
  handler r st
    = (Ret tt, {| context_userId := Some userId; context_user := Some c;
                  executed := executed st ++ [set_local_auth userId];
                  console := console st |})
  /\ handler_example r st
     = (Ret tt, {| context_userId := Some userId; context_user := context_user st;
                   executed := executed st ++ [set_local_app userId];
                   console := console st |})
  /\ handler_logto r st
     = (Ret tt, {| context_userId := Some userId; context_user := Some c;
                   executed := executed st ++ [set_session_raw userId];
                   console := console st |})
  /\ (forall h, In h handlers ->
        fst (requireAuth (snd (h r st))) = Ret userId).
Proof.
  intros (Hapi & Hsub & Hne & Ho & Hi & Hc & Hdb).
  assert (H1 : handler r st
    = (Ret tt, {| context_userId := Some userId; context_user := Some c;
                  executed := executed st ++ [set_local_auth userId];
                  console := console st |})).
  { unfold handler. rewrite Hapi, Ho, Hdb. unfold try_catch, bind, answer, chain. cbn -[truthy_id].
    rewrite Hsub, (truthy_id_of _ Hne). reflexivity. }
  assert (H2 : handler_example r st
     = (Ret tt, {| context_userId := Some userId; context_user := context_user st;
                   executed := executed st ++ [set_local_app userId];
                   console := console st |})).
  { unfold handler_example, getUserSession. rewrite Hapi, Ho, Hdb.
    unfold try_catch, bind, answer, chain. cbn -[truthy_id].
    rewrite Hsub, (truthy_id_of _ Hne). reflexivity. }
  assert (H3 : handler_logto r st
     = (Ret tt, {| context_userId := Some userId; context_user := Some c;
                   executed := executed st ++ [set_session_raw userId];
                   console := console st |})).
  { unfold handler_logto. rewrite Hapi, Hi, Hc, Hdb.
    unfold try_catch, bind, answer, chain. cbn -[truthy_id].
    rewrite Hsub, (truthy_id_of _ Hne). reflexivity. }
  split; [exact H1|]. split; [exact H2|]. split; [exact H3|].
  intros h Hin. simpl in Hin. destruct Hin as [<-|[<-|[<-|[]]]];
    [rewrite H1|rewrite H2|rewrite H3]; unfold requireAuth;
    cbn -[truthy_id]; rewrite (truthy_id_of _ Hne); reflexivity.
Qed.

Lemma signed_in_request_witness :
  signed_in signed_in_request signed_in_claims "user-42"
  /\ fst (requireAuth (snd (handler signed_in_request fresh_state))) = Ret "user-42".
Proof.
  assert (H : signed_in signed_in_request signed_in_claims "user-42").
  { unfold signed_in. repeat split; try reflexivity. discriminate. }
  split; [exact H|].
  apply (proj2 (proj2 (proj2
    (signed_in_request_is_bridged signed_in_request signed_in_claims "user-42"
       fresh_state H)))).
  left. reflexivity.
Defined.

(** X23. After any revision of the handler has run on a request without a
    valid session, starting from a context without [userId], [requireAuth]
    throws [Authentication required] and [getUser] returns the [user] the
    context had. *)
Theorem anonymous_request_is_rejected_downstream (r : request) (st : state) :
  context_userId st = None -> no_valid_session r ->
  forall h, In h handlers ->
    fst (requireAuth (snd (h r st))) = Throw (Error "Authentication required")
    /\ fst (getUser (snd (h r st))) = Ret (context_user st).
Proof.
  intros Hnone Hno h Hin.
  assert (Hu : untouched st (snd (h r st))).
  { destruct (not_api (url r)) eqn:Hapi.
    - rewrite (handlers_skip_pages r st Hapi h Hin). unfold untouched. auto.
    - simpl in Hin. destruct Hin as [<-|[<-|[<-|[]]]].
      + apply handler_unauthenticated; [exact Hapi|apply Hno].
      + apply handler_example_unauthenticated; [exact Hapi|apply Hno].
      + apply handler_logto_unauthenticated; assumption. }
  destruct Hu as (Hid & Hus & _). unfold requireAuth, getUser. simpl.
  rewrite Hid, Hnone, Hus. auto.
Qed.

Lemma anonymous_request_witness :
  context_userId fresh_state = None
  /\ no_valid_session anonymous_request
  /\ fst (requireAuth (snd (handler_logto anonymous_request fresh_state)))
     = Throw (Error "Authentication required")
  /\ fst (getUser (snd (handler anonymous_request fresh_state))) = Ret None.
Proof.
  assert (Hno : no_valid_session anonymous_request) by (split; exact I).
  split; [reflexivity|]. split; [exact Hno|]. split.
  - apply (anonymous_request_is_rejected_downstream anonymous_request fresh_state
             eq_refl Hno handler_logto).
    right. right. left. reflexivity.
  - apply (anonymous_request_is_rejected_downstream anonymous_request fresh_state
             eq_refl Hno handler).
    left. reflexivity.
Defined.

(** X24. When Logto's client throws an error object, the Logto revision
    calls [console.error] once, with its label and that object, unless the
    message of the object is exactly [Not authenticated.], in which case the
    console is left as it was; either way it returns normally. *)
Theorem logto_failure_logging (r : request) (st : state) (e : error) :
  not_api (url r) = false -> logto_init r = None ->
  logto_client r = Some (Fails e) ->
  fst (handler_logto r st) = Ret tt
  /\ console (snd (handler_logto r st))
     = if String.eqb (message e) "Not authenticated." then console st
       else console st ++ [("Failed to set auth context:", e)].
Proof.
  intros Hapi Hi Hc. unfold handler_logto. rewrite Hapi, Hi, Hc.
  unfold try_catch, bind, answer, when. simpl.
  destruct (String.eqb (message e) "Not authenticated."); split; reflexivity.
Qed.

Lemma logto_failure_logging_witness :
  console (snd (handler_logto anonymous_request fresh_state)) = []
  /\ console (snd (handler_logto expired_request fresh_state))
     = [("Failed to set auth context:", Error "jwt expired")].
Proof.
  split.
  - exact (proj2 (logto_failure_logging anonymous_request fresh_state
                    (Error "Not authenticated.") eq_refl eq_refl eq_refl)).
  - exact (proj2 (logto_failure_logging expired_request fresh_state
                    (Error "jwt expired") eq_refl eq_refl eq_refl)).
Defined.

End BridgeMoreFacts.

(** ** Waiting for the identity provider *)

Section WaitFacts.
Import Eff LogtoSetup.

Lemma probe_spec (d : string) (w : net) :
  probe d w
  = (Ret (ready (answers w (length (requests w)))),
     {| AUTH_DOMAIN := AUTH_DOMAIN w; answers := answers w;
        requests := requests w ++ [console_url d]; pauses := pauses w |}).
Proof.
  unfold probe, try_catch, bind, fetch_head, console_url.
  destruct (answers w (length (requests w))); reflexivity.
Qed.

Lemma wait_loop_spec (d : string) (fuel : nat) :
  forall (attempts : Z) (w : net),
    0 <= attempts -> attempts + Z.of_nat fuel = maxAttempts -> (0 < fuel)%nat ->
    (forall i, (i < fuel)%nat -> first_ready_at w i ->
       fst (wait_loop fuel d attempts w) = Ret tt
       /\ requests (snd (wait_loop fuel d attempts w))
          = requests w ++ repeat (console_url d) (S i)
       /\ pauses (snd (wait_loop fuel d attempts w)) = (pauses w + i)%nat)
    /\ (none_ready w fuel ->
        fst (wait_loop fuel d attempts w)
        = Throw (Error "Logto took too long to start up")
        /\ requests (snd (wait_loop fuel d attempts w))
           = requests w ++ repeat (console_url d) fuel
        /\ pauses (snd (wait_loop fuel d attempts w)) = (pauses w + (fuel - 1))%nat).
Proof.
  induction fuel as [|fuel IH]; intros attempts w H0 Hsum Hpos; [lia|].
  assert (Hlt : (attempts <? maxAttempts) = true) by (apply Z.ltb_lt; lia).
  cbn [wait_loop]. rewrite Hlt. unfold bind at 1 3 5 7 9 11. rewrite probe_spec.
  set (w1 := {| AUTH_DOMAIN := AUTH_DOMAIN w; answers := answers w;
                requests := requests w ++ [console_url d]; pauses := pauses w |}).
  assert (Hlen : length (requests w1) = S (length (requests w)))
    by (simpl; rewrite length_app; simpl; lia).
  destruct (ready (answers w (length (requests w)))) eqn:R0.
  - split.
    + intros i Hi [Hr Hbefore]. destruct i as [|i].
      * simpl. rewrite Nat.add_0_r. auto.
      * specialize (Hbefore O ltac:(lia)). rewrite Nat.add_0_r in Hbefore. congruence.
    + intros Hn. specialize (Hn O ltac:(lia)). rewrite Nat.add_0_r in Hn. congruence.
  - destruct (attempts + 1 >=? maxAttempts) eqn:Hge.
    + assert (fuel = O) by (apply Z.geb_le in Hge; lia). subst fuel. split.
      * intros i Hi [Hr _]. assert (i = O) by lia. subst i.
        rewrite Nat.add_0_r in Hr. congruence.
      * intros _. simpl. rewrite Nat.add_0_r. auto.
    + assert (Hf : (0 < fuel)%nat).
      { rewrite Z.geb_leb in Hge. apply Z.leb_gt in Hge. lia. }
      set (w2 := {| AUTH_DOMAIN := AUTH_DOMAIN w1; answers := answers w1;
                    requests := requests w1; pauses := S (pauses w1) |}).
      assert (E : (pause ;;; wait_loop fuel d (attempts + 1)) w1
                  = wait_loop fuel d (attempts + 1) w2) by reflexivity.
      rewrite E. clear E.
      destruct (IH (attempts + 1) w2 ltac:(lia) ltac:(lia) Hf) as [IHa IHb].
      assert (Hshift : forall j,
                 answers w2 (length (requests w2) + j)%nat
                 = answers w (length (requests w) + S j)%nat).
      { intros j. subst w2. cbn [answers requests]. rewrite Hlen.
        subst w1. cbn [answers]. f_equal. lia. }
      split.
      * intros i Hi [Hr Hbefore]. destruct i as [|i].
        { rewrite Nat.add_0_r in Hr. congruence. }
        destruct (IHa i ltac:(lia)) as (E1 & E2 & E3).
        { split; [rewrite Hshift; exact Hr|].
          intros j Hj. rewrite Hshift. apply Hbefore. lia. }
        split; [exact E1|]. split.
        -- rewrite E2. subst w2 w1. cbn [requests]. rewrite <- app_assoc. reflexivity.
        -- rewrite E3. subst w2 w1. cbn [pauses]. lia.
      * intros Hn. destruct IHb as (E1 & E2 & E3).
        { intros j Hj. rewrite Hshift. apply Hn. lia. }
        split; [exact E1|]. split.
        -- rewrite E2. subst w2 w1. cbn [requests]. rewrite <- app_assoc. reflexivity.
        -- rewrite E3. subst w2 w1. cbn [pauses]. lia.
Qed.

(** X25. [waitForLogto], with the domain set: when the first answer with a
    status below 500 is the [i]-th of the coming ones, [i < 30], it returns
    after [i + 1] requests to the console URL and [i] pauses; when none of
    the 30 coming answers is one (a rejected request counts as none), it
    throws [Logto took too long to start up] after exactly 30 requests and
    29 pauses. *)
Theorem waitForLogto_bounded (w : net) (authDomain : string) :
  AUTH_DOMAIN w = Some authDomain -> authDomain <> EmptyString ->
  (forall i, (i < 30)%nat -> first_ready_at w i ->
     fst (waitForLogto w) = Ret tt
     /\ requests (snd (waitForLogto w))
        = requests w ++ repeat (console_url authDomain) (S i)
     /\ pauses (snd (waitForLogto w)) = (pauses w + i)%nat)
  /\ (none_ready w 30 ->
      fst (waitForLogto w) = Throw (Error "Logto took too long to start up")
      /\ requests (snd (waitForLogto w))
         = requests w ++ repeat (console_url authDomain) 30
      /\ pauses (snd (waitForLogto w)) = (pauses w + 29)%nat).
Proof.
  intros Hd Hne. unfold waitForLogto. rewrite Hd.
  destruct (String.eqb_spec authDomain EmptyString) as [E|_]; [contradiction|].
  exact (wait_loop_spec authDomain (Z.to_nat maxAttempts) 0 w
           ltac:(lia) ltac:(reflexivity) ltac:(unfold maxAttempts; lia)).
Qed.

Lemma waitForLogto_bounded_witness :
  fst (waitForLogto slow_start) = Ret tt
  /\ length (requests (snd (waitForLogto slow_start))) = 4%nat
  /\ pauses (snd (waitForLogto slow_start)) = 3%nat.
Proof.
  destruct (waitForLogto_bounded slow_start "auth.localhost" eq_refl
              ltac:(discriminate)) as [Ha _].
  destruct (Ha 3%nat ltac:(lia)) as (E1 & E2 & E3).
  - split; [reflexivity|]. intros j Hj.
    destruct j as [|[|[|j]]]; [reflexivity..|lia].
  - split; [exact E1|]. split; [rewrite E2; reflexivity|exact E3].
Defined.

End WaitFacts.
